(** * Incremental OHLCV ingestion pipeline: a shallow embedding

    The development follows the Python sources

      - [src/config/settings.py]      (module [Config])
      - [src/ingestion/validator.py]  (module [DataValidator])
      - [src/ingestion/storage.py]    (module [DuckDBStorage])
      - [src/ingestion/downloader.py] (module [StockDataDownloader])
      - [src/ingestion/pipeline.py]   (module [IngestionPipeline])

    Conventions.
      - A pandas DataFrame is a list of typed rows together with the column
        index and the per-column answers of the pandas dtype predicates.
      - A float64 cell is a [spec_float] (IEEE 754 values with NaN, signed
        zeros and infinities); comparisons are [SFltb] and [SFleb].
      - The price and volume fields of a row are the cells of columns of
        a numeric dtype.  In a column of another dtype a cell is text or
        missing: the field only says which (NaN or None is a missing
        cell), and a comparison of text with a number raises TypeError.
      - A calendar date is its proleptic Gregorian ordinal
        ([datetime.date.toordinal]).
      - Python exceptions are values of [exn]; code that can raise lives in
        the monad [M S A := S -> (exn + A) * S].
      - f-string messages are constructors that carry the interpolated
        values.  Calls to the logger are left out: they neither change
        control flow nor the data.                                         *)

From Stdlib Require Import List ZArith String Ascii Bool Lia Arith.
From Stdlib Require Import RelationClasses.
From Stdlib Require Import Permutation Sorted.
From Stdlib Require Import Floats.SpecFloat.
Import ListNotations.
Open Scope string_scope.
Open Scope list_scope.
Open Scope Z_scope.

(* ================================================================== *)
(** ** Exceptions and the exception-state monad *)

Inductive exn : Type :=
| AttributeError                     (* attribute access on None *)
| TypeError                          (* comparison of text_columns objects *)
| KeyError (key : string)            (* missing column label *)
| OverflowError                      (* date value out of range *)
| ValueError                         (* negative sleep length; column
                                        label already there *)
| ConstraintException (what : string)(* DuckDB: PRIMARY KEY / NOT NULL *)
| ConversionException (what : string)(* DuckDB: value out of the range of
                                        the column type *)
| ExternalError (what : string).     (* I/O failure of the database, the
                                        provider or the date parser *)

Definition M (S A : Type) : Type := S -> (exn + A) * S.

Definition ret {S A} (a : A) : M S A := fun s => (inr a, s).

Definition raise {S A} (e : exn) : M S A := fun s => (inl e, s).

Definition bind {S A B} (m : M S A) (k : A -> M S B) : M S B :=
  fun s => match m s with
           | (inr a, s') => k a s'
           | (inl e, s') => (inl e, s')
           end.

(** [try: m except Exception as e: h e] *)
Definition try_except {S A} (m : M S A) (h : exn -> M S A) : M S A :=
  fun s => match m s with
           | (inr a, s') => (inr a, s')
           | (inl e, s') => h e s'
           end.

(** [try: m finally: f] where [f] cannot raise. *)
Definition try_finally {S A} (m : M S A) (f : S -> S) : M S A :=
  fun s => let '(r, s') := m s in (r, f s').

Definition gets {S A} (f : S -> A) : M S A := fun s => (inr (f s), s).

Definition modify {S} (f : S -> S) : M S unit := fun s => (inr tt, f s).

Definition lift_result {S A} (r : exn + A) : M S A := fun s => (r, s).

(** Run a computation on the second component of a pair state. *)
Definition on_snd {S1 S2 A} (m : M S2 A) : M (S1 * S2) A :=
  fun s => let '(r, s2) := m (snd s) in (r, (fst s, s2)).

Declare Scope monad_scope.
Delimit Scope monad_scope with monad.
Notation "x <- m ;; k" := (bind m (fun x => k))
  (at level 61, m at next level, right associativity) : monad_scope.
Notation "m ;; k" := (bind m (fun _ => k))
  (at level 61, right associativity) : monad_scope.
Open Scope monad_scope.

(** [for x in xs: body x]; an exception leaving [body] leaves the loop. *)
Fixpoint for_each {S A} (xs : list A) (body : A -> M S unit) : M S unit :=
  match xs with
  | [] => ret tt
  | x :: xs' => body x ;; for_each xs' body
  end.

(* ================================================================== *)
(** ** Calendar dates ([datetime.date]) *)

Module Date.

(** [date.min.toordinal()] and [date.max.toordinal()] *)
Definition min_ordinal : Z := 1.
Definition max_ordinal : Z := 3652059.

(** [d + timedelta(days=n)] *)
Definition add_days (d n : Z) : exn + Z :=
  if (min_ordinal <=? d + n) && (d + n <=? max_ordinal)
  then inr (d + n) else inl OverflowError.

(** Year, month and day of an ordinal (days are counted in 400-year
    eras starting on 1 March). *)
Definition civil (ordinal : Z) : Z * Z * Z :=
  let z := ordinal + 305 in
  let era := z / 146097 in
  let doe := z - era * 146097 in
  let yoe := (doe - doe / 1460 + doe / 36524 - doe / 146096) / 365 in
  let doy := doe - (365 * yoe + yoe / 4 - yoe / 100) in
  let mp := (5 * doy + 2) / 153 in
  let d := doy - (153 * mp + 2) / 5 + 1 in
  let m := if mp <? 10 then mp + 3 else mp - 9 in
  let y := yoe + era * 400 + (if m <=? 2 then 1 else 0) in
  (y, m, d).

Definition digit (n : Z) : ascii := ascii_of_nat (48 + Z.to_nat (n mod 10)).

Definition digits2 (n : Z) : string :=
  String (digit (n / 10)) (String (digit n) EmptyString).

Definition digits4 (n : Z) : string :=
  String (digit (n / 1000)) (String (digit (n / 100)) (digits2 n)).

(** [d.strftime('%Y-%m-%d')], years written with four digits *)
Definition strftime (ordinal : Z) : string :=
  let '(y, m, d) := civil ordinal in
  (digits4 y ++ "-" ++ digits2 m ++ "-" ++ digits2 d)%string.

End Date.

(* ================================================================== *)
(** ** [src/config/settings.py] *)

Module Config.

Record Settings : Type := {
  default_start_date : string;
  default_end_date : string;
  max_retries : Z;
  retry_delay : Z;
  min_data_points : Z
}.

(** The module-level constants, computed when the module is imported on
    day [today] ([datetime.now()]). *)
Definition DEFAULT_START_DATE (today : Z) : string :=
  Date.strftime (today - 365 * 5).
Definition DEFAULT_END_DATE (today : Z) : string := Date.strftime today.
Definition MAX_RETRIES : Z := 3.
Definition RETRY_DELAY : Z := 2.
Definition MIN_DATA_POINTS : Z := 10.

(** [Settings.__init__] *)
Definition init (today : Z) : Settings :=
  {| default_start_date := DEFAULT_START_DATE today;
     default_end_date := DEFAULT_END_DATE today;
     max_retries := MAX_RETRIES;
     retry_delay := RETRY_DELAY;
     min_data_points := MIN_DATA_POINTS |}.

End Config.

(* ================================================================== *)
(** ** Rows and frames *)

Definition float64 : Type := spec_float.

Definition zero : float64 := S754_zero false.

(** [x < 0], [x >= 0] and [x >= y] on float64 cells *)
Definition flt0 (x : float64) : bool := SFltb x zero.
Definition fge0 (x : float64) : bool := SFleb zero x.
Definition fge (x y : float64) : bool := SFleb y x.
Definition flt (x y : float64) : bool := SFltb x y.

(** [pd.isnull] on a float64 cell *)
Definition is_nan (x : float64) : bool :=
  match x with S754_nan => true | _ => false end.

(** The same on an integer cell that may be missing *)
Definition ilt0 (v : option Z) : bool :=
  match v with Some n => n <? 0 | None => false end.
Definition ige0 (v : option Z) : bool :=
  match v with Some n => 0 <=? n | None => false end.

Definition is_null {A} (v : option A) : bool :=
  match v with Some _ => false | None => true end.

(** One observation.  [None] is a missing cell (None / NaT / NA); a missing
    float64 cell is NaN. *)
Record Row : Type := {
  ticker : option string;
  date : option Z;
  open : float64;
  high : float64;
  low : float64;
  close : float64;
  volume : option Z;
  adj_close : float64
}.

(** What pandas answers about the dtype of a column. *)
Record column_info : Type := {
  is_string_dtype : bool;       (* pd.api.types.is_string_dtype *)
  is_numeric_dtype : bool       (* pd.api.types.is_numeric_dtype *)
}.

(** A frame: the column index with the dtype answers, the exception (if
    any) that [pd.to_datetime] raises on the date column, and the rows.  A
    field of a row is the cell of the column of that name when the column
    is present. *)
Record DataFrame : Type := {
  columns : list (string * column_info);
  to_datetime_error : option exn;
  rows : list Row
}.

(** [col in df.columns] *)
Definition has_column (col : string) (df : DataFrame) : bool :=
  existsb (fun c => String.eqb col (fst c)) (columns df).

Fixpoint lookup_column (col : string) (cs : list (string * column_info))
  : option column_info :=
  match cs with
  | [] => None
  | (c, i) :: cs' => if String.eqb col c then Some i else lookup_column col cs'
  end.

Definition column_is (p : column_info -> bool) (col : string) (df : DataFrame)
  : bool :=
  match lookup_column col (columns df) with
  | Some i => p i
  | None => false
  end.

(** [df.empty]: some axis has length 0 *)
Definition empty (df : DataFrame) : bool :=
  match rows df, columns df with
  | [], _ => true
  | _, [] => true
  | _, _ => false
  end.

(** [df is None or df.empty] *)
Definition none_or_empty (df : option DataFrame) : bool :=
  match df with
  | None => true
  | Some d => empty d
  end.

Definition with_rows (df : DataFrame) (rs : list Row) : DataFrame :=
  {| columns := columns df;
     to_datetime_error := to_datetime_error df;
     rows := rs |}.

(** [len(x) > 0], the truth value of a list or a string *)
Definition truthy {A} (l : list A) : bool :=
  match l with [] => false | _ => true end.

Definition str_truthy (s : option string) : bool :=
  match s with
  | Some (String _ _) => true
  | _ => false
  end.

(** [a or b] on an optional string *)
Definition str_or (a : option string) (b : string) : string :=
  match a with
  | Some (String c s) => String c s
  | _ => b
  end.

Definition count {A} (p : A -> bool) (l : list A) : nat :=
  List.length (filter p l).

(* ================================================================== *)
(** ** [src/ingestion/validator.py] *)

Module DataValidator.

Definition required_columns : list string :=
  ["ticker"; "date"; "open"; "high"; "low"; "close"; "volume"; "adj_close"].

Definition price_cols : list string :=
  ["open"; "high"; "low"; "close"; "adj_close"].

(** The cell of a price column in a row. *)
Definition price (col : string) (r : Row) : float64 :=
  if String.eqb col "open" then open r
  else if String.eqb col "high" then high r
  else if String.eqb col "low" then low r
  else if String.eqb col "close" then close r
  else adj_close r.

(** [pd.isnull] on the cell of a required column. *)
Definition cell_isnull (col : string) (r : Row) : bool :=
  if String.eqb col "ticker" then is_null (ticker r)
  else if String.eqb col "date" then is_null (date r)
  else if String.eqb col "volume" then is_null (volume r)
  else is_nan (price col r).

Inductive schema_error : Type :=
| EmptyDataFrame                           (* DataFrame is None or empty *)
| MissingRequiredColumns (cols : list string)
| TickerNotString
| DateNotValid (e : exn)
| ColumnNotNumeric (col : string).

Inductive quality_warning : Type :=
| EmptyData                                (* DataFrame is None or empty *)
| InsufficientData (n : nat) (minimum : Z)
| NegativeValues (col : string) (n : nat)
| HighBelowLow (n : nat)
| MissingValues (col : string) (n : nat)
| DuplicateKeys (n : nat)
| DateGaps (n : nat)
| SkippedQuality.           (* Skipped quality validation due to schema
                               errors *)

(** [errors.append(e)] when [c] holds *)
Definition append_if {A} (c : bool) (e : A) (errors : list A) : list A :=
  if c then errors ++ [e] else errors.

Definition validate_schema (df : option DataFrame)
  : bool * list schema_error :=
  match df with
  | None => (false, [EmptyDataFrame])
  | Some df =>
    if empty df then (false, [EmptyDataFrame]) else
    let errors := [] in
    let missing_cols :=
      filter (fun c => negb (has_column c df)) required_columns in
    let errors :=
      append_if (truthy missing_cols) (MissingRequiredColumns missing_cols)
                errors in
    let errors :=
      append_if (has_column "ticker" df
                 && negb (column_is is_string_dtype "ticker" df))
                TickerNotString errors in
    let errors :=
      if has_column "date" df then
        match to_datetime_error df with
        | Some e => errors ++ [DateNotValid e]
        | None => errors
        end
      else errors in
    let errors :=
      fold_left
        (fun errors col =>
           append_if (has_column col df
                      && negb (column_is is_numeric_dtype col df))
                     (ColumnNotNumeric col) errors)
        price_cols errors in
    let errors :=
      append_if (has_column "volume" df
                 && negb (column_is is_numeric_dtype "volume" df))
                (ColumnNotNumeric "volume") errors in
    (negb (truthy errors), errors)
  end.

(** [df.duplicated(subset=['ticker', 'date']).sum()] *)
Definition same_key (r1 r2 : Row) : bool :=
  match ticker r1, ticker r2 with
  | Some a, Some b => String.eqb a b
  | None, None => true
  | _, _ => false
  end
  &&
  match date r1, date r2 with
  | Some a, Some b => a =? b
  | None, None => true
  | _, _ => false
  end.

Fixpoint duplicated (seen : list Row) (rs : list Row) : nat :=
  match rs with
  | [] => 0%nat
  | r :: rs' =>
    ((if existsb (same_key r) seen then 1 else 0)
     + duplicated (r :: seen) rs')%nat
  end.

(** [df.sort_values('date')]: the dates present, in ascending order
    (missing dates sort last and give a missing difference). *)
Fixpoint insert_sorted (d : Z) (l : list Z) : list Z :=
  match l with
  | [] => [d]
  | x :: l' => if d <=? x then d :: l else x :: insert_sorted d l'
  end.

Definition sorted_dates (rs : list Row) : list Z :=
  fold_right
    (fun r acc => match date r with
                  | Some d => insert_sorted d acc
                  | None => acc
                  end) [] rs.

(** [date_diffs[date_diffs > 7].count()] *)
Fixpoint large_gaps (l : list Z) : nat :=
  match l with
  | a :: (b :: _) as l' =>
    let large := 7 <? b - a in
    ((if large then 1 else 0) + large_gaps l')%nat
  | _ => 0%nat
  end.

(** Whether the cells of [col] in the rows [rs] can be compared with a
    number.  In a column of a numeric dtype every cell is a number.  In
    any other column (object, str) a cell that is not missing is text, and
    [text < 0] and [text >= 0] raise TypeError; a missing cell compares
    false. *)
Definition orderable (col : string) (df : DataFrame) (rs : list Row)
  : bool :=
  column_is is_numeric_dtype col df || forallb (cell_isnull col) rs.

(** The price and volume columns of the frame that hold text. *)
Definition text_columns (df : DataFrame) : list string :=
  filter (fun col => has_column col df && negb (orderable col df (rows df)))
         (price_cols ++ ["volume"]).

Definition validate_data_quality (settings : Config.Settings)
           (df : option DataFrame) : exn + (bool * list quality_warning) :=
  match df with
  | None => inr (false, [EmptyData])
  | Some df =>
    if empty df then inr (false, [EmptyData]) else
    (* (df[col] < 0) on a column of text: the first exception of the
       function, whatever has been appended before *)
    if truthy (text_columns df) then inl TypeError else
    let n := List.length (rows df) in
    let warnings := [] in
    let warnings :=
      append_if (Z.of_nat n <? Config.min_data_points settings)
                (InsufficientData n (Config.min_data_points settings))
                warnings in
    let warnings :=
      fold_left
        (fun warnings col =>
           if has_column col df then
             let negative_count :=
               count (fun r => flt0 (price col r)) (rows df) in
             append_if (0 <? negative_count)%nat
                       (NegativeValues col negative_count) warnings
           else warnings)
        price_cols warnings in
    let warnings :=
      if has_column "volume" df then
        let negative_volume := count (fun r => ilt0 (volume r)) (rows df) in
        append_if (0 <? negative_volume)%nat
                  (NegativeValues "volume" negative_volume) warnings
      else warnings in
    let warnings :=
      if has_column "high" df && has_column "low" df then
        let invalid_high_low :=
          count (fun r => flt (high r) (low r)) (rows df) in
        append_if (0 <? invalid_high_low)%nat
                  (HighBelowLow invalid_high_low) warnings
      else warnings in
    (* df[self.required_columns] *)
    match filter (fun c => negb (has_column c df)) required_columns with
    | c :: _ => inl (KeyError c)
    | [] =>
      let warnings :=
        fold_left
          (fun warnings col =>
             let nulls := count (cell_isnull col) (rows df) in
             append_if (0 <? nulls)%nat (MissingValues col nulls) warnings)
          required_columns warnings in
      let warnings :=
        if has_column "ticker" df && has_column "date" df then
          let duplicates := duplicated [] (rows df) in
          append_if (0 <? duplicates)%nat (DuplicateKeys duplicates)
                    warnings
        else warnings in
      if has_column "date" df && (1 <? n)%nat then
        match to_datetime_error df with
        | Some e => inl e
        | None =>
          let gaps := large_gaps (sorted_dates (rows df)) in
          let warnings :=
            append_if (0 <? gaps)%nat (DateGaps gaps) warnings in
          inr (negb (truthy warnings), warnings)
        end
      else inr (negb (truthy warnings), warnings)
    end
  end.

Definition validate (settings : Config.Settings) (df : option DataFrame)
  : exn + (bool * list schema_error * list quality_warning) :=
  let '(schema_valid, schema_errors) := validate_schema df in
  match
    (if schema_valid then validate_data_quality settings df
     else inr (false, [SkippedQuality]))
  with
  | inl e => inl e
  | inr (quality_valid, quality_warnings) =>
    let is_valid := schema_valid && quality_valid in
    match df with
    | None => inl AttributeError          (* df.columns *)
    | Some _ => inr (is_valid, schema_errors, quality_warnings)
    end
  end.

(** [df = df[df[col] >= 0]] for a price column *)
Definition keep_price (df : DataFrame) (col : string) (rs : list Row)
  : exn + list Row :=
  if has_column col df then
    if orderable col df rs
    then inr (filter (fun r => fge0 (price col r)) rs)
    else inl TypeError
  else inr rs.

(** One boolean mask per removal step, in the order of the source. *)
Definition keep_prices (df : DataFrame) (rs : list Row) : exn + list Row :=
  fold_left
    (fun acc col =>
       match acc with
       | inl e => inl e
       | inr rs => keep_price df col rs
       end)
    price_cols (inr rs).

Definition keep_volume (df : DataFrame) (rs : list Row) : exn + list Row :=
  if has_column "volume" df then
    if orderable "volume" df rs
    then inr (filter (fun r => ige0 (volume r)) rs)
    else inl TypeError
  else inr rs.

(** [df = df[df['high'] >= df['low']]]: both columns have been compared
    with 0 before, so a column of text has no cell left here. *)
Definition keep_high_low (df : DataFrame) (rs : list Row)
  : exn + list Row :=
  if has_column "high" df && has_column "low" df then
    if orderable "high" df rs && orderable "low" df rs
    then inr (filter (fun r => fge (high r) (low r)) rs)
    else inl TypeError
  else inr rs.

(** [df.dropna(subset=['ticker', 'date', 'close'])] *)
Definition dropna (df : DataFrame) (rs : list Row) : exn + list Row :=
  match filter (fun c => negb (has_column c df)) ["ticker"; "date"; "close"]
  with
  | c :: _ => inl (KeyError c)
  | [] =>
    inr (filter (fun r => negb (is_null (ticker r))
                          && negb (is_null (date r))
                          && negb (is_nan (close r))) rs)
  end.

Definition filter_invalid_rows (df : option DataFrame)
  : exn + option DataFrame :=
  match df with
  | None => inr None
  | Some df =>
    if empty df then inr (Some df) else
    match keep_prices df (rows df) with
    | inl e => inl e
    | inr rs =>
      match keep_volume df rs with
      | inl e => inl e
      | inr rs =>
        match keep_high_low df rs with
        | inl e => inl e
        | inr rs =>
          match dropna df rs with
          | inl e => inl e
          | inr rs => inr (Some (with_rows df rs))
          end
        end
      end
    end
  end.

End DataValidator.

(* ================================================================== *)
(** ** [src/ingestion/storage.py] *)

Module DuckDBStorage.

(** A row of the table [stock_prices]: [ticker] and [date] are NOT NULL,
    [created_at] defaults to CURRENT_TIMESTAMP. *)
Record StoredRow : Type := {
  s_ticker : string;
  s_date : Z;
  s_open : float64;
  s_high : float64;
  s_low : float64;
  s_close : float64;
  s_volume : option Z;
  s_adj_close : float64;
  created_at : Z
}.

(** The storage object, the database file behind it and the outside
    world it runs in. *)
Record World : Type := {
  conn : bool;                      (* self.conn is not None *)
  stock_prices : list StoredRow;    (* the table *)
  faults : list (option exn);       (* what the coming calls into DuckDB
                                       raise, one entry per call *)
  now : Z                           (* the clock, in seconds *)
}.

Definition set_conn (c : bool) (w : World) : World :=
  {| conn := c; stock_prices := stock_prices w;
     faults := faults w; now := now w |}.

Definition set_stock_prices (t : list StoredRow) (w : World) : World :=
  {| conn := conn w; stock_prices := t; faults := faults w; now := now w |}.

Definition set_faults (f : list (option exn)) (w : World) : World :=
  {| conn := conn w; stock_prices := stock_prices w;
     faults := f; now := now w |}.

Definition set_now (n : Z) (w : World) : World :=
  {| conn := conn w; stock_prices := stock_prices w;
     faults := faults w; now := n |}.

(** A call into the DuckDB library may fail for reasons of its own. *)
Definition duckdb_call : M World unit :=
  fun w => match faults w with
           | [] => (inr tt, w)
           | None :: fs => (inr tt, set_faults fs w)
           | Some e :: fs => (inl e, set_faults fs w)
           end.

(** [self.conn.execute(sql, params)]: the statement [stmt] works on the
    table and is atomic. *)
Definition execute {A}
           (stmt : list StoredRow -> exn + (A * list StoredRow))
  : M World A :=
  c <- gets conn ;;
  if negb c then raise AttributeError else
  duckdb_call ;;
  t <- gets stock_prices ;;
  match stmt t with
  | inl e => raise e
  | inr (a, t') => modify (set_stock_prices t') ;; ret a
  end.

(** CREATE TABLE / CREATE INDEX ... IF NOT EXISTS: no row changes. *)
Definition ddl (t : list StoredRow) : exn + (unit * list StoredRow) :=
  inr (tt, t).

Definition _initialize_schema : M World unit :=
  execute ddl ;;
  try_except (execute ddl ;; execute ddl) (fun _ => ret tt).

Definition connect : M World unit :=
  c <- gets conn ;;
  if negb c then
    duckdb_call ;;                  (* duckdb.connect(self.db_path) *)
    modify (set_conn true) ;;
    _initialize_schema
  else ret tt.

(** SELECT MAX(date) FROM stock_prices WHERE ticker = ? *)
Definition max_date (ticker : string) (t : list StoredRow) : option Z :=
  fold_left
    (fun acc r =>
       if String.eqb (s_ticker r) ticker then
         match acc with
         | Some m => Some (Z.max m (s_date r))
         | None => Some (s_date r)
         end
       else acc)
    t None.

Definition get_last_date (ticker : string) : M World (option Z) :=
  execute (fun t => inr (max_date ticker t, t)).

(** The WHERE clause of the DELETE; a NULL ticker matches no row. *)
Definition in_span (ticker : option string) (min_date max_date : Z)
           (r : StoredRow) : bool :=
  match ticker with
  | Some t =>
    String.eqb (s_ticker r) t
    && (min_date <=? s_date r) && (s_date r <=? max_date)
  | None => false
  end.

Definition delete_span (ticker : option string) (min_date max_date : Z)
           (t : list StoredRow) : exn + (unit * list StoredRow) :=
  inr (tt, filter (fun r => negb (in_span ticker min_date max_date r)) t).

Definition has_key (ticker : string) (d : Z) (t : list StoredRow) : bool :=
  existsb (fun r => String.eqb (s_ticker r) ticker && (s_date r =? d)) t.

Definition stored (ticker : string) (d : Z) (created : Z) (r : Row)
  : StoredRow :=
  {| s_ticker := ticker; s_date := d;
     s_open := open r; s_high := high r; s_low := low r;
     s_close := close r; s_volume := volume r;
     s_adj_close := adj_close r; created_at := created |}.

(** The rows of the INSERT, one after the other, under the NOT NULL and
    PRIMARY KEY (ticker, date) constraints; their cells have been cast to
    the column types before (see [insert_frame]). *)
Fixpoint insert_rows (created : Z) (rs : list Row) (t : list StoredRow)
  : exn + list StoredRow :=
  match rs with
  | [] => inr t
  | r :: rs' =>
    match ticker r, date r with
    | Some tk, Some d =>
      if has_key tk d t
      then inl (ConstraintException "PRIMARY KEY")
      else insert_rows created rs' (t ++ [stored tk d created r])
    | _, _ => inl (ConstraintException "NOT NULL")
    end
  end.

(** The column [volume] is a BIGINT, a signed integer of 64 bits: the
    SELECT casts the cell of the frame to it, and a value out of its range
    is a conversion error.  NULL is cast to NULL. *)
Definition bigint_min : Z := - 2 ^ 63.
Definition bigint_max : Z := 2 ^ 63 - 1.

Definition is_bigint (v : option Z) : bool :=
  match v with
  | Some n => (bigint_min <=? n) && (n <=? bigint_max)
  | None => true
  end.

Definition casts_to_bigint (rs : list Row) : bool :=
  forallb (fun r => is_bigint (volume r)) rs.

(** INSERT INTO stock_prices (...) SELECT ... FROM df: the rows are cast
    to the types of the table before any of them is inserted.  Text in a
    price or volume column does not read as a DOUBLE or a BIGINT. *)
Definition insert_frame (created : Z) (df : DataFrame)
           (t : list StoredRow) : exn + (unit * list StoredRow) :=
  match filter (fun c => negb (has_column c df))
               DataValidator.required_columns with
  | c :: _ => inl (ExternalError "Binder Error")
  | [] =>
    if truthy (DataValidator.text_columns df)
    then inl (ConversionException "VARCHAR")
    else if casts_to_bigint (rows df) then
      match insert_rows created (rows df) t with
      | inl e => inl e
      | inr t' => inr (tt, t')
      end
    else inl (ConversionException "INT64")
  end.

(** [df['date'].min()] and [.max()] on a column of date objects: a
    missing date is not comparable with a date. *)
Fixpoint dates (rs : list Row) : exn + list Z :=
  match rs with
  | [] => inr []
  | r :: rs' =>
    match date r, dates rs' with
    | Some d, inr ds => inr (d :: ds)
    | None, _ => inl TypeError
    | _, inl e => inl e
    end
  end.

Definition minimum (ds : list Z) : Z :=
  match ds with
  | [] => 0
  | d :: ds' => fold_left Z.min ds' d
  end.

Definition maximum (ds : list Z) : Z :=
  match ds with
  | [] => 0
  | d :: ds' => fold_left Z.max ds' d
  end.

Definition column (col : string) (df : DataFrame) : exn + unit :=
  if has_column col df then inr tt else inl (KeyError col).

Definition upsert_data (df : option DataFrame) : M World nat :=
  match df with
  | None => ret 0%nat
  | Some df =>
    if empty df then ret 0%nat else
    lift_result (column "ticker" df) ;;
    let ticker := match rows df with
                  | r :: _ => ticker r
                  | [] => None
                  end in
    try_except
      (lift_result (column "date" df) ;;
       ds <- lift_result (dates (rows df)) ;;
       let min_date := minimum ds in
       let max_date := maximum ds in
       execute (delete_span ticker min_date max_date) ;;
       created <- gets now ;;
       execute (insert_frame created df) ;;
       let rows_affected := List.length (rows df) in
       ret rows_affected)
      (fun e => raise e)
  end.

(** [data_dict.items()] is a list of pairs; [results[ticker] = n]
    appends the pair. *)
Fixpoint bulk_upsert (data_dict : list (string * option DataFrame))
         (results : list (string * nat)) : M World (list (string * nat)) :=
  match data_dict with
  | [] => ret results
  | (ticker, df) :: data_dict' =>
    n <- match df with
         | Some _ => try_except (upsert_data df) (fun _ => ret 0%nat)
         | None => ret 0%nat
         end ;;
    bulk_upsert data_dict' (results ++ [(ticker, n)])
  end.

(** SELECT ticker, date, open, high, low, close, volume, adj_close *)
Definition price_bar (r : StoredRow) : Row :=
  {| ticker := Some (s_ticker r); date := Some (s_date r);
     open := s_open r; high := s_high r; low := s_low r;
     close := s_close r; volume := s_volume r;
     adj_close := s_adj_close r |}.

(** The WHERE clause of [query_ticker_data]: the ticker, and the bounds
    that were given. *)
Definition in_range (ticker : string) (lo hi : option Z) (r : StoredRow)
  : bool :=
  String.eqb (s_ticker r) ticker
  && match lo with Some d => d <=? s_date r | None => true end
  && match hi with Some d => s_date r <=? d | None => true end.

(** ORDER BY date *)
Fixpoint insert_by_date (r : StoredRow) (l : list StoredRow)
  : list StoredRow :=
  match l with
  | [] => [r]
  | x :: l' =>
    if s_date r <=? s_date x then r :: l else x :: insert_by_date r l'
  end.

Definition order_by_date (l : list StoredRow) : list StoredRow :=
  fold_right insert_by_date [] l.

(** [if start_date: query += " AND date >= ?"; params.append(start_date)]:
    the parameter is a string, which DuckDB casts to DATE ([to_date]). *)
Definition date_param (to_date : string -> exn + Z) (d : option string)
  : exn + option Z :=
  match d with
  | Some (String c s) =>
    match to_date (String c s) with
    | inl e => inl e
    | inr z => inr (Some z)
    end
  | _ => inr None
  end.

(** The rows of the frame that [fetchdf] returns, in its order. *)
Definition query_ticker_data (to_date : string -> exn + Z) (ticker : string)
           (start_date end_date : option string)
  : M World (list StoredRow) :=
  execute
    (fun t =>
       match date_param to_date start_date, date_param to_date end_date with
       | inr lo, inr hi =>
         inr (order_by_date (filter (in_range ticker lo hi) t), t)
       | inl e, _ => inl e
       | _, inl e => inl e
       end).

(** SELECT DISTINCT ticker FROM stock_prices ORDER BY ticker: VARCHAR
    values are ordered byte by byte. *)
Fixpoint insert_ticker (ticker : string) (l : list string) : list string :=
  match l with
  | [] => [ticker]
  | x :: l' =>
    match String.compare ticker x with
    | Lt => ticker :: l
    | Eq => l
    | Gt => x :: insert_ticker ticker l'
    end
  end.

Definition distinct_tickers (t : list StoredRow) : list string :=
  fold_right (fun r acc => insert_ticker (s_ticker r) acc) [] t.

Definition get_available_tickers : M World (list string) :=
  execute (fun t => inr (distinct_tickers t, t)).

(** A row of the frame of [get_data_summary]; the columns [ticker],
    [start_date] and [end_date] carry the prefix [sum_]. *)
Record Summary : Type := {
  sum_ticker : string;
  sum_start_date : Z;
  sum_end_date : Z;
  row_count : nat;
  last_updated : Z
}.

(** MIN(date), MAX(date), COUNT( * ) and MAX(created_at) over the group of
    a ticker that has rows. *)
Definition summarise (t : list StoredRow) (ticker : string) : Summary :=
  let group := filter (fun r => String.eqb (s_ticker r) ticker) t in
  {| sum_ticker := ticker;
     sum_start_date := minimum (map s_date group);
     sum_end_date := maximum (map s_date group);
     row_count := List.length group;
     last_updated := maximum (map created_at group) |}.

(** ... GROUP BY ticker ORDER BY ticker *)
Definition get_data_summary : M World (list Summary) :=
  execute (fun t => inr (map (summarise t) (distinct_tickers t), t)).

Definition close (w : World) : World :=
  if conn w then set_conn false w else w.

Definition __enter__ : M World unit := connect.

Definition __exit__ (w : World) : World := close w.

(** [with storage: body]: [__exit__] runs when [body] was entered, and
    lets an exception of [body] through. *)
Definition with_storage {A} (body : M World A) : M World A :=
  __enter__ ;; try_finally body __exit__.

End DuckDBStorage.

(* ================================================================== *)
(** ** [src/ingestion/downloader.py] *)

Module StockDataDownloader.

(** What [history] of yfinance returns: a frame indexed by date.  The
    columns carry the labels of the provider; the cells of a row are those
    of the columns that the renamings below make the required ones, and its
    [date] cell is the index value when the index becomes the date
    column. *)
Record History : Type := {
  index_name : option string;
  data : DataFrame
}.

(** [yf.Ticker(ticker).history(start=..., end=..., auto_adjust=False)] as
    answered at the given attempt: an exception or a frame. *)
Definition Provider : Type :=
  string -> string -> string -> nat -> exn + History.

Record Downloader : Type := {
  max_retries : Z;
  retry_delay : Z
}.

(** [a or b] on an optional integer *)
Definition int_or (a : option Z) (b : Z) : Z :=
  match a with
  | None => b
  | Some n => if n =? 0 then b else n
  end.

(** [StockDataDownloader.__init__] *)
Definition init (settings : Config.Settings)
           (max_retries retry_delay : option Z) : Downloader :=
  {| max_retries := int_or max_retries (Config.max_retries settings);
     retry_delay := int_or retry_delay (Config.retry_delay settings) |}.

Definition set_columns (cs : list (string * column_info)) (df : DataFrame)
  : DataFrame :=
  {| columns := cs; to_datetime_error := to_datetime_error df;
     rows := rows df |}.

(** [df.rename(columns={old: new})] *)
Definition rename (df : DataFrame) (mapping : string * string)
  : DataFrame :=
  set_columns
    (map (fun c => if String.eqb (fst c) (fst mapping)
                   then (snd mapping, snd c) else c) (columns df))
    df.

Definition object_of_str : column_info :=
  {| is_string_dtype := true; is_numeric_dtype := false |}.

Definition set_ticker (t : string) (r : Row) : Row :=
  {| ticker := Some t; date := date r; open := open r; high := high r;
     low := low r; close := close r; volume := volume r;
     adj_close := adj_close r |}.

(** [df['ticker'] = ticker] *)
Definition assign_ticker (t : string) (df : DataFrame) : DataFrame :=
  {| columns :=
       if has_column "ticker" df
       then map (fun c => if String.eqb (fst c) "ticker"
                          then (fst c, object_of_str) else c) (columns df)
       else columns df ++ [("ticker", object_of_str)];
     to_datetime_error := to_datetime_error df;
     rows := map (set_ticker t) (rows df) |}.

Definition column_mapping : list (string * string) :=
  [("Open", "open"); ("High", "high"); ("Low", "low"); ("Close", "close");
   ("Volume", "volume"); ("Adj Close", "adj_close")].

(** All the columns that carry the label [c], in their order. *)
Definition labelled (c : string) (cs : list (string * column_info))
  : list (string * column_info) :=
  filter (fun x => String.eqb c (fst x)) cs.

(** [df[required_cols]]: label by label, every column that carries the
    label; a label that no column carries is a KeyError. *)
Fixpoint select (cols : list string) (cs : list (string * column_info))
  : exn + list (string * column_info) :=
  match cols with
  | [] => inr []
  | c :: cols' =>
    match labelled c cs, select cols' cs with
    | [], _ => inl (KeyError c)
    | _ :: _, inl e => inl e
    | found, inr sel => inr (found ++ sel)
    end
  end.

Definition datetime64 : column_info :=
  {| is_string_dtype := false; is_numeric_dtype := false |}.

(** [df.reset_index()]: the index becomes the first column, under its
    name; an index without a name goes under "index", or under "level_0"
    when there is a column "index" already. *)
Definition reset_index (h : History) : exn + DataFrame :=
  let label := match index_name h with
               | Some name => name
               | None =>
                 if has_column "index" (data h) then "level_0" else "index"
               end in
  if has_column label (data h) then inl ValueError
  else inr (set_columns ((label, datetime64) :: columns (data h)) (data h)).

(** The body of the [try] for one attempt. *)
Definition attempt_body (history : exn + History) (ticker : string)
  : exn + option DataFrame :=
  match history with
  | inl e => inl e
  | inr h =>
    if empty (data h) then inr None else
    match reset_index h with
    | inl e => inl e
    | inr df =>
      let df :=
        if has_column "Date" df then rename df ("Date", "date")
        else if has_column "index" df then rename df ("index", "date")
        else df in
      let df := assign_ticker ticker df in
      let df := fold_left rename column_mapping df in
      match select DataValidator.required_columns (columns df) with
      | inl e => inl e
      | inr cs =>
        let df := set_columns cs df in
        (* pd.to_datetime(df['date']).dt.date *)
        match to_datetime_error df with
        | Some e => inl e
        | None => inr (Some df)
        end
      end
    end
  end.

(** [time.sleep(seconds)] *)
Definition sleep (seconds : Z) : M DuckDBStorage.World unit :=
  if seconds <? 0 then raise ValueError
  else modify (fun w =>
                 DuckDBStorage.set_now (DuckDBStorage.now w + seconds) w).

(** [for attempt in range(self.max_retries)] *)
Fixpoint attempts (self : Downloader)
         (fetch : nat -> exn + option DataFrame) (range : list nat)
  : M DuckDBStorage.World (option DataFrame) :=
  match range with
  | [] => ret None
  | attempt :: range' =>
    match fetch attempt with
    | inr df => ret df
    | inl e =>
      if Z.of_nat attempt <? max_retries self - 1 then
        sleep (retry_delay self) ;;
        attempts self fetch range'
      else ret None
    end
  end.

Definition download_ticker (self : Downloader)
           (settings : Config.Settings) (provider : Provider)
           (ticker : string) (start_date end_date : option string)
  : M DuckDBStorage.World (option DataFrame) :=
  let start_date := str_or start_date (Config.default_start_date settings) in
  let end_date := str_or end_date (Config.default_end_date settings) in
  attempts self
           (fun attempt =>
              attempt_body (provider ticker start_date end_date attempt)
                           ticker)
           (seq 0 (Z.to_nat (max_retries self))).

End StockDataDownloader.

(* ================================================================== *)
(** ** [src/ingestion/pipeline.py] *)

Module IngestionPipeline.

(** The entries of [results['errors']] and [results['warnings']]. *)
Inductive message : Type :=
| NoDataAvailable (ticker : string)
| SchemaValidationFailed
    (ticker : string) (errors : list DataValidator.schema_error)
| DataQualityWarnings
    (ticker : string) (warnings : list DataValidator.quality_warning)
| AllRowsFiltered (ticker : string)
| PipelineError (ticker : string) (e : exn)
| PipelineFatalError (e : exn).

Record Results : Type := {
  tickers_processed : nat;
  tickers_failed : nat;
  total_rows_inserted : nat;
  errors : list message;
  warnings : list message;
  duration_seconds : option Z
}.

Definition initial_results : Results :=
  {| tickers_processed := 0; tickers_failed := 0;
     total_rows_inserted := 0; errors := []; warnings := [];
     duration_seconds := None |}.

Record Pipeline : Type := {
  settings : Config.Settings;
  provider : StockDataDownloader.Provider;
  downloader : StockDataDownloader.Downloader;
  incremental : bool
}.

(** [IngestionPipeline.__init__] *)
Definition init (settings : Config.Settings)
           (provider : StockDataDownloader.Provider) (incremental : bool)
  : Pipeline :=
  {| settings := settings;
     provider := provider;
     downloader := StockDataDownloader.init settings None None;
     incremental := incremental |}.

Definition State : Type := Results * DuckDBStorage.World.

Definition update (f : Results -> Results) : M State unit :=
  modify (fun s => (f (fst s), snd s)).

(** [results['errors'].append(msg)] *)
Definition add_error (msg : message) : M State unit :=
  update (fun r =>
    {| tickers_processed := tickers_processed r;
       tickers_failed := tickers_failed r;
       total_rows_inserted := total_rows_inserted r;
       errors := errors r ++ [msg];
       warnings := warnings r;
       duration_seconds := duration_seconds r |}).

(** [results['warnings'].append(msg)] *)
Definition add_warning (msg : message) : M State unit :=
  update (fun r =>
    {| tickers_processed := tickers_processed r;
       tickers_failed := tickers_failed r;
       total_rows_inserted := total_rows_inserted r;
       errors := errors r;
       warnings := warnings r ++ [msg];
       duration_seconds := duration_seconds r |}).

(** [results['tickers_failed'] += 1] *)
Definition count_failed : M State unit :=
  update (fun r =>
    {| tickers_processed := tickers_processed r;
       tickers_failed := tickers_failed r + 1;
       total_rows_inserted := total_rows_inserted r;
       errors := errors r;
       warnings := warnings r;
       duration_seconds := duration_seconds r |}).

(** [results['tickers_processed'] += 1] *)
Definition count_processed : M State unit :=
  update (fun r =>
    {| tickers_processed := tickers_processed r + 1;
       tickers_failed := tickers_failed r;
       total_rows_inserted := total_rows_inserted r;
       errors := errors r;
       warnings := warnings r;
       duration_seconds := duration_seconds r |}).

(** [results['total_rows_inserted'] += rows_inserted] *)
Definition add_rows_inserted (rows_inserted : nat) : M State unit :=
  update (fun r =>
    {| tickers_processed := tickers_processed r;
       tickers_failed := tickers_failed r;
       total_rows_inserted := total_rows_inserted r + rows_inserted;
       errors := errors r;
       warnings := warnings r;
       duration_seconds := duration_seconds r |}).

(** [results['duration_seconds'] = duration] *)
Definition set_duration (duration : Z) : M State unit :=
  update (fun r =>
    {| tickers_processed := tickers_processed r;
       tickers_failed := tickers_failed r;
       total_rows_inserted := total_rows_inserted r;
       errors := errors r;
       warnings := warnings r;
       duration_seconds := Some duration |}).

(** "Determine date range": the window handed to the downloader. *)
Definition determine_date_range (self : Pipeline) (ticker : string)
           (start_date end_date : option string)
  : M DuckDBStorage.World (string * string) :=
  let download_end :=
    str_or end_date (Config.default_end_date (settings self)) in
  if incremental self && negb (str_truthy start_date) then
    last_date <- DuckDBStorage.get_last_date ticker ;;
    match last_date with
    | Some d =>
      next <- lift_result (Date.add_days d 1) ;;
      ret (Date.strftime next, download_end)
    | None =>
      ret (Config.default_start_date (settings self), download_end)
    end
  else
    ret (str_or start_date (Config.default_start_date (settings self)),
         download_end).

(** "Store data (unless validate_only mode)" and count the ticker. *)
Definition store_data (validate_only : bool) (df : option DataFrame)
  : M State unit :=
  (if negb validate_only then
     rows_inserted <- on_snd (DuckDBStorage.upsert_data df) ;;
     add_rows_inserted rows_inserted
   else ret tt) ;;
  count_processed.

(** The body of the inner [try], one ticker. *)
Definition process_ticker (self : Pipeline)
           (start_date end_date : option string) (validate_only : bool)
           (ticker : string) : M State unit :=
  window <- on_snd (determine_date_range self ticker start_date end_date) ;;
  let '(download_start, download_end) := window in
  df <- on_snd (StockDataDownloader.download_ticker
                  (downloader self) (settings self) (provider self)
                  ticker (Some download_start) (Some download_end)) ;;
  if none_or_empty df then
    add_warning (NoDataAvailable ticker)
  else
    v <- lift_result (DataValidator.validate (settings self) df) ;;
    let '(is_valid, schema_errors, quality_warnings) := v in
    if truthy schema_errors then
      add_error (SchemaValidationFailed ticker schema_errors) ;;
      count_failed
    else if truthy quality_warnings then
      add_warning (DataQualityWarnings ticker quality_warnings) ;;
      df <- lift_result (DataValidator.filter_invalid_rows df) ;;
      match df with
      | None => raise AttributeError            (* df.empty *)
      | Some d =>
        if empty d then
          add_error (AllRowsFiltered ticker) ;;
          count_failed
        else store_data validate_only df
      end
    else store_data validate_only df.

(** One turn of the loop: the inner [try] with its handler. *)
Definition process (self : Pipeline)
           (start_date end_date : option string) (validate_only : bool)
           (ticker : string) : M State unit :=
  try_except
    (process_ticker self start_date end_date validate_only ticker)
    (fun e => add_error (PipelineError ticker e) ;; count_failed).

Definition run (self : Pipeline) (tickers : list string)
           (start_date end_date : option string) (validate_only : bool)
           (w : DuckDBStorage.World) : Results * DuckDBStorage.World :=
  let start_time := DuckDBStorage.now w in
  snd (try_finally
         (try_except
            (on_snd DuckDBStorage.connect ;;
             for_each tickers
                      (process self start_date end_date validate_only) ;;
             end_time <- on_snd (gets DuckDBStorage.now) ;;
             set_duration (end_time - start_time))
            (fun e => add_error (PipelineFatalError e)))
         (fun s => (fst s, DuckDBStorage.close (snd s)))
         (initial_results, w)).

(** [get_summary]: the frame of the summary, or [pd.DataFrame()], a frame
    without columns ([None]). *)
Definition get_summary
  : M DuckDBStorage.World (option (list DuckDBStorage.Summary)) :=
  try_except
    (DuckDBStorage.connect ;;
     summary <- DuckDBStorage.get_data_summary ;;
     modify DuckDBStorage.close ;;
     ret (Some summary))
    (fun _ => ret None).

(** [run_pipeline]: a new pipeline object, whose storage has no
    connection yet, on the database file of [w]. *)
Definition run_pipeline (settings : Config.Settings)
           (provider : StockDataDownloader.Provider)
           (tickers : list string) (start_date end_date : option string)
           (incremental validate_only : bool) (w : DuckDBStorage.World)
  : Results * DuckDBStorage.World :=
  run (init settings provider incremental) tickers start_date end_date
      validate_only (DuckDBStorage.set_conn false w).

End IngestionPipeline.

(* ================================================================== *)
(** * Vocabulary of the statements *)

(** All the columns of [cols] are in the frame. *)
Definition has_columns (cols : list string) (df : DataFrame) : Prop :=
  forallb (fun c => has_column c df) cols = true.

Definition has_required_columns (df : DataFrame) : Prop :=
  has_columns DataValidator.required_columns df.

(** The rows that pass every removal step of [filter_invalid_rows]. *)
Definition row_ok (r : Row) : bool :=
  fge0 (open r) && fge0 (high r) && fge0 (low r) && fge0 (close r)
  && fge0 (adj_close r) && ige0 (volume r) && fge (high r) (low r)
  && (negb (is_null (ticker r)) && negb (is_null (date r))
      && negb (is_nan (close r))).

(** A NaN in a price cell or a missing volume. *)
Definition has_nan (r : Row) : bool :=
  is_nan (open r) || is_nan (high r) || is_nan (low r) || is_nan (close r)
  || is_nan (adj_close r) || is_null (volume r).

(** The rows that the comparisons of [filter_invalid_rows] keep, when
    none of them raises. *)
Definition passing_prices (df : DataFrame) (rs : list Row) : list Row :=
  fold_left
    (fun rs col =>
       if has_column col df
       then filter (fun r => fge0 (DataValidator.price col r)) rs
       else rs)
    DataValidator.price_cols rs.

Definition passing_volume (df : DataFrame) (rs : list Row) : list Row :=
  if has_column "volume" df then filter (fun r => ige0 (volume r)) rs
  else rs.

Definition passing_high_low (df : DataFrame) (rs : list Row) : list Row :=
  if has_column "high" df && has_column "low" df
  then filter (fun r => fge (high r) (low r)) rs
  else rs.

Definition passing (df : DataFrame) (rs : list Row) : list Row :=
  passing_high_low df (passing_volume df (passing_prices df rs)).

(** The price and volume columns that are in the frame are of a numeric
    dtype. *)
Definition numeric_cells (df : DataFrame) : Prop :=
  forall c,
    In c (DataValidator.price_cols ++ ["volume"]) ->
    has_column c df = true -> column_is is_numeric_dtype c df = true.

(** ** Sample data *)

Module Sample.

Definition one : float64 := S754_finite false 4503599627370496 (-52).

Definition numeric : column_info :=
  {| is_string_dtype := false; is_numeric_dtype := true |}.
Definition object : column_info :=
  {| is_string_dtype := false; is_numeric_dtype := false |}.
Definition text : column_info :=
  {| is_string_dtype := true; is_numeric_dtype := false |}.

(** A bar of [volume] shares at price 1.0. *)
Definition bar (t : string) (d : Z) (v : Z) : Row :=
  {| ticker := Some t; date := Some d; open := one; high := one;
     low := one; close := one; volume := Some v; adj_close := one |}.


(** A frame in the shape the downloader returns. *)
Definition frame (rs : list Row) : DataFrame :=
  {| columns := [("ticker", text); ("date", object); ("open", numeric);
                 ("high", numeric); ("low", numeric); ("close", numeric);
                 ("volume", numeric); ("adj_close", numeric)];
     to_datetime_error := None;
     rows := rs |}.

(** 2024-01-10 *)
Definition day : Z := 738895.

(** What the provider hands over: its own labels, no ticker yet. *)
Definition quote (d : Z) : Row :=
  {| ticker := None; date := Some d; open := one; high := one;
     low := one; close := one; volume := Some 5; adj_close := one |}.

Definition history (ds : list Z) : StockDataDownloader.History :=
  {| StockDataDownloader.index_name := Some "Date";
     StockDataDownloader.data :=
       {| columns := [("Open", numeric); ("High", numeric);
                      ("Low", numeric); ("Close", numeric);
                      ("Adj Close", numeric); ("Volume", numeric);
                      ("Dividends", numeric); ("Stock Splits", numeric)];
          to_datetime_error := None;
          rows := map quote ds |} |}.

(** A provider that answers every request with the same days. *)
Definition serves (ds : list Z) : StockDataDownloader.Provider :=
  fun _ _ _ _ => inr (history ds).

(** A provider that is down. *)
Definition down : StockDataDownloader.Provider :=
  fun _ _ _ _ => inl (ExternalError "connection reset").

(** Settings as of 2024-01-15. *)
Definition settings : Config.Settings := Config.init (day + 5).

Definition downloader : StockDataDownloader.Downloader :=
  StockDataDownloader.init settings None None.

(** An open connection to a database that holds [t] and does not fail. *)
Definition world (t : list DuckDBStorage.StoredRow) : DuckDBStorage.World :=
  {| DuckDBStorage.conn := true; DuckDBStorage.stock_prices := t;
     DuckDBStorage.faults := []; DuckDBStorage.now := 1705276800 |}.

End Sample.

(** The key (ticker, date) of a stored row, and of a row of a frame. *)
Definition stored_key (r : DuckDBStorage.StoredRow) : string * Z :=
  (DuckDBStorage.s_ticker r, DuckDBStorage.s_date r).

(** At most one stored row per (ticker, date). *)
Definition unique_keys (t : list DuckDBStorage.StoredRow) : Prop :=
  NoDup (map stored_key t).

(** Every row of the frame carries the ticker [t]. *)
Definition single_ticker (t : string) (df : DataFrame) : Prop :=
  forall r, In r (rows df) -> ticker r = Some t.

(** The stored row is of another ticker, or dated before or after every
    date of the frame. *)
Definition outside_span (t : string) (df : DataFrame)
           (r : DuckDBStorage.StoredRow) : Prop :=
  DuckDBStorage.s_ticker r <> t
  \/ (forall r', In r' (rows df) ->
                 forall d, date r' = Some d -> DuckDBStorage.s_date r < d)
  \/ (forall r', In r' (rows df) ->
                 forall d, date r' = Some d -> d < DuckDBStorage.s_date r).

(** [df['ticker'].iloc[0]] *)
Definition first_ticker (df : DataFrame) : option string :=
  match rows df with
  | r :: _ => ticker r
  | [] => None
  end.

(** The rows that the DELETE of an upsert of ticker [t] over [ds] keeps. *)
Definition kept (t : string) (ds : list Z)
           (table : list DuckDBStorage.StoredRow)
  : list DuckDBStorage.StoredRow :=
  filter (fun r => negb (DuckDBStorage.in_span
                           (Some t) (DuckDBStorage.minimum ds)
                           (DuckDBStorage.maximum ds) r)) table.

(** A stored bar of [volume] shares at price 1.0, written at time 0. *)
Definition stored_bar (t : string) (d : Z) (v : Z) : DuckDBStorage.StoredRow :=
  DuckDBStorage.stored t d 0 (Sample.bar t d v).

(** Two days of X. *)
Definition two_days : DataFrame :=
  Sample.frame [Sample.bar "X" Sample.day 5;
                Sample.bar "X" (Sample.day + 1) 6].

(** The same day of X twice. *)
Definition same_day_twice : DataFrame :=
  Sample.frame [Sample.bar "X" Sample.day 7; Sample.bar "X" Sample.day 9].

(** Failing at the store write: the provider has the same day twice. *)
Definition twice : StockDataDownloader.Provider :=
  Sample.serves [Sample.day; Sample.day].

(** Ten days up to 2024-01-10, as the provider has them. *)
Definition ten_days : list Z :=
  map (fun i => Sample.day - 9 + Z.of_nat i) (seq 0 10).

(** The database file, closed and empty, on 2024-01-15. *)
Definition empty_store : DuckDBStorage.World :=
  DuckDBStorage.set_conn false (Sample.world []).

(** A provider with one row for X, of volume -5. *)
Definition negative_volume : StockDataDownloader.Provider :=
  fun _ _ _ _ =>
    inr {| StockDataDownloader.index_name := Some "Date";
           StockDataDownloader.data :=
             with_rows (StockDataDownloader.data (Sample.history []))
                       [Sample.bar "X" Sample.day (-5)] |}.

(** A provider that has [ds] for requests that start on [start] and is
    down for every other request. *)
Definition asked_from (start : string) (ds : list Z)
  : StockDataDownloader.Provider :=
  fun _ start_date _ _ =>
    if String.eqb start_date start then inr (Sample.history ds)
    else inl (ExternalError "other window").

(** A table with one day of X and one day of Y. *)
Definition small_table : list DuckDBStorage.StoredRow :=
  [stored_bar "X" Sample.day 1; stored_bar "Y" Sample.day 1].

(** The part of [process_ticker] before "Store data": the frame to store,
    or None when the ticker is done with ([continue]). *)
Definition analyse (self : IngestionPipeline.Pipeline)
           (start_date end_date : option string) (ticker : string)
  : M IngestionPipeline.State (option (option DataFrame)) :=
  window <- on_snd (IngestionPipeline.determine_date_range
                      self ticker start_date end_date) ;;
  let '(download_start, download_end) := window in
  df <- on_snd (StockDataDownloader.download_ticker
                  (IngestionPipeline.downloader self)
                  (IngestionPipeline.settings self)
                  (IngestionPipeline.provider self)
                  ticker (Some download_start) (Some download_end)) ;;
  if none_or_empty df then
    IngestionPipeline.add_warning (IngestionPipeline.NoDataAvailable ticker) ;;
    ret None
  else
    v <- lift_result
           (DataValidator.validate (IngestionPipeline.settings self) df) ;;
    let '(is_valid, schema_errors, quality_warnings) := v in
    if truthy schema_errors then
      IngestionPipeline.add_error
        (IngestionPipeline.SchemaValidationFailed ticker schema_errors) ;;
      IngestionPipeline.count_failed ;;
      ret None
    else if truthy quality_warnings then
      IngestionPipeline.add_warning
        (IngestionPipeline.DataQualityWarnings ticker quality_warnings) ;;
      df <- lift_result (DataValidator.filter_invalid_rows df) ;;
      match df with
      | None => raise AttributeError
      | Some d =>
        if empty d then
          IngestionPipeline.add_error
            (IngestionPipeline.AllRowsFiltered ticker) ;;
          IngestionPipeline.count_failed ;;
          ret None
        else ret (Some df)
      end
    else ret (Some df).

(** The state after one turn of the loop. *)
Definition step (self : IngestionPipeline.Pipeline)
           (start_date end_date : option string) (validate_only : bool)
           (s : IngestionPipeline.State) (ticker : string)
  : IngestionPipeline.State :=
  snd (IngestionPipeline.process
         self start_date end_date validate_only ticker s).

Definition is_no_data (m : IngestionPipeline.message) : bool :=
  match m with
  | IngestionPipeline.NoDataAvailable _ => true
  | _ => false
  end.

Definition is_pipeline_error (m : IngestionPipeline.message) : bool :=
  match m with
  | IngestionPipeline.PipelineError _ _ => true
  | _ => false
  end.

(** The tickers a report accounts for: processed, failed, or without
    data. *)
Definition accounted (r : IngestionPipeline.Results) : nat :=
  (IngestionPipeline.tickers_processed r
   + IngestionPipeline.tickers_failed r
   + count is_no_data (IngestionPipeline.warnings r))%nat.

(** The report after the handler of the inner [try]. *)
Definition record_failure (ticker : string) (e : exn)
           (r : IngestionPipeline.Results) : IngestionPipeline.Results :=
  {| IngestionPipeline.tickers_processed :=
       IngestionPipeline.tickers_processed r;
     IngestionPipeline.tickers_failed :=
       IngestionPipeline.tickers_failed r + 1;
     IngestionPipeline.total_rows_inserted :=
       IngestionPipeline.total_rows_inserted r;
     IngestionPipeline.errors :=
       IngestionPipeline.errors r ++ [IngestionPipeline.PipelineError ticker e];
     IngestionPipeline.warnings := IngestionPipeline.warnings r;
     IngestionPipeline.duration_seconds :=
       IngestionPipeline.duration_seconds r |}.

(** The report with its duration, and the report of a run that could not
    connect. *)
Definition with_duration (duration : Z) (r : IngestionPipeline.Results)
  : IngestionPipeline.Results :=
  {| IngestionPipeline.tickers_processed :=
       IngestionPipeline.tickers_processed r;
     IngestionPipeline.tickers_failed := IngestionPipeline.tickers_failed r;
     IngestionPipeline.total_rows_inserted :=
       IngestionPipeline.total_rows_inserted r;
     IngestionPipeline.errors := IngestionPipeline.errors r;
     IngestionPipeline.warnings := IngestionPipeline.warnings r;
     IngestionPipeline.duration_seconds := Some duration |}.

Definition fatal_results (e : exn) : IngestionPipeline.Results :=
  {| IngestionPipeline.tickers_processed := 0;
     IngestionPipeline.tickers_failed := 0;
     IngestionPipeline.total_rows_inserted := 0;
     IngestionPipeline.errors := [IngestionPipeline.PipelineFatalError e];
     IngestionPipeline.warnings := [];
     IngestionPipeline.duration_seconds := None |}.

(** The outcome of one attempt of [download_ticker]. *)
Definition fetch (settings : Config.Settings)
           (provider : StockDataDownloader.Provider) (ticker : string)
           (start_date end_date : option string) (attempt : nat)
  : exn + option DataFrame :=
  StockDataDownloader.attempt_body
    (provider ticker
              (str_or start_date (Config.default_start_date settings))
              (str_or end_date (Config.default_end_date settings))
              attempt)
    ticker.

(** ** Relations on states *)

(** Unary: the final state is related to the initial one. *)
Definition stable {S A} (R : S -> S -> Prop) (m : M S A) : Prop :=
  forall s, R s (snd (m s)).

(** The table is the same. *)
Definition same_table (w w' : DuckDBStorage.World) : Prop :=
  DuckDBStorage.stock_prices w' = DuckDBStorage.stock_prices w.

(** The table and the count of inserted rows are the same. *)
Definition nothing_stored (s s' : IngestionPipeline.State) : Prop :=
  same_table (snd s) (snd s')
  /\ IngestionPipeline.total_rows_inserted (fst s')
     = IngestionPipeline.total_rows_inserted (fst s).

(** Binary: from related states, the same result and related states. *)
Definition related {S A} (R : S -> S -> Prop) (m1 m2 : M S A) : Prop :=
  forall s1 s2, R s1 s2 ->
    fst (m1 s1) = fst (m2 s2) /\ R (snd (m1 s1)) (snd (m2 s2)).

(** The window of the run depends on the store. *)
Definition reads_store (self : IngestionPipeline.Pipeline)
           (start_date : option string) : bool :=
  IngestionPipeline.incremental self && negb (str_truthy start_date).

(** Two reports with the same messages and ticker counts. *)
Definition same_report (r1 r2 : IngestionPipeline.Results) : Prop :=
  IngestionPipeline.errors r1 = IngestionPipeline.errors r2
  /\ IngestionPipeline.warnings r1 = IngestionPipeline.warnings r2
  /\ IngestionPipeline.tickers_processed r1
     = IngestionPipeline.tickers_processed r2
  /\ IngestionPipeline.tickers_failed r1 = IngestionPipeline.tickers_failed r2.

(** The state of a normal run and of a validate-only run agree on the
    report, the connection, the clock and the last dates of [tickers];
    the database fails in neither. *)
Definition agree (self : IngestionPipeline.Pipeline)
           (start_date : option string) (tickers : list string)
           (s1 s2 : IngestionPipeline.State) : Prop :=
  same_report (fst s1) (fst s2)
  /\ DuckDBStorage.conn (snd s1) = true
  /\ DuckDBStorage.faults (snd s1) = []
  /\ DuckDBStorage.conn (snd s2) = true
  /\ DuckDBStorage.faults (snd s2) = []
  /\ DuckDBStorage.now (snd s1) = DuckDBStorage.now (snd s2)
  /\ (reads_store self start_date = true ->
      forall t, In t tickers ->
        DuckDBStorage.max_date t (DuckDBStorage.stock_prices (snd s1))
        = DuckDBStorage.max_date t (DuckDBStorage.stock_prices (snd s2))).

(** The connection and the clock are the same, and a database that did
    not fail still does not. *)
Definition world_kept (w w' : DuckDBStorage.World) : Prop :=
  DuckDBStorage.conn w' = DuckDBStorage.conn w
  /\ DuckDBStorage.now w' = DuckDBStorage.now w
  /\ (DuckDBStorage.faults w = [] -> DuckDBStorage.faults w' = []).

(** Errors are only ever appended. *)
Definition errors_grow (s s' : IngestionPipeline.State) : Prop :=
  exists l,
    IngestionPipeline.errors (fst s') = IngestionPipeline.errors (fst s) ++ l.

(** The report has a pipeline error. *)
Definition flagged (r : IngestionPipeline.Results) : bool :=
  existsb is_pipeline_error (IngestionPipeline.errors r).

(** ** Vocabulary of the further properties *)

(** The cast to DATE of the two days that the samples ask for. *)
Definition iso_days (s : string) : exn + Z :=
  if String.eqb s "2024-01-10" then inr Sample.day
  else if String.eqb s "2024-01-11" then inr (Sample.day + 1)
  else inl (ExternalError "Conversion Error").

Definition by_date (a b : DuckDBStorage.StoredRow) : Prop :=
  DuckDBStorage.s_date a <= DuckDBStorage.s_date b.

Definition ticker_lt (a b : string) : Prop := String.ltb a b = true.

(** The rows of a ticker. *)
Definition rows_of (ticker : string) (table : list DuckDBStorage.StoredRow)
  : list DuckDBStorage.StoredRow :=
  filter (fun r => String.eqb (DuckDBStorage.s_ticker r) ticker) table.

(** The columns that must be numeric. *)
Definition numeric_columns : list string :=
  DataValidator.price_cols ++ ["volume"].

(** What the schema pass asks of a frame. *)
Definition schema_ok (df : DataFrame) : Prop :=
  empty df = false
  /\ has_required_columns df
  /\ column_is is_string_dtype "ticker" df = true
  /\ to_datetime_error df = None
  /\ forall c, In c numeric_columns -> column_is is_numeric_dtype c df = true.

(** The key of a row of a frame. *)
Definition row_key (r : Row) : option string * option Z := (ticker r, date r).

(** The dates that are present in the rows. *)
Definition present_dates (rs : list Row) : list Z :=
  flat_map (fun r => match date r with Some d => [d] | None => [] end) rs.

(** Every date but the last is followed by one at most 7 days later. *)
Definition gap_free (ds : list Z) : Prop :=
  forall d, In d ds ->
    (forall d', In d' ds -> d' <= d) \/ exists d', In d' ds /\ d < d' <= d + 7.

(** One warning when the count is positive. *)
Definition warn_if_any (k : nat) (w : nat -> DataValidator.quality_warning)
  : list DataValidator.quality_warning :=
  if (0 <? k)%nat then [w k] else [].

(** The warnings of the quality pass on a frame that has the required
    columns, check by check. *)
Definition quality_warnings (settings : Config.Settings) (df : DataFrame)
  : list DataValidator.quality_warning :=
  let n := List.length (rows df) in
  (if Z.of_nat n <? Config.min_data_points settings
   then [DataValidator.InsufficientData n (Config.min_data_points settings)]
   else [])
  ++ flat_map
       (fun col =>
          warn_if_any
            (count (fun r => flt0 (DataValidator.price col r)) (rows df))
            (DataValidator.NegativeValues col))
       DataValidator.price_cols
  ++ warn_if_any (count (fun r => ilt0 (volume r)) (rows df))
                 (DataValidator.NegativeValues "volume")
  ++ warn_if_any (count (fun r => flt (high r) (low r)) (rows df))
                 DataValidator.HighBelowLow
  ++ flat_map
       (fun col =>
          warn_if_any (count (DataValidator.cell_isnull col) (rows df))
                      (DataValidator.MissingValues col))
       DataValidator.required_columns
  ++ warn_if_any (DataValidator.duplicated [] (rows df))
                 DataValidator.DuplicateKeys
  ++ (if (1 <? n)%nat then
        warn_if_any
          (DataValidator.large_gaps (DataValidator.sorted_dates (rows df)))
          DataValidator.DateGaps
      else []).

(** What the quality pass asks of the rows. *)
Definition quality_ok (settings : Config.Settings) (rs : list Row) : Prop :=
  Config.min_data_points settings <= Z.of_nat (List.length rs)
  /\ (forall r, In r rs -> row_ok r = true)
  /\ NoDup (map row_key rs)
  /\ gap_free (present_dates rs).



(** As many errors as failed tickers have been added. *)
Definition failures_match (s s' : IngestionPipeline.State) : Prop :=
  (List.length (IngestionPipeline.errors (fst s'))
   + IngestionPipeline.tickers_failed (fst s)
   = List.length (IngestionPipeline.errors (fst s))
     + IngestionPipeline.tickers_failed (fst s'))%nat.

(** The table has grown by no more than the count of inserted rows. *)
Definition growth_reported (s s' : IngestionPipeline.State) : Prop :=
  (List.length (DuckDBStorage.stock_prices (snd s'))
   + IngestionPipeline.total_rows_inserted (fst s)
   <= List.length (DuckDBStorage.stock_prices (snd s))
      + IngestionPipeline.total_rows_inserted (fst s'))%nat.

(** A row of the table is one of [old], or a row of one of the tickers
    that [filter_invalid_rows] would keep. *)
Definition old_or_clean (tickers : list string)
           (old table : list DuckDBStorage.StoredRow) : Prop :=
  forall s, In s table ->
    In s old
    \/ (In (DuckDBStorage.s_ticker s) tickers
        /\ row_ok (DuckDBStorage.price_bar s) = true).

(** The report with one more warning, and with one more error and failed
    ticker. *)
Definition with_warning (msg : IngestionPipeline.message)
           (r : IngestionPipeline.Results) : IngestionPipeline.Results :=
  {| IngestionPipeline.tickers_processed :=
       IngestionPipeline.tickers_processed r;
     IngestionPipeline.tickers_failed := IngestionPipeline.tickers_failed r;
     IngestionPipeline.total_rows_inserted :=
       IngestionPipeline.total_rows_inserted r;
     IngestionPipeline.errors := IngestionPipeline.errors r;
     IngestionPipeline.warnings := IngestionPipeline.warnings r ++ [msg];
     IngestionPipeline.duration_seconds :=
       IngestionPipeline.duration_seconds r |}.

Definition with_failure (msg : IngestionPipeline.message)
           (r : IngestionPipeline.Results) : IngestionPipeline.Results :=
  {| IngestionPipeline.tickers_processed :=
       IngestionPipeline.tickers_processed r;
     IngestionPipeline.tickers_failed :=
       IngestionPipeline.tickers_failed r + 1;
     IngestionPipeline.total_rows_inserted :=
       IngestionPipeline.total_rows_inserted r;
     IngestionPipeline.errors := IngestionPipeline.errors r ++ [msg];
     IngestionPipeline.warnings := IngestionPipeline.warnings r;
     IngestionPipeline.duration_seconds :=
       IngestionPipeline.duration_seconds r |}.

(** A provider whose frames have prices as text. *)
Definition text_prices : StockDataDownloader.Provider :=
  fun _ _ _ _ =>
    inr {| StockDataDownloader.index_name := Some "Date";
           StockDataDownloader.data :=
             {| columns := [("Open", Sample.text); ("High", Sample.numeric);
                            ("Low", Sample.numeric);
                            ("Close", Sample.numeric);
                            ("Adj Close", Sample.numeric);
                            ("Volume", Sample.numeric)];
                to_datetime_error := None;
                rows := [Sample.quote Sample.day] |} |}.

(** Every row that the provider gives for the request is dated after
    [D]. *)
Definition answers_after (provider : StockDataDownloader.Provider)
           (ticker start_date end_date : string) (D : Z) : Prop :=
  forall attempt h r d,
    provider ticker start_date end_date attempt = inr h ->
    In r (rows (StockDataDownloader.data h)) ->
    date r = Some d -> D < d.

(** A provider that gives 2024-01-09 and 2024-01-10 whatever the window
    of the request. *)
Definition stale : StockDataDownloader.Provider :=
  Sample.serves [Sample.day - 1; Sample.day].

(** The store after the upserts of the frames of a list of items, one
    after the other, whether they return or raise. *)
Definition after_upserts (items : list (string * option DataFrame))
           (w : DuckDBStorage.World) : DuckDBStorage.World :=
  fold_left
    (fun w item =>
       match snd item with
       | Some d => snd (DuckDBStorage.upsert_data (Some d) w)
       | None => w
       end)
    items w.

(** The count that [bulk_upsert] reports for a frame upserted on [w]. *)
Definition reported_count (df : option DataFrame) (w : DuckDBStorage.World)
  : nat :=
  match df with
  | None => 0%nat
  | Some d =>
    if empty d then 0%nat
    else match fst (DuckDBStorage.upsert_data (Some d) w) with
         | inr _ => List.length (rows d)
         | inl _ => 0%nat
         end
  end.

(** The connection is open and the database does not fail. *)
Definition working (w : DuckDBStorage.World) : Prop :=
  DuckDBStorage.conn w = true /\ DuckDBStorage.faults w = [].

(** The connection is the same, and a database that did not fail still
    does not. *)
Definition working_kept (w w' : DuckDBStorage.World) : Prop :=
  DuckDBStorage.conn w' = DuckDBStorage.conn w
  /\ (DuckDBStorage.faults w = [] -> DuckDBStorage.faults w' = []).

(** The stored bars of a ticker, in the order of the table. *)
Definition bars_of (ticker : string) (table : list DuckDBStorage.StoredRow)
  : list Row :=
  map DuckDBStorage.price_bar (rows_of ticker table).

(** A bar dated before [lo] or after [hi]. *)
Definition outside (lo hi : Z) (r : Row) : bool :=
  match date r with
  | Some d => negb ((lo <=? d) && (d <=? hi))
  | None => true
  end.

(** [f] applied [n] times. *)
Fixpoint times {A} (n : nat) (f : A -> A) (a : A) : A :=
  match n with
  | O => a
  | S n' => times n' f (f a)
  end.

(** The report after "Store data": the rows inserted and the ticker
    processed. *)
Definition with_stored (n : nat) (r : IngestionPipeline.Results)
  : IngestionPipeline.Results :=
  {| IngestionPipeline.tickers_processed :=
       IngestionPipeline.tickers_processed r + 1;
     IngestionPipeline.tickers_failed := IngestionPipeline.tickers_failed r;
     IngestionPipeline.total_rows_inserted :=
       IngestionPipeline.total_rows_inserted r + n;
     IngestionPipeline.errors := IngestionPipeline.errors r;
     IngestionPipeline.warnings := IngestionPipeline.warnings r;
     IngestionPipeline.duration_seconds :=
       IngestionPipeline.duration_seconds r |}.

(* ================================================================== *)
(** * Properties *)

(** ** The monad *)

Lemma bind_assoc {S A B C} (m : M S A) (k : A -> M S B) (h : B -> M S C)
      (s : S) :
  bind (bind m k) h s = bind m (fun a => bind (k a) h) s.
Proof. unfold bind. destruct (m s) as [[e | a] s']; reflexivity. Qed.

Lemma bind_ext {S A B} (m : M S A) (k1 k2 : A -> M S B) (s : S) :
  (forall a s', k1 a s' = k2 a s') -> bind m k1 s = bind m k2 s.
Proof.
  intros H. unfold bind.
  destruct (m s) as [[e | a] s']; [reflexivity | apply H].
Qed.

Ltac next_bind := rewrite bind_assoc; apply bind_ext.

Lemma bind_run {S A B} (m : M S A) (k : A -> M S B) (s s' : S)
      (r : exn + A) :
  m s = (r, s') ->
  bind m k s = match r with
               | inl e => (inl e, s')
               | inr a => k a s'
               end.
Proof. intros H. unfold bind. rewrite H. destruct r; reflexivity. Qed.

Lemma on_snd_run {S1 S2 A} (m : M S2 A) (r0 : S1) (w w' : S2)
      (r : exn + A) :
  m w = (r, w') -> on_snd m (r0, w) = (r, (r0, w')).
Proof. intros H. unfold on_snd. simpl. rewrite H. reflexivity. Qed.

(** ** Comparisons of float64 cells *)

Lemma SFcompare_antisym (x y : float64) :
  SFcompare y x = option_map CompOpp (SFcompare x y).
Proof.
  destruct x as [sx | sx | | sx mx ex], y as [sy | sy | | sy my ey];
    simpl; try reflexivity;
    try (destruct sx; reflexivity); try (destruct sy; reflexivity);
    try (destruct sx, sy; reflexivity).
  f_equal.
  rewrite (Z.compare_antisym ex ey).
  change (Pos.compare_cont Eq my mx) with (Pos.compare_cont (CompOpp Eq) my mx).
  rewrite <- (Pos.compare_cont_antisym mx my Eq).
  destruct sx, sy; simpl; try reflexivity;
    destruct (ex ?= ey); simpl; try reflexivity;
    symmetry; apply CompOpp_involutive.
Qed.

Lemma fge_not_flt (x y : float64) : fge x y = true -> flt x y = false.
Proof.
  unfold fge, flt, SFleb, SFltb.
  rewrite (SFcompare_antisym x y).
  destruct (SFcompare x y) as [[ | | ] | ]; simpl; congruence.
Qed.

Lemma fge0_not_flt0 (x : float64) : fge0 x = true -> flt0 x = false.
Proof. apply (fge_not_flt x zero). Qed.

Lemma fge0_not_nan (x : float64) : fge0 x = true -> is_nan x = false.
Proof. unfold fge0, zero, SFleb. destruct x; simpl; congruence. Qed.

Lemma ige0_not_ilt0 (v : option Z) : ige0 v = true -> ilt0 v = false.
Proof.
  destruct v as [n | ]; simpl; [ | reflexivity].
  intros H. apply Z.leb_le in H. apply Z.ltb_ge. exact H.
Qed.

(** ** Lists *)

Lemma filter_filter {A} (p q : A -> bool) (l : list A) :
  filter q (filter p l) = filter (fun x => p x && q x) l.
Proof.
  induction l as [ | a l IH]; simpl; [reflexivity | ].
  destruct (p a); simpl; [ | exact IH].
  destruct (q a); rewrite IH; reflexivity.
Qed.

Ltac split_andb :=
  repeat match goal with
         | H : _ && _ = true |- _ =>
           apply andb_true_iff in H; destruct H
         | H : negb _ = true |- _ => apply negb_true_iff in H
         end.

Lemma NoDup_map_Some {A} (l : list A) : NoDup l -> NoDup (map Some l).
Proof.
  induction 1 as [ | a l Ha Hl IH]; simpl; constructor; [ | exact IH].
  intros Hin. apply in_map_iff in Hin as [b [Hb Hin]].
  injection Hb as ->. exact (Ha Hin).
Qed.

Lemma truthy_false {A} (l : list A) : truthy l = false <-> l = [].
Proof. destruct l; simpl; split; congruence. Qed.

(** ** The validator *)

Section ValidatorFacts.

Import DataValidator.

Variable settings : Config.Settings.

Lemma has_columns_spec (cols : list string) (df : DataFrame) :
  has_columns cols df <-> (forall c, In c cols -> has_column c df = true).
Proof. unfold has_columns. apply forallb_forall. Qed.

Lemma no_missing_columns (df : DataFrame) (cols : list string) :
  filter (fun c => negb (has_column c df)) cols = [] <->
  has_columns cols df.
Proof.
  unfold has_columns.
  induction cols as [ | c cols IH]; simpl; [tauto | ].
  destruct (has_column c df); simpl; [exact IH | ].
  split; discriminate.
Qed.

Lemma has_columns_incl (cols cols' : list string) (df : DataFrame) :
  incl cols' cols -> has_columns cols df -> has_columns cols' df.
Proof.
  rewrite !has_columns_spec. intros Hincl H c Hc. apply H, Hincl, Hc.
Qed.

Lemma has_columns_not_empty (c : string) (cols : list string)
      (df : DataFrame) :
  has_columns (c :: cols) df -> empty df = true -> rows df = [].
Proof.
  intros H Hempty. apply has_columns_spec with (c := c) in H;
    [ | left; reflexivity].
  unfold empty in Hempty. unfold has_column in H.
  destruct (rows df); [reflexivity | ].
  destruct (columns df); discriminate.
Qed.

Lemma append_if_nil {A} (c : bool) (e : A) (l : list A) :
  append_if c e l = [] -> l = [] /\ c = false.
Proof.
  unfold append_if. destruct c; [ | intros ->; split; reflexivity].
  intros H. destruct l; discriminate.
Qed.

Lemma validate_schema_flag (df : option DataFrame) :
  fst (validate_schema df) = negb (truthy (snd (validate_schema df))).
Proof.
  unfold validate_schema.
  destruct df as [df | ]; [ | reflexivity].
  destruct (empty df); reflexivity.
Qed.

(** What a passed schema check says about the frame. *)
Lemma validate_schema_passed (df : DataFrame) (errs : list schema_error) :
  validate_schema (Some df) = (true, errs) ->
  errs = [] /\ empty df = false /\ has_required_columns df /\
  to_datetime_error df = None /\ numeric_cells df.
Proof.
  unfold validate_schema.
  destruct (empty df) eqn:Hempty; [discriminate | ].
  remember (filter (fun c => negb (has_column c df)) required_columns)
    as missing eqn:Hmiss.
  remember (append_if
              (has_column "ticker" df
               && negb (column_is is_string_dtype "ticker" df))
              TickerNotString
              (append_if (truthy missing)
                         (MissingRequiredColumns missing) []))
    as errs0 eqn:Herrs0.
  intros H. injection H as Hflag Herrs.
  apply negb_true_iff, truthy_false in Hflag.
  rewrite Hflag in Herrs. subst errs.
  cbn [fold_left price_cols] in Hflag.
  apply append_if_nil in Hflag as [Hflag Hvol].
  do 5 (let Hc := fresh "Hcol" in apply append_if_nil in Hflag as [Hflag Hc]).
  assert (Hdate : (has_column "date" df = true ->
                   to_datetime_error df = None) /\ errs0 = []).
  { destruct (has_column "date" df);
      [ | split; [discriminate | exact Hflag]].
    destruct (to_datetime_error df);
      [ | split; [reflexivity | exact Hflag]].
    destruct errs0; discriminate. }
  destruct Hdate as [Hdate Hrest]. subst errs0.
  apply append_if_nil in Hrest as [Hrest Hticker].
  apply append_if_nil in Hrest as [_ Hmissing].
  apply truthy_false in Hmissing. subst missing.
  assert (Hcols : has_required_columns df)
    by exact (proj1 (no_missing_columns df _) Hmissing).
  split; [reflexivity | ]. split; [reflexivity | ]. split; [exact Hcols | ].
  split.
  { apply Hdate.
    apply (proj1 (has_columns_spec _ df) Hcols). simpl. tauto. }
  intros c Hc Hhas. simpl in Hc.
  repeat (destruct Hc as [<- | Hc];
          [match goal with
           | H : has_column ?x df && negb (column_is _ ?x df) = false
             |- column_is _ ?x df = true =>
             rewrite Hhas in H; apply negb_false_iff in H; exact H
           end | ]).
  contradiction.
Qed.

Lemma schema_ok_numeric (df : DataFrame) :
  schema_ok df -> numeric_cells df.
Proof.
  intros (_ & _ & _ & _ & Hnum) c Hc _. exact (Hnum c Hc).
Qed.

(** On numeric columns every comparison with a number is defined. *)
Lemma text_columns_numeric (df : DataFrame) :
  numeric_cells df -> text_columns df = [].
Proof.
  intro Hnum. unfold text_columns.
  assert (H : forall c, In c (price_cols ++ ["volume"]) ->
                has_column c df && negb (orderable c df (rows df)) = false).
  { intros c Hc. destruct (has_column c df) eqn:Hhas; [ | reflexivity].
    unfold orderable. rewrite (Hnum c Hc Hhas). reflexivity. }
  revert H. generalize (price_cols ++ ["volume"]).
  induction l as [ | c l IH]; intro H; [reflexivity | ].
  cbn [filter]. rewrite (H c (or_introl eq_refl)).
  apply IH. intros c0 Hc0. apply H. right. exact Hc0.
Qed.

(** On a frame with the required columns and parseable dates the quality
    pass returns, and its flag says that there is no warning. *)
Lemma validate_data_quality_returns (df : DataFrame) :
  empty df = false -> has_required_columns df ->
  to_datetime_error df = None -> numeric_cells df ->
  exists warnings,
    validate_data_quality settings (Some df)
    = inr (negb (truthy warnings), warnings).
Proof.
  intros Hempty Hcols Hdate Hnum.
  unfold validate_data_quality. rewrite Hempty.
  rewrite (text_columns_numeric df Hnum). cbn [truthy].
  apply no_missing_columns in Hcols. rewrite Hcols, Hdate.
  destruct (has_column "date" df && (1 <? Datatypes.length (rows df))%nat);
    eexists; reflexivity.
Qed.

(** A comparison that returns has kept the rows that pass it. *)
Lemma keep_price_returned (df : DataFrame) (col : string)
      (rs rs' : list Row) :
  keep_price df col rs = inr rs' ->
  rs' = if has_column col df
        then filter (fun r => fge0 (price col r)) rs else rs.
Proof.
  unfold keep_price. destruct (has_column col df).
  - destruct (orderable col df rs); [ | discriminate].
    intros H. injection H as <-. reflexivity.
  - intros H. injection H as <-. reflexivity.
Qed.

Lemma keep_prices_fold (df : DataFrame) (cols : list string) :
  forall acc,
    fold_left
      (fun acc col =>
         match acc with
         | inl e => inl e
         | inr rs => keep_price df col rs
         end) cols acc
    = match acc with
      | inl e => inl e
      | inr rs =>
        fold_left
          (fun acc col =>
             match acc with
             | inl e => inl e
             | inr rs => keep_price df col rs
             end) cols (inr rs)
      end.
Proof.
  intros [e | rs]; [ | reflexivity].
  induction cols as [ | c cols IH]; [reflexivity | exact IH].
Qed.

Lemma keep_prices_returned (df : DataFrame) (rs rs' : list Row) :
  keep_prices df rs = inr rs' -> rs' = passing_prices df rs.
Proof.
  unfold keep_prices, passing_prices.
  generalize price_cols as cols. intros cols. revert rs.
  induction cols as [ | c cols IH]; intros rs; cbn [fold_left].
  - intros H. injection H as <-. reflexivity.
  - rewrite keep_prices_fold.
    destruct (keep_price df c rs) as [e | rs1] eqn:E; [discriminate | ].
    apply keep_price_returned in E. subst rs1. apply IH.
Qed.

Lemma keep_volume_returned (df : DataFrame) (rs rs' : list Row) :
  keep_volume df rs = inr rs' -> rs' = passing_volume df rs.
Proof.
  unfold keep_volume, passing_volume. destruct (has_column "volume" df).
  - destruct (orderable "volume" df rs); [ | discriminate].
    intros H. injection H as <-. reflexivity.
  - intros H. injection H as <-. reflexivity.
Qed.

Lemma keep_high_low_returned (df : DataFrame) (rs rs' : list Row) :
  keep_high_low df rs = inr rs' -> rs' = passing_high_low df rs.
Proof.
  unfold keep_high_low, passing_high_low.
  destruct (has_column "high" df && has_column "low" df).
  - destruct (orderable "high" df rs && orderable "low" df rs);
      [ | discriminate].
    intros H. injection H as <-. reflexivity.
  - intros H. injection H as <-. reflexivity.
Qed.



(** On numeric columns no comparison raises. *)
Lemma keep_prices_numeric (df : DataFrame) (rs : list Row) :
  numeric_cells df -> keep_prices df rs = inr (passing_prices df rs).
Proof.
  intros Hnum. unfold keep_prices, passing_prices.
  assert (H : forall c, In c price_cols -> has_column c df = true ->
                        column_is is_numeric_dtype c df = true).
  { intros c Hc. apply Hnum. apply in_or_app. left. exact Hc. }
  revert H. generalize price_cols as cols. intros cols. revert rs.
  induction cols as [ | c cols IH]; intros rs H; cbn [fold_left];
    [reflexivity | ].
  assert (Hstep : keep_price df c rs
                  = inr (if has_column c df
                         then filter (fun r => fge0 (price c r)) rs
                         else rs)).
  { unfold keep_price, orderable.
    destruct (has_column c df) eqn:Hcol; [ | reflexivity].
    rewrite (H c (or_introl eq_refl) Hcol). reflexivity. }
  rewrite Hstep. apply IH. intros c0 Hc0. apply H. right. exact Hc0.
Qed.

Lemma keep_volume_numeric (df : DataFrame) (rs : list Row) :
  numeric_cells df -> keep_volume df rs = inr (passing_volume df rs).
Proof.
  intros Hnum. unfold keep_volume, passing_volume, orderable.
  destruct (has_column "volume" df) eqn:Hcol; [ | reflexivity].
  rewrite (Hnum "volume") by (simpl; tauto). reflexivity.
Qed.

Lemma keep_high_low_numeric (df : DataFrame) (rs : list Row) :
  numeric_cells df -> keep_high_low df rs = inr (passing_high_low df rs).
Proof.
  intros Hnum. unfold keep_high_low, passing_high_low, orderable.
  destruct (has_column "high" df) eqn:Hhigh; [ | reflexivity].
  destruct (has_column "low" df) eqn:Hlow; [ | reflexivity].
  rewrite (Hnum "high"), (Hnum "low") by (simpl; tauto). reflexivity.
Qed.

(** What [filter_invalid_rows] returns, when it returns. *)
Lemma filter_invalid_rows_returned (df : DataFrame)
      (res : option DataFrame) :
  empty df = false ->
  filter_invalid_rows (Some df) = inr res ->
  exists rs,
    dropna df (passing df (rows df)) = inr rs
    /\ res = Some (with_rows df rs).
Proof.
  intros Hempty. unfold filter_invalid_rows. rewrite Hempty.
  destruct (keep_prices df (rows df)) as [e | rs1] eqn:E1; [discriminate | ].
  destruct (keep_volume df rs1) as [e | rs2] eqn:E2; [discriminate | ].
  destruct (keep_high_low df rs2) as [e | rs3] eqn:E3; [discriminate | ].
  apply keep_prices_returned in E1. apply keep_volume_returned in E2.
  apply keep_high_low_returned in E3. subst rs1 rs2 rs3.
  fold (passing df (rows df)).
  destruct (dropna df (passing df (rows df))) as [e | rs]; [discriminate | ].
  intros H. injection H as <-. exists rs. auto.
Qed.

(** On numeric columns [filter_invalid_rows] is the four masks. *)
Lemma filter_invalid_rows_numeric (df : DataFrame) :
  numeric_cells df ->
  filter_invalid_rows (Some df)
  = if empty df then inr (Some df) else
      match dropna df (passing df (rows df)) with
      | inl e => inl e
      | inr rs => inr (Some (with_rows df rs))
      end.
Proof.
  intros Hnum. unfold filter_invalid_rows.
  destruct (empty df); [reflexivity | ].
  rewrite (keep_prices_numeric df _ Hnum), (keep_volume_numeric df _ Hnum),
    (keep_high_low_numeric df _ Hnum).
  reflexivity.
Qed.

(** With the price and volume columns in the frame, the rows that pass
    the four masks are the rows that pass every step. *)
Lemma dropna_passing (df : DataFrame) (rs rs' : list Row) :
  has_columns (price_cols ++ ["volume"]) df ->
  dropna df (passing df rs) = inr rs' -> rs' = filter row_ok rs.
Proof.
  intros Hcols.
  unfold dropna, passing, passing_high_low, passing_volume,
    passing_prices.
  cbn [fold_left price_cols].
  pose proof (proj1 (has_columns_spec _ df) Hcols) as Hcol.
  rewrite !Hcol by (simpl; tauto). simpl andb. cbv iota.
  destruct (filter (fun c => negb (has_column c df))
                   ["ticker"; "date"; "close"]); [ | discriminate].
  intros H. injection H as <-.
  rewrite !filter_filter.
  apply filter_ext. intros r. unfold row_ok, price. simpl String.eqb.
  cbv iota. rewrite !andb_assoc. reflexivity.
Qed.

(** With the price and volume columns in the frame, what
    [filter_invalid_rows] returns is the frame restricted to the rows
    that pass every step. *)
Lemma filter_invalid_rows_inv (df : DataFrame) (res : option DataFrame) :
  has_columns (price_cols ++ ["volume"]) df ->
  filter_invalid_rows (Some df) = inr res ->
  res = Some (with_rows df (filter row_ok (rows df))).
Proof.
  intros Hcols. destruct (empty df) eqn:Hempty.
  - unfold filter_invalid_rows. rewrite Hempty.
    intros H. injection H as <-.
    pose proof (has_columns_not_empty _ _ df Hcols Hempty) as Hrows.
    destruct df as [cs e rs]. simpl in *. subst rs. reflexivity.
  - intros Hres.
    apply (filter_invalid_rows_returned df res Hempty) in Hres
      as (rs & Hdrop & ->).
    apply (dropna_passing df _ _ Hcols) in Hdrop. subst rs. reflexivity.
Qed.

(** A frame with the required columns whose price and volume columns are
    numeric goes through [filter_invalid_rows]. *)
Lemma filter_invalid_rows_eq (df : DataFrame) :
  has_required_columns df -> numeric_cells df ->
  filter_invalid_rows (Some df)
  = inr (Some (with_rows df (filter row_ok (rows df)))).
Proof.
  intros Hcols Hnum.
  assert (Hret : exists res, filter_invalid_rows (Some df) = inr res).
  { rewrite (filter_invalid_rows_numeric df Hnum). unfold dropna.
    destruct (empty df); [eexists; reflexivity | ].
    assert (Hmissing :
              filter (fun c => negb (has_column c df))
                     ["ticker"; "date"; "close"] = []).
    { apply no_missing_columns.
      apply (has_columns_incl required_columns); [ | exact Hcols].
      intros c Hc. simpl in *. tauto. }
    rewrite Hmissing. eexists; reflexivity. }
  destruct Hret as [res Hres]. rewrite Hres. f_equal.
  apply (filter_invalid_rows_inv df); [ | exact Hres].
  apply (has_columns_incl required_columns); [ | exact Hcols].
  intros c Hc. simpl in *. tauto.
Qed.


Lemma row_ok_sound (r : Row) :
  row_ok r = true ->
  flt0 (open r) = false /\ flt0 (high r) = false /\ flt0 (low r) = false
  /\ flt0 (close r) = false /\ flt0 (adj_close r) = false
  /\ ilt0 (volume r) = false /\ flt (high r) (low r) = false
  /\ ticker r <> None /\ date r <> None /\ is_nan (close r) = false.
Proof.
  unfold row_ok. intros H. split_andb.
  repeat split;
    auto using fge0_not_flt0, ige0_not_ilt0, fge_not_flt.
  - destruct (ticker r); discriminate.
  - destruct (date r); discriminate.
Qed.

Lemma row_ok_no_nan (r : Row) : row_ok r = true -> has_nan r = false.
Proof.
  unfold row_ok, has_nan. intros H. split_andb.
  rewrite !orb_false_iff.
  repeat split; auto using fge0_not_nan.
  destruct (volume r); [reflexivity | discriminate].
Qed.

End ValidatorFacts.

(** C4.  For every row set, [validate] returns, and the flag it returns is
    true exactly when the list of schema errors and the list of quality
    warnings are both empty. *)
Theorem validate_valid_iff (settings : Config.Settings) (df : DataFrame) :
  exists is_valid schema_errors quality_warnings,
    DataValidator.validate settings (Some df)
    = inr (is_valid, schema_errors, quality_warnings)
    /\ (is_valid = true <-> schema_errors = [] /\ quality_warnings = []).
Proof.
  unfold DataValidator.validate.
  pose proof (validate_schema_flag (Some df)) as Hflag.
  destruct (DataValidator.validate_schema (Some df)) as [valid errs] eqn:Hs.
  simpl in Hflag. destruct valid.
  - apply validate_schema_passed in Hs
      as (-> & Hempty & Hcols & Hdate & Hnum).
    destruct (validate_data_quality_returns settings df Hempty Hcols Hdate
                                            Hnum)
      as [ws ->].
    exists (negb (truthy ws)), [], ws. split; [reflexivity | ].
    rewrite negb_true_iff, truthy_false. tauto.
  - exists false, errs, [DataValidator.SkippedQuality].
    split; [reflexivity | ].
    split; [discriminate | intros [_ H]; discriminate].
Qed.





(** ** The downloader *)

Section DownloaderFacts.

Import StockDataDownloader.

Lemma set_now_now (w : DuckDBStorage.World) :
  DuckDBStorage.set_now (DuckDBStorage.now w) w = w.
Proof. destruct w; reflexivity. Qed.

Lemma set_now_set_now (n m : Z) (w : DuckDBStorage.World) :
  DuckDBStorage.set_now n (DuckDBStorage.set_now m w)
  = DuckDBStorage.set_now n w.
Proof. reflexivity. Qed.

Variable self : Downloader.
Variable fetch : nat -> exn + option DataFrame.
Hypothesis delay_ok : 0 <= retry_delay self.

(** [k] failed attempts that are not the last one: [k] sleeps. *)
Lemma attempts_retry (k n first : nat) (w : DuckDBStorage.World) :
  (forall j, (first <= j < first + k)%nat -> exists e, fetch j = inl e) ->
  Z.of_nat (first + k) <= max_retries self - 1 ->
  attempts self fetch (seq first (k + n)) w
  = attempts self fetch (seq (first + k) n)
             (DuckDBStorage.set_now
                (DuckDBStorage.now w + Z.of_nat k * retry_delay self) w).
Proof.
  revert first w. induction k as [ | k IH]; intros first w Hfail Hlast.
  - rewrite Nat.add_0_r, Z.mul_0_l, Z.add_0_r, set_now_now. reflexivity.
  - simpl seq. simpl attempts.
    destruct (Hfail first ltac:(lia)) as [e ->].
    assert (Hlt : (Z.of_nat first <? max_retries self - 1) = true)
      by (apply Z.ltb_lt; lia).
    rewrite Hlt. unfold bind, sleep.
    assert (Hd : (retry_delay self <? 0) = false)
      by (apply Z.ltb_ge; exact delay_ok).
    rewrite Hd. unfold modify.
    rewrite (IH (S first)); [ | intros j Hj; apply Hfail; lia | lia].
    rewrite set_now_set_now. simpl DuckDBStorage.now.
    replace (first + S k)%nat with (S first + k)%nat by lia.
    replace (DuckDBStorage.now w + retry_delay self
             + Z.of_nat k * retry_delay self)
      with (DuckDBStorage.now w + Z.of_nat (S k) * retry_delay self)
      by lia.
    reflexivity.
Qed.

(** An attempt that does not raise ends the loop with its result. *)
Lemma attempts_return (k n : nat) (res : option DataFrame)
      (w : DuckDBStorage.World) :
  (forall j, (j < k)%nat -> exists e, fetch j = inl e) ->
  fetch k = inr res ->
  Z.of_nat k <= max_retries self - 1 ->
  attempts self fetch (seq 0 (k + S n)) w
  = (inr res,
     DuckDBStorage.set_now
       (DuckDBStorage.now w + Z.of_nat k * retry_delay self) w).
Proof.
  intros Hfail Hk Hlast.
  rewrite (attempts_retry k (S n) 0);
    [ | intros j Hj; apply Hfail; lia | simpl; lia].
  simpl. rewrite Hk. reflexivity.
Qed.

(** When every attempt raises, the last one gives up. *)
Lemma attempts_exhausted (k : nat) (w : DuckDBStorage.World) :
  (forall j, (j <= k)%nat -> exists e, fetch j = inl e) ->
  Z.of_nat k = max_retries self - 1 ->
  attempts self fetch (seq 0 (k + 1)) w
  = (inr None,
     DuckDBStorage.set_now
       (DuckDBStorage.now w + Z.of_nat k * retry_delay self) w).
Proof.
  intros Hfail Hlast.
  rewrite (attempts_retry k 1 0);
    [ | intros j Hj; apply Hfail; lia | simpl; lia].
  simpl. destruct (Hfail k (le_n k)) as [e ->].
  assert (Hlt : (Z.of_nat k <? max_retries self - 1) = false)
    by (apply Z.ltb_ge; lia).
  rewrite Hlt. reflexivity.
Qed.

End DownloaderFacts.

(** C7, as the code has it.  [download_ticker] returns None both when
    an attempt gets an empty frame from the provider (at once, after the
    [k] failed attempts before it) and when the last of the [max_retries]
    attempts fails: the caller sees the same absent result, and only the
    time slept between the attempts tells how many there were. *)
Theorem download_ticker_absent
        (self : StockDataDownloader.Downloader) (settings : Config.Settings)
        (provider : StockDataDownloader.Provider) (ticker : string)
        (start_date end_date : option string) (w : DuckDBStorage.World)
        (k : nat)
        (Hdelay : 0 <= StockDataDownloader.retry_delay self)
        (Hk : Z.of_nat k < StockDataDownloader.max_retries self)
        (Hfail : forall j, (j < k)%nat ->
                   exists e,
                     fetch settings provider ticker start_date end_date j
                     = inl e) :
  ((exists h,
       provider ticker
                (str_or start_date (Config.default_start_date settings))
                (str_or end_date (Config.default_end_date settings)) k
       = inr h /\ empty (StockDataDownloader.data h) = true) ->
   StockDataDownloader.download_ticker
     self settings provider ticker start_date end_date w
   = (inr None,
      DuckDBStorage.set_now
        (DuckDBStorage.now w
         + Z.of_nat k * StockDataDownloader.retry_delay self) w))
  /\
  (Z.of_nat k = StockDataDownloader.max_retries self - 1 ->
   (exists e,
       fetch settings provider ticker start_date end_date k = inl e) ->
   StockDataDownloader.download_ticker
     self settings provider ticker start_date end_date w
   = (inr None,
      DuckDBStorage.set_now
        (DuckDBStorage.now w
         + Z.of_nat k * StockDataDownloader.retry_delay self) w)).
Proof.
  unfold StockDataDownloader.download_ticker.
  change (fun attempt =>
            StockDataDownloader.attempt_body
              (provider ticker
                 (str_or start_date (Config.default_start_date settings))
                 (str_or end_date (Config.default_end_date settings))
                 attempt) ticker)
    with (fetch settings provider ticker start_date end_date).
  split.
  - intros [h [Hdf Hempty]].
    replace (Z.to_nat (StockDataDownloader.max_retries self))
      with (k + S (Z.to_nat (StockDataDownloader.max_retries self) - k - 1))%nat
      by lia.
    apply attempts_return; [exact Hdelay | exact Hfail | | lia].
    unfold fetch, StockDataDownloader.attempt_body.
    rewrite Hdf, Hempty. reflexivity.
  - intros Hlast Hk'.
    replace (Z.to_nat (StockDataDownloader.max_retries self))
      with (k + 1)%nat by lia.
    apply attempts_exhausted; [exact Hdelay | | exact Hlast].
    intros j Hj. destruct (Nat.eq_dec j k) as [-> | Hne];
      [exact Hk' | apply Hfail; lia].
Qed.

Lemma download_ticker_absent_witness :
  StockDataDownloader.download_ticker
    Sample.downloader Sample.settings (Sample.serves []) "X" None None
    (Sample.world [])
  = (inr None, DuckDBStorage.set_now 1705276800 (Sample.world [])).
Proof.
  refine (proj1 (download_ticker_absent
                   Sample.downloader Sample.settings (Sample.serves []) "X"
                   None None (Sample.world []) 0 _ _ _) _).
  - vm_compute. discriminate.
  - vm_compute. reflexivity.
  - intros j Hj. lia.
  - exists (Sample.history []). split; reflexivity.
Defined.

(** C7, as stated, fails: with the default three attempts the result for
    a provider that answers with no rows is the result for a provider
    that is down. *)
Lemma download_ticker_empty_not_distinct :
  ~ (fst (StockDataDownloader.download_ticker
            Sample.downloader Sample.settings (Sample.serves []) "X"
            None None (Sample.world []))
     <> fst (StockDataDownloader.download_ticker
               Sample.downloader Sample.settings Sample.down "X"
               None None (Sample.world []))).
Proof. intros H. apply H. reflexivity. Qed.

(** ** The store *)

Section StorageFacts.

Import DuckDBStorage.

(** A statement on an open connection to a database that does not
    fail. *)
Lemma execute_ok {A} (stmt : list StoredRow -> exn + (A * list StoredRow))
      (w : World) :
  conn w = true -> faults w = [] ->
  execute stmt w
  = match stmt (stock_prices w) with
    | inl e => (inl e, w)
    | inr (a, t') => (inr a, set_stock_prices t' w)
    end.
Proof.
  intros Hconn Hfaults.
  unfold execute, bind, gets, duckdb_call, raise, modify, ret.
  rewrite Hconn. simpl. rewrite Hfaults.
  destruct (stmt (stock_prices w)) as [e | [a t']]; reflexivity.
Qed.

(** Whatever happens, the table after [execute] is the old one or the
    one the statement made. *)
Lemma execute_preserves {A} (P : list StoredRow -> Prop)
      (stmt : list StoredRow -> exn + (A * list StoredRow)) (w : World) :
  (forall a t', stmt (stock_prices w) = inr (a, t') -> P t') ->
  P (stock_prices w) ->
  P (stock_prices (snd (execute stmt w))).
Proof.
  intros Hstmt HP.
  unfold execute, bind, gets, duckdb_call, raise, modify, ret.
  destruct (conn w); simpl; [ | exact HP].
  destruct (faults w) as [ | [e | ] fs]; simpl; try exact HP;
    destruct (stmt (stock_prices w)) as [e | [a t']] eqn:E; simpl;
    solve [exact HP | exact (Hstmt a t' eq_refl)].
Qed.

(** An INSERT that goes through: the frame has the columns, its volumes
    fit the column type, and its rows went in one by one. *)
Lemma insert_frame_returned (c : Z) (df : DataFrame)
      (t t' : list StoredRow) (a : unit) :
  insert_frame c df t = inr (a, t') ->
  has_required_columns df /\ casts_to_bigint (rows df) = true
  /\ insert_rows c (rows df) t = inr t'.
Proof.
  unfold insert_frame.
  destruct (filter (fun c0 => negb (has_column c0 df))
                   DataValidator.required_columns) eqn:Hmissing;
    [ | discriminate].
  apply no_missing_columns in Hmissing.
  destruct (truthy (DataValidator.text_columns df)); [discriminate | ].
  destruct (casts_to_bigint (rows df)); [ | discriminate].
  destruct (insert_rows c (rows df) t) as [e | t0]; [discriminate | ].
  intros H. injection H as _ <-.
  split; [exact Hmissing | ]. split; reflexivity.
Qed.

(** A property of the table that the DELETE and the INSERT of an upsert
    keep is kept by [upsert_data], whether it returns or raises. *)
Lemma upsert_data_preserves (P : list StoredRow -> Prop) (df : DataFrame)
      (w : World) :
  P (stock_prices w) ->
  (forall ds t, dates (rows df) = inr ds -> P t ->
     P (filter (fun r => negb (in_span (first_ticker df) (minimum ds)
                                       (maximum ds) r)) t)) ->
  (forall c t t', P t -> insert_rows c (rows df) t = inr t' -> P t') ->
  P (stock_prices (snd (upsert_data (Some df) w))).
Proof.
  intros HP Hdel Hins. unfold upsert_data.
  destruct (empty df); [exact HP | ].
  unfold bind at 1, lift_result at 1.
  destruct (column "ticker" df); [exact HP | ].
  unfold try_except.
  unfold bind at 1, lift_result at 1.
  destruct (column "date" df); [exact HP | ].
  unfold bind at 1, lift_result at 1.
  destruct (dates (rows df)) as [e | ds] eqn:Hds; [exact HP | ].
  unfold bind at 1.
  pose proof (execute_preserves P
                (delete_span (first_ticker df) (minimum ds) (maximum ds)) w)
    as H1.
  fold (first_ticker df).
  assert (Hstep : forall a t',
             delete_span (first_ticker df) (minimum ds) (maximum ds)
                         (stock_prices w) = inr (a, t') -> P t').
  { intros a t' H. unfold delete_span in H. inversion H.
    apply Hdel; [reflexivity | assumption]. }
  destruct (execute (delete_span (first_ticker df) (minimum ds)
                                 (maximum ds)) w)
    as [[e | []] w1] eqn:E1; simpl in H1.
  - unfold raise. simpl. apply H1; assumption.
  - assert (HP1 : P (stock_prices w1)) by (apply H1; assumption).
    unfold bind at 1, gets at 1. unfold bind at 1.
    pose proof (execute_preserves P (insert_frame (now w1) df) w1) as H2.
    assert (Hstep2 : forall a t',
               insert_frame (now w1) df (stock_prices w1) = inr (a, t') ->
               P t').
    { intros a t' H. apply insert_frame_returned in H as (_ & _ & H).
      eapply Hins; eassumption. }
    destruct (execute (insert_frame (now w1) df) w1)
      as [[e | []] w2] eqn:E2; simpl in H2 |- *; apply H2; assumption.
Qed.

Lemma price_bar_stored (tk : string) (d c : Z) (r : Row) :
  ticker r = Some tk -> date r = Some d ->
  price_bar (stored tk d c r) = r.
Proof.
  destruct r. simpl. intros -> ->. reflexivity.
Qed.

Lemma has_key_false (tk : string) (d : Z) (t : list StoredRow) :
  has_key tk d t = false <-> ~ In (tk, d) (map stored_key t).
Proof.
  unfold has_key. induction t as [ | r t IH]; simpl; [tauto | ].
  rewrite orb_false_iff, IH. unfold stored_key at 1.
  split.
  - intros [Hr Ht] [Heq | Hin]; [ | tauto].
    injection Heq as <- <-.
    rewrite String.eqb_refl, Z.eqb_refl in Hr. discriminate.
  - intros H. split; [ | tauto].
    destruct (String.eqb_spec (s_ticker r) tk) as [<- | ]; [ | reflexivity].
    destruct (Z.eqb_spec (s_date r) d) as [<- | ]; [ | reflexivity].
    exfalso. apply H. left. reflexivity.
Qed.

(** The INSERT appends: the new rows carry the cells of the frame and
    the time of the statement. *)
Lemma insert_rows_app (c : Z) (rs : list Row) :
  forall t t',
    insert_rows c rs t = inr t' ->
    exists new,
      t' = t ++ new /\ map price_bar new = rs
      /\ Forall (fun s => created_at s = c) new.
Proof.
  induction rs as [ | r rs IH]; simpl; intros t t' H.
  - injection H as <-. exists []. rewrite app_nil_r. auto.
  - destruct (ticker r) as [tk | ] eqn:Htk; [ | discriminate].
    destruct (date r) as [d | ] eqn:Hd; [ | discriminate].
    destruct (has_key tk d t); [discriminate | ].
    apply IH in H as (new & -> & Hbars & Hc).
    exists (stored tk d c r :: new).
    rewrite <- app_assoc. simpl.
    rewrite price_bar_stored by assumption. rewrite Hbars.
    split; [reflexivity | ]. split; [reflexivity | ].
    constructor; [reflexivity | exact Hc].
Qed.

(** The INSERT keeps the key unique. *)
Lemma insert_rows_unique (c : Z) (rs : list Row) :
  forall t t',
    unique_keys t -> insert_rows c rs t = inr t' -> unique_keys t'.
Proof.
  induction rs as [ | r rs IH]; simpl; intros t t' Hu H.
  - injection H as <-. exact Hu.
  - destruct (ticker r) as [tk | ]; [ | discriminate].
    destruct (date r) as [d | ]; [ | discriminate].
    destruct (has_key tk d t) eqn:Hkey; [discriminate | ].
    apply IH in H; [exact H | ].
    unfold unique_keys. rewrite map_app. simpl.
    apply NoDup_app; [exact Hu | repeat constructor; intros [] | ].
    intros k Hk [<- | []]. apply has_key_false in Hkey. exact (Hkey Hk).
Qed.

(** The INSERT goes through when the keys of the frame are new to the
    table and differ from each other. *)
Lemma insert_rows_ok (c : Z) (tk : string) (rs : list Row) :
  forall t,
    (forall r, In r rs ->
       ticker r = Some tk
       /\ exists d, date r = Some d /\ ~ In (tk, d) (map stored_key t)) ->
    NoDup (map date rs) ->
    exists t', insert_rows c rs t = inr t'.
Proof.
  induction rs as [ | r rs IH]; simpl; intros t Hnew Hdup.
  - eexists. reflexivity.
  - destruct (Hnew r (or_introl eq_refl)) as [Htk [d [Hd Hfresh]]].
    rewrite Htk, Hd.
    apply has_key_false in Hfresh. rewrite Hfresh.
    apply NoDup_cons_iff in Hdup as [Hr Hdup].
    apply IH; [ | exact Hdup].
    intros r' Hr'.
    destruct (Hnew r' (or_intror Hr')) as [Htk' [d' [Hd' Hfresh']]].
    split; [exact Htk' | ]. exists d'. split; [exact Hd' | ].
    rewrite map_app, in_app_iff. simpl. unfold stored_key at 2. simpl.
    intros [Hin | [Heq | []]]; [exact (Hfresh' Hin) | ].
    injection Heq as <-. apply Hr. rewrite Hd, <- Hd'.
    apply in_map. exact Hr'.
Qed.

Lemma dates_spec (rs : list Row) (ds : list Z) :
  dates rs = inr ds <-> map date rs = map Some ds.
Proof.
  revert ds. induction rs as [ | r rs IH]; simpl; intros ds.
  - split; [intros H; injection H as <-; reflexivity | ].
    destruct ds; [reflexivity | discriminate].
  - destruct (date r) as [d | ].
    + destruct (dates rs) as [e | ds'].
      * split; [discriminate | ].
        destruct ds as [ | d0 ds0]; [discriminate | ]. simpl.
        intros H. injection H as _ H. apply IH in H. discriminate.
      * split.
        -- intros H. injection H as <-. simpl. f_equal.
           apply IH. reflexivity.
        -- destruct ds as [ | d0 ds0]; [discriminate | ]. simpl.
           intros H. injection H as -> H. apply IH in H.
           injection H as ->. reflexivity.
    + split; [discriminate | ]. destruct ds; discriminate.
Qed.

Lemma fold_min_le (l : list Z) :
  forall a, fold_left Z.min l a <= a
            /\ (forall x, In x l -> fold_left Z.min l a <= x)
            /\ In (fold_left Z.min l a) (a :: l).
Proof.
  induction l as [ | b l IH]; simpl; intros a.
  - split; [lia | ]. split; [intros x [] | left; reflexivity].
  - destruct (IH (Z.min a b)) as (H1 & H2 & H3).
    split; [lia | ]. split.
    + intros x [<- | Hx]; [lia | exact (H2 x Hx)].
    + destruct H3 as [H3 | H3]; [ | right; right; exact H3].
      rewrite <- H3. destruct (Z.min_spec a b) as [[_ ->] | [_ ->]]; auto.
Qed.

Lemma fold_max_ge (l : list Z) :
  forall a, a <= fold_left Z.max l a
            /\ (forall x, In x l -> x <= fold_left Z.max l a)
            /\ In (fold_left Z.max l a) (a :: l).
Proof.
  induction l as [ | b l IH]; simpl; intros a.
  - split; [lia | ]. split; [intros x [] | left; reflexivity].
  - destruct (IH (Z.max a b)) as (H1 & H2 & H3).
    split; [lia | ]. split.
    + intros x [<- | Hx]; [lia | exact (H2 x Hx)].
    + destruct H3 as [H3 | H3]; [ | right; right; exact H3].
      rewrite <- H3. destruct (Z.max_spec a b) as [[_ ->] | [_ ->]]; auto.
Qed.

Lemma minimum_maximum_bounds (ds : list Z) (d : Z) :
  In d ds -> minimum ds <= d <= maximum ds.
Proof.
  destruct ds as [ | d0 ds]; [intros [] | ]. simpl.
  destruct (fold_min_le ds d0) as (H1 & H2 & _).
  destruct (fold_max_ge ds d0) as (H3 & H4 & _).
  intros [<- | Hd]; [lia | ].
  split; [exact (H2 d Hd) | exact (H4 d Hd)].
Qed.

Lemma minimum_maximum_in (ds : list Z) :
  ds <> [] -> In (minimum ds) ds /\ In (maximum ds) ds.
Proof.
  destruct ds as [ | d0 ds]; [congruence | ]. intros _. simpl minimum.
  simpl maximum.
  destruct (fold_min_le ds d0) as (_ & _ & H1).
  destruct (fold_max_ge ds d0) as (_ & _ & H2).
  split; assumption.
Qed.

End StorageFacts.

Lemma first_ticker_single (t : string) (df : DataFrame) :
  single_ticker t df -> rows df <> [] -> first_ticker df = Some t.
Proof.
  unfold first_ticker, single_ticker. intros Hticker Hrows.
  destruct (rows df) as [ | r rs]; [contradiction | ].
  apply Hticker. left. reflexivity.
Qed.

Section UpsertFacts.

Import DuckDBStorage.

Variable t : string.
Variable df : DataFrame.
Variable ds : list Z.
Hypothesis Hticker : single_ticker t df.
Hypothesis Hdates : dates (rows df) = inr ds.

Lemma in_span_true (s : StoredRow) :
  s_ticker s = t -> In (s_date s) ds ->
  in_span (Some t) (minimum ds) (maximum ds) s = true.
Proof.
  intros Htk Hd. apply minimum_maximum_bounds in Hd.
  unfold in_span. rewrite Htk, String.eqb_refl. simpl.
  apply andb_true_iff. split; apply Z.leb_le; lia.
Qed.

(** The rows written for the frame are rows of its ticker and dates. *)
Lemma new_rows_in_span (new : list StoredRow) :
  map price_bar new = rows df ->
  forall s, In s new -> s_ticker s = t /\ In (s_date s) ds.
Proof.
  intros Hbars s Hs.
  assert (Hin : In (price_bar s) (rows df))
    by (rewrite <- Hbars; apply in_map; exact Hs).
  split.
  - apply Hticker in Hin. simpl in Hin. congruence.
  - apply (in_map date) in Hin. simpl in Hin.
    rewrite (proj1 (dates_spec _ _) Hdates) in Hin.
    apply in_map_iff in Hin as [d [Hd Hin]]. congruence.
Qed.

Lemma kept_no_key (d : Z) (table : list StoredRow) :
  In d ds -> ~ In (t, d) (map stored_key (kept t ds table)).
Proof.
  intros Hd Hin. apply in_map_iff in Hin as [s [Hkey Hs]].
  unfold kept in Hs. apply filter_In in Hs as [_ Hs].
  unfold stored_key in Hkey. injection Hkey as Htk Hsd.
  rewrite in_span_true in Hs; [discriminate | exact Htk | ].
  rewrite Hsd. exact Hd.
Qed.



Hypothesis Hrows : rows df <> [].
Hypothesis Hcols : has_required_columns df.

Lemma frame_not_empty : empty df = false.
Proof.
  unfold empty. destruct (rows df); [congruence | ].
  apply has_columns_spec with (c := "ticker") in Hcols;
    [ | left; reflexivity].
  unfold has_column in Hcols. destruct (columns df);
    [discriminate | reflexivity].
Qed.

(** The DELETE and the INSERT of an upsert on a connection that works:
    the casts of the cells, then the rows one by one. *)
Lemma upsert_data_run (w : World) :
  conn w = true -> faults w = [] ->
  upsert_data (Some df) w
  = if truthy (DataValidator.text_columns df) then
      (inl (ConversionException "VARCHAR"),
       set_stock_prices (kept t ds (stock_prices w)) w)
    else if casts_to_bigint (rows df) then
      match insert_rows (now w) (rows df) (kept t ds (stock_prices w)) with
      | inl e => (inl e, set_stock_prices (kept t ds (stock_prices w)) w)
      | inr t' => (inr (List.length (rows df)), set_stock_prices t' w)
      end
    else (inl (ConversionException "INT64"),
          set_stock_prices (kept t ds (stock_prices w)) w).
Proof.
  intros Hconn Hfaults. unfold upsert_data.
  rewrite frame_not_empty. fold (first_ticker df).
  rewrite (first_ticker_single t df Hticker Hrows).
  unfold column.
  rewrite (proj1 (has_columns_spec _ _) Hcols "ticker")
    by (simpl; tauto).
  rewrite (proj1 (has_columns_spec _ _) Hcols "date") by (simpl; tauto).
  unfold bind at 1, lift_result at 1. unfold try_except.
  unfold bind at 1, lift_result at 1.
  unfold bind at 1, lift_result at 1. rewrite Hdates.
  unfold bind at 1. rewrite (execute_ok _ w Hconn Hfaults).
  unfold delete_span. fold (kept t ds (stock_prices w)).
  unfold bind at 1, gets at 1. unfold bind at 1.
  rewrite execute_ok by assumption.
  unfold insert_frame.
  rewrite (proj2 (no_missing_columns df _) Hcols).
  simpl stock_prices. simpl now.
  destruct (truthy (DataValidator.text_columns df)); [reflexivity | ].
  destruct (casts_to_bigint (rows df)); [ | reflexivity].
  destruct (insert_rows (now w) (rows df) (kept t ds (stock_prices w)));
    reflexivity.
Qed.

(** Whenever an upsert raises on a connection that works, the DELETE is
    done and no row of the frame is in. *)
Lemma upsert_data_refused (w w' : World) (e : exn) :
  conn w = true -> faults w = [] ->
  upsert_data (Some df) w = (inl e, w') ->
  w' = set_stock_prices (kept t ds (stock_prices w)) w.
Proof.
  intros Hconn Hfaults. rewrite upsert_data_run by assumption.
  destruct (truthy (DataValidator.text_columns df)).
  { intros H. injection H as _ <-. reflexivity. }
  destruct (casts_to_bigint (rows df)).
  - destruct (insert_rows _ _ _); [ | discriminate].
    intros H. injection H as _ <-. reflexivity.
  - intros H. injection H as _ <-. reflexivity.
Qed.

(** An upsert that returns has deleted the span and appended the frame. *)
Lemma upsert_data_stored (w w' : World) (n : nat) :
  conn w = true -> faults w = [] ->
  upsert_data (Some df) w = (inr n, w') ->
  exists new,
    w' = set_stock_prices (kept t ds (stock_prices w) ++ new) w
    /\ map price_bar new = rows df
    /\ n = List.length (rows df)
    /\ casts_to_bigint (rows df) = true.
Proof.
  intros Hconn Hfaults. rewrite upsert_data_run by assumption.
  destruct (truthy (DataValidator.text_columns df)); [discriminate | ].
  destruct (casts_to_bigint (rows df)); [ | discriminate].
  destruct (insert_rows (now w) (rows df) (kept t ds (stock_prices w)))
    as [e | t'] eqn:E; [discriminate | ].
  intros H. injection H as <- <-.
  apply insert_rows_app in E as (new & -> & Hbars & _).
  exists new. auto.
Qed.

Hypothesis Hnumeric : numeric_cells df.

(** On numeric columns the casts of the prices go through. *)
Lemma upsert_data_numeric (w : World) :
  conn w = true -> faults w = [] ->
  upsert_data (Some df) w
  = if casts_to_bigint (rows df) then
      match insert_rows (now w) (rows df) (kept t ds (stock_prices w)) with
      | inl e => (inl e, set_stock_prices (kept t ds (stock_prices w)) w)
      | inr t' => (inr (List.length (rows df)), set_stock_prices t' w)
      end
    else (inl (ConversionException "INT64"),
          set_stock_prices (kept t ds (stock_prices w)) w).
Proof.
  intros Hconn Hfaults. rewrite upsert_data_run by assumption.
  rewrite (text_columns_numeric df Hnumeric). reflexivity.
Qed.

(** A volume out of the range of BIGINT stops the INSERT, after the
    DELETE. *)
Lemma upsert_data_overflow (w : World) :
  conn w = true -> faults w = [] ->
  casts_to_bigint (rows df) = false ->
  upsert_data (Some df) w
  = (inl (ConversionException "INT64"),
     set_stock_prices (kept t ds (stock_prices w)) w).
Proof.
  intros Hconn Hfaults Hover.
  rewrite upsert_data_numeric by assumption. rewrite Hover. reflexivity.
Qed.

Hypothesis Hdistinct : NoDup ds.
Hypothesis Hvolumes : casts_to_bigint (rows df) = true.

(** The upsert of a single-ticker frame with distinct dates and volumes
    that fit BIGINT, on an open connection to a database that does not
    fail. *)
Lemma upsert_data_ok (w : World) :
  conn w = true -> faults w = [] ->
  exists new,
    upsert_data (Some df) w
    = (inr (List.length (rows df)),
       set_stock_prices (kept t ds (stock_prices w) ++ new) w)
    /\ map price_bar new = rows df
    /\ Forall (fun s => created_at s = now w) new.
Proof.
  intros Hconn Hfaults.
  assert (Hinsert : exists t',
             insert_rows (now w) (rows df) (kept t ds (stock_prices w))
             = inr t').
  { apply (insert_rows_ok (now w) t).
    - intros r Hr. split; [exact (Hticker r Hr) | ].
      assert (Hd : In (date r) (map Some ds)).
      { rewrite <- (proj1 (dates_spec _ _) Hdates).
        apply in_map. exact Hr. }
      apply in_map_iff in Hd as [d [Hd Hin]].
      exists d. split; [congruence | ]. apply kept_no_key. exact Hin.
    - rewrite (proj1 (dates_spec _ _) Hdates).
      apply NoDup_map_Some. exact Hdistinct. }
  destruct Hinsert as [t' Hinsert].
  destruct (insert_rows_app _ _ _ _ Hinsert) as (new & -> & Hbars & Hc).
  exists new. split; [ | split; assumption].
  rewrite upsert_data_numeric by assumption.
  rewrite Hvolumes, Hinsert. reflexivity.
Qed.

End UpsertFacts.

Section StoreTheorems.

Import DuckDBStorage.

Lemma execute_returned {A}
      (stmt : list StoredRow -> exn + (A * list StoredRow))
      (w w' : World) (a : A) :
  execute stmt w = (inr a, w') ->
  stmt (stock_prices w) = inr (a, stock_prices w') /\ now w' = now w.
Proof.
  unfold execute, bind, gets, duckdb_call, raise, modify, ret.
  destruct (conn w); simpl; [ | discriminate].
  destruct (faults w) as [ | [e | ] fs]; simpl; try discriminate;
    destruct (stmt (stock_prices w)) as [e | [a' t']]; simpl;
    try discriminate; intros H; injection H as <- <-; auto.
Qed.

(** When [upsert_data] returns on a frame that is not empty, the rows of
    the frame are the last rows of the table. *)
Lemma upsert_data_returned (df : DataFrame) (w w' : World) (n : nat) :
  empty df = false ->
  upsert_data (Some df) w = (inr n, w') ->
  exists table new,
    stock_prices w' = table ++ new /\ map price_bar new = rows df.
Proof.
  intros Hempty. unfold upsert_data. rewrite Hempty.
  unfold bind at 1, lift_result at 1.
  destruct (column "ticker" df); [discriminate | ].
  unfold try_except.
  unfold bind at 1, lift_result at 1.
  destruct (column "date" df); [discriminate | ].
  unfold bind at 1, lift_result at 1.
  destruct (dates (rows df)) as [e | ds]; [discriminate | ].
  unfold bind at 1.
  destruct (execute _ w) as [[e | []] w1]; [discriminate | ].
  unfold bind at 1, gets at 1. unfold bind at 1.
  destruct (execute (insert_frame (now w1) df) w1)
    as [[e | []] w2] eqn:E2; [discriminate | ].
  unfold ret. intros H. injection H as _ <-.
  apply execute_returned in E2 as [E2 _].
  apply insert_frame_returned in E2 as (_ & _ & E).
  apply insert_rows_app in E as (new & Htable & Hbars & _).
  exists (stock_prices w1), new. auto.
Qed.

(** The DELETE keeps the key unique. *)
Lemma unique_keys_filter (keep : StoredRow -> bool) (table : list StoredRow) :
  unique_keys table -> unique_keys (filter keep table).
Proof.
  unfold unique_keys.
  induction table as [ | r table IH]; simpl; intros Hu; [exact Hu | ].
  apply NoDup_cons_iff in Hu as [Hr Hu].
  destruct (keep r); simpl; [ | exact (IH Hu)].
  constructor; [ | exact (IH Hu)].
  intros Hin. apply Hr. apply in_map_iff in Hin as [r' [Hkey Hin]].
  apply filter_In in Hin as [Hin _].
  rewrite <- Hkey. apply in_map. exact Hin.
Qed.

Lemma upsert_data_unique (df : option DataFrame) (w : World) :
  unique_keys (stock_prices w) ->
  unique_keys (stock_prices (snd (upsert_data df w))).
Proof.
  intros Hu. destruct df as [df | ]; [ | exact Hu].
  apply upsert_data_preserves; [exact Hu | | ].
  - intros ds t _ Ht. apply unique_keys_filter. exact Ht.
  - intros c t t' Ht. apply insert_rows_unique. exact Ht.
Qed.

Lemma bulk_upsert_unique (data_dict : list (string * option DataFrame)) :
  forall results w,
    unique_keys (stock_prices w) ->
    unique_keys (stock_prices (snd (bulk_upsert data_dict results w))).
Proof.
  induction data_dict as [ | [ticker df] data_dict IH]; simpl;
    intros results w Hu; [exact Hu | ].
  unfold bind at 1.
  destruct df as [df | ].
  - unfold try_except.
    pose proof (upsert_data_unique (Some df) w Hu) as Hu'.
    destruct (upsert_data (Some df) w) as [[e | n] w1]; simpl in Hu';
      apply IH; exact Hu'.
  - unfold ret. apply IH. exact Hu.
Qed.

Lemma dates_rows (df : DataFrame) (ds : list Z) (d : Z) :
  dates (rows df) = inr ds -> In d ds ->
  exists r, In r (rows df) /\ date r = Some d.
Proof.
  intros Hdates Hd. apply dates_spec in Hdates.
  apply (in_map Some) in Hd. rewrite <- Hdates in Hd.
  apply in_map_iff in Hd as [r [Hr Hin]]. exists r. auto.
Qed.

(** A stored row outside the span is neither deleted nor inserted. *)
Lemma upsert_data_frame (df : DataFrame) (t : string) (w : World)
      (r : StoredRow) :
  rows df <> [] -> single_ticker t df -> outside_span t df r ->
  In r (stock_prices (snd (upsert_data (Some df) w)))
  <-> In r (stock_prices w).
Proof.
  intros Hrows Hticker Hout.
  apply (upsert_data_preserves
           (fun table => In r table <-> In r (stock_prices w)));
    [tauto | | ].
  - intros ds table Hdates IH. rewrite filter_In, IH.
    assert (Hspan : in_span (first_ticker df) (minimum ds) (maximum ds) r
                    = false).
    { rewrite (first_ticker_single t df Hticker Hrows). unfold in_span.
      assert (Hds : ds <> []).
      { apply dates_spec in Hdates. destruct ds; [ | discriminate].
        destruct (rows df); [congruence | discriminate]. }
      destruct (minimum_maximum_in ds Hds) as [Hmin Hmax].
      destruct (dates_rows df ds _ Hdates Hmin) as [r1 [Hr1 Hd1]].
      destruct (dates_rows df ds _ Hdates Hmax) as [r2 [Hr2 Hd2]].
      destruct Hout as [Hne | [Hbefore | Hafter]].
      - apply String.eqb_neq in Hne. rewrite Hne. reflexivity.
      - specialize (Hbefore r1 Hr1 _ Hd1).
        apply andb_false_iff. left. apply andb_false_iff. right.
        apply Z.leb_gt. exact Hbefore.
      - specialize (Hafter r2 Hr2 _ Hd2).
        apply andb_false_iff. right. apply Z.leb_gt. exact Hafter. }
    rewrite Hspan. simpl. tauto.
  - intros c table table' IH Hins.
    apply insert_rows_app in Hins as (new & -> & Hbars & _).
    rewrite in_app_iff, IH.
    split; [ | tauto]. intros [H | Hnew]; [exact H | exfalso].
    assert (Hin : In (price_bar r) (rows df))
      by (rewrite <- Hbars; apply in_map; exact Hnew).
    destruct Hout as [Hne | [Hbefore | Hafter]].
    + apply Hticker in Hin. simpl in Hin. congruence.
    + specialize (Hbefore _ Hin (s_date r) eq_refl). lia.
    + specialize (Hafter _ Hin (s_date r) eq_refl). lia.
Qed.

End StoreTheorems.

(** ** Relations between the states of a computation *)

Section Stable.
Context {S : Type} (R : S -> S -> Prop) {HR : PreOrder R}.

Lemma stable_ret {A} (a : A) : stable R (ret a).
Proof. intros s. reflexivity. Qed.

Lemma stable_raise {A} (e : exn) : stable R (@raise S A e).
Proof. intros s. reflexivity. Qed.

Lemma stable_lift_result {A} (r : exn + A) : stable R (lift_result r).
Proof. intros s. reflexivity. Qed.

Lemma stable_gets {A} (f : S -> A) : stable R (gets f).
Proof. intros s. reflexivity. Qed.

Lemma stable_modify (f : S -> S) :
  (forall s, R s (f s)) -> stable R (modify f).
Proof. intros H s. apply H. Qed.

Lemma stable_bind {A B} (m : M S A) (k : A -> M S B) :
  stable R m -> (forall a, stable R (k a)) -> stable R (bind m k).
Proof.
  intros Hm Hk s. unfold bind. specialize (Hm s).
  destruct (m s) as [[e | a] s']; simpl in *; [exact Hm | ].
  transitivity s'; [exact Hm | apply Hk].
Qed.

Lemma stable_try_except {A} (m : M S A) (h : exn -> M S A) :
  stable R m -> (forall e, stable R (h e)) -> stable R (try_except m h).
Proof.
  intros Hm Hh s. unfold try_except. specialize (Hm s).
  destruct (m s) as [[e | a] s']; simpl in *; [ | exact Hm].
  transitivity s'; [exact Hm | apply Hh].
Qed.

Lemma stable_for_each {A} (xs : list A) (body : A -> M S unit) :
  (forall x, stable R (body x)) -> stable R (for_each xs body).
Proof.
  intros Hbody. induction xs as [ | x xs IH]; simpl.
  - apply stable_ret.
  - apply stable_bind; [apply Hbody | intros _; exact IH].
Qed.
End Stable.

Lemma stable_on_snd {S1 S2 A} (R : S2 -> S2 -> Prop)
      (R' : S1 * S2 -> S1 * S2 -> Prop) (m : M S2 A) :
  (forall r w w', R w w' -> R' (r, w) (r, w')) ->
  stable R m -> stable R' (on_snd m).
Proof.
  intros Hlift Hm [r w]. unfold on_snd. simpl. specialize (Hm w).
  destruct (m w) as [res w']. simpl in *. apply Hlift. exact Hm.
Qed.

Ltac stable_step :=
  match goal with
  | |- stable _ (bind _ _) =>
    apply stable_bind; [typeclasses eauto | | intros ]
  | |- stable _ (ret _) => apply stable_ret; typeclasses eauto
  | |- stable _ (raise _) => apply stable_raise; typeclasses eauto
  | |- stable _ (lift_result _) =>
    apply stable_lift_result; typeclasses eauto
  | |- stable _ (gets _) => apply stable_gets; typeclasses eauto
  | |- stable _ (try_except _ _) =>
    apply stable_try_except; [typeclasses eauto | | intros ]
  | |- stable _ (for_each _ _) =>
    apply stable_for_each; [typeclasses eauto | intros ]
  | |- stable _ (if ?c then _ else _) => destruct c
  | |- stable _ (match ?x with _ => _ end) => destruct x
  end.

#[export] Instance same_table_preorder : PreOrder same_table.
Proof.
  split; [intros w; reflexivity | ].
  intros w1 w2 w3. unfold same_table. congruence.
Qed.

#[export] Instance nothing_stored_preorder : PreOrder nothing_stored.
Proof.
  split; [intros s; split; reflexivity | ].
  intros s1 s2 s3 [H1 H2] [H3 H4]. split.
  - transitivity (snd s2); assumption.
  - congruence.
Qed.

(** ** What leaves the table alone *)

Section NothingStored.
Import DuckDBStorage.

Lemma stable_execute_read {A}
      (stmt : list StoredRow -> exn + (A * list StoredRow)) :
  (forall t a t', stmt t = inr (a, t') -> t' = t) ->
  stable same_table (execute stmt).
Proof.
  intros H w. unfold same_table.
  apply (execute_preserves (fun t => t = stock_prices w));
    [ | reflexivity].
  intros a t' Hs. apply (H _ _ _ Hs).
Qed.

Lemma stable_duckdb_call : stable same_table duckdb_call.
Proof.
  intros w. unfold duckdb_call, same_table.
  destruct (faults w) as [ | [e | ] fs]; reflexivity.
Qed.

Lemma stable_connect : stable same_table connect.
Proof.
  assert (Hddl : stable same_table (execute ddl)).
  { apply stable_execute_read. intros t a t' H. inversion H. reflexivity. }
  unfold connect, _initialize_schema.
  repeat first [ exact Hddl | apply stable_duckdb_call
               | apply stable_modify; intros; reflexivity
               | stable_step ].
Qed.

Lemma stable_sleep (seconds : Z) :
  stable same_table (StockDataDownloader.sleep seconds).
Proof.
  unfold StockDataDownloader.sleep.
  repeat first [ apply stable_modify; intros; reflexivity | stable_step ].
Qed.

Lemma stable_attempts self fetch (range : list nat) :
  stable same_table (StockDataDownloader.attempts self fetch range).
Proof.
  induction range as [ | attempt range IH]; simpl;
    repeat first [ exact IH | apply stable_sleep | stable_step ].
Qed.

Lemma stable_get_last_date (ticker : string) :
  stable same_table (get_last_date ticker).
Proof.
  apply stable_execute_read. intros t a t' H. inversion H. reflexivity.
Qed.

Lemma stable_determine_date_range self ticker sd ed :
  stable same_table
         (IngestionPipeline.determine_date_range self ticker sd ed).
Proof.
  unfold IngestionPipeline.determine_date_range.
  repeat first [ apply stable_get_last_date | stable_step ].
Qed.

Lemma nothing_stored_on_snd {A} (m : M World A) :
  stable same_table m ->
  stable nothing_stored (@on_snd IngestionPipeline.Results _ _ m).
Proof.
  apply stable_on_snd. intros r w w' H. split; [exact H | reflexivity].
Qed.

Lemma nothing_stored_update
      (f : IngestionPipeline.Results -> IngestionPipeline.Results) :
  (forall r, IngestionPipeline.total_rows_inserted (f r)
             = IngestionPipeline.total_rows_inserted r) ->
  stable nothing_stored (IngestionPipeline.update f).
Proof.
  intros H. apply stable_modify. intros [r w]. split; [reflexivity | apply H].
Qed.

End NothingStored.

Ltac solve_nothing_stored :=
  repeat first
         [ apply nothing_stored_update; intros; reflexivity
         | apply nothing_stored_on_snd
         | apply stable_determine_date_range
         | apply stable_attempts
         | apply stable_connect
         | stable_step ].

(** One turn of the loop of a validate-only run stores nothing. *)
Lemma nothing_stored_process (self : IngestionPipeline.Pipeline)
      (start_date end_date : option string) (t : string) :
  stable nothing_stored
         (IngestionPipeline.process self start_date end_date true t).
Proof.
  unfold IngestionPipeline.process, IngestionPipeline.process_ticker,
    IngestionPipeline.store_data, IngestionPipeline.add_error,
    IngestionPipeline.add_warning, IngestionPipeline.count_failed,
    IngestionPipeline.count_processed,
    StockDataDownloader.download_ticker.
  simpl negb. cbv iota.
  solve_nothing_stored.
Qed.



(** C2, as the code has it.  For every single-ticker row set that is not
    empty, whether [upsert_data] returns or raises, a stored row of
    another ticker, or dated before or after all the dates of the row
    set, is in the table afterwards exactly when it was before.  When
    the prices and volumes are numeric, no date is missing, no date is
    there twice and every volume fits the BIGINT column, on an open
    connection to a database that does not
    fail, [upsert_data] returns the number of rows and the table is the
    old one without the rows of that ticker dated from the least to the
    greatest date of the row set, followed by the rows of the row set.
    When a volume does not fit, the DELETE is done and the INSERT raises
    its conversion error. *)
Theorem upsert_data_span
        (w : DuckDBStorage.World) (df : DataFrame) (t : string)
        (Hrows : rows df <> [])
        (Hticker : single_ticker t df) :
  (forall r,
      outside_span t df r ->
      In r (DuckDBStorage.stock_prices
              (snd (DuckDBStorage.upsert_data (Some df) w)))
      <-> In r (DuckDBStorage.stock_prices w))
  /\ (forall ds,
         DuckDBStorage.conn w = true -> DuckDBStorage.faults w = [] ->
         has_required_columns df -> numeric_cells df ->
         DuckDBStorage.dates (rows df) = inr ds -> NoDup ds ->
         DuckDBStorage.casts_to_bigint (rows df) = true ->
         exists new,
           DuckDBStorage.upsert_data (Some df) w
           = (inr (List.length (rows df)),
              DuckDBStorage.set_stock_prices
                (kept t ds (DuckDBStorage.stock_prices w) ++ new) w)
           /\ map DuckDBStorage.price_bar new = rows df
           /\ Forall (fun s => DuckDBStorage.created_at s
                               = DuckDBStorage.now w) new)
  /\ (forall ds,
         DuckDBStorage.conn w = true -> DuckDBStorage.faults w = [] ->
         has_required_columns df -> numeric_cells df ->
         DuckDBStorage.dates (rows df) = inr ds ->
         DuckDBStorage.casts_to_bigint (rows df) = false ->
         DuckDBStorage.upsert_data (Some df) w
         = (inl (ConversionException "INT64"),
            DuckDBStorage.set_stock_prices
              (kept t ds (DuckDBStorage.stock_prices w)) w)).
Proof.
  split; [ | split].
  - intros r Hout. apply (upsert_data_frame df t); assumption.
  - intros ds Hconn Hfaults Hcols Hnumeric Hdates Hdistinct Hvolumes.
    apply (upsert_data_ok t df ds); assumption.
  - intros ds Hconn Hfaults Hcols Hnumeric Hdates Hvolumes.
    apply (upsert_data_overflow t df ds); assumption.
Qed.

Lemma upsert_data_span_witness :
  In (stored_bar "Y" Sample.day 1)
     (DuckDBStorage.stock_prices
        (snd (DuckDBStorage.upsert_data
                (Some two_days) (Sample.world small_table))))
  /\ exists new,
      DuckDBStorage.upsert_data (Some two_days) (Sample.world small_table)
      = (inr 2%nat,
         DuckDBStorage.set_stock_prices
           ([stored_bar "Y" Sample.day 1] ++ new)
           (Sample.world small_table))
      /\ map DuckDBStorage.price_bar new = rows two_days.
Proof.
  assert (Hrows : rows two_days <> []) by discriminate.
  assert (Hticker : single_ticker "X" two_days)
    by (intros r [<- | [<- | []]]; reflexivity).
  destruct (upsert_data_span (Sample.world small_table) two_days "X"
                             Hrows Hticker) as (Hframe & Hok & _).
  split.
  - apply Hframe; [left; discriminate | right; left; reflexivity].
  - destruct (Hok [Sample.day; Sample.day + 1]) as (new & Heq & Hbars & _);
      try reflexivity.
    + intros c Hc _. simpl in Hc.
      repeat (destruct Hc as [<- | Hc]; [reflexivity | ]). contradiction.
    + repeat constructor; simpl; intros H;
        repeat (destruct H as [H | H]; try discriminate H); exact H.
    + exists new. split; [exact Heq | exact Hbars].
Defined.

(** C2, as stated, fails on a row set with the same date twice: the
    stored row of that date is deleted, the INSERT is refused, and none
    of the rows of the row set is in the table. *)
Lemma upsert_data_same_day_twice :
  rows same_day_twice <> [] /\ single_ticker "X" same_day_twice
  /\ DuckDBStorage.upsert_data
       (Some same_day_twice) (Sample.world [stored_bar "X" Sample.day 5])
     = (inl (ConstraintException "PRIMARY KEY"), Sample.world [])
  /\ ~ (forall r,
          In r (rows same_day_twice) ->
          In r (map DuckDBStorage.price_bar
                    (DuckDBStorage.stock_prices
                       (snd (DuckDBStorage.upsert_data
                               (Some same_day_twice)
                               (Sample.world
                                  [stored_bar "X" Sample.day 5])))))).
Proof.
  split; [discriminate | ].
  split; [intros r [<- | [<- | []]]; reflexivity | ].
  split; [reflexivity | ].
  intros H. exact (H _ (or_introl eq_refl)).
Qed.

(** C3.  From a table with at most one row per (ticker, date),
    [upsert_data] and [bulk_upsert] leave a table with at most one row
    per (ticker, date), whether they return or raise, and so do
    [connect], [get_last_date] and [close], which change no row; and when
    [upsert_data] returns on a row set that is not empty, each of its rows
    is in the table as the one row of its key. *)
Theorem upsert_preserves_unique_keys
        (w : DuckDBStorage.World)
        (Hunique : unique_keys (DuckDBStorage.stock_prices w)) :
  (forall df,
      unique_keys (DuckDBStorage.stock_prices
                     (snd (DuckDBStorage.upsert_data df w))))
  /\ (forall data_dict results,
         unique_keys (DuckDBStorage.stock_prices
                        (snd (DuckDBStorage.bulk_upsert
                                data_dict results w))))
  /\ unique_keys (DuckDBStorage.stock_prices (snd (DuckDBStorage.connect w)))
  /\ (forall ticker,
         unique_keys (DuckDBStorage.stock_prices
                        (snd (DuckDBStorage.get_last_date ticker w))))
  /\ unique_keys (DuckDBStorage.stock_prices (DuckDBStorage.close w))
  /\ (forall df n w',
         empty df = false ->
         DuckDBStorage.upsert_data (Some df) w = (inr n, w') ->
         forall r, In r (rows df) ->
           exists s,
             In s (DuckDBStorage.stock_prices w')
             /\ DuckDBStorage.price_bar s = r
             /\ forall s', In s' (DuckDBStorage.stock_prices w') ->
                           stored_key s' = stored_key s -> s' = s).
Proof.
  split; [intros df; apply upsert_data_unique; exact Hunique | ].
  split; [intros dd res; apply bulk_upsert_unique; exact Hunique | ].
  split; [rewrite (stable_connect w); exact Hunique | ].
  split; [intros ticker; rewrite (stable_get_last_date ticker w);
          exact Hunique | ].
  split; [unfold DuckDBStorage.close; destruct (DuckDBStorage.conn w);
          exact Hunique | ].
  intros df n w' Hempty Hret r Hr.
  pose proof (upsert_data_unique (Some df) w Hunique) as Hu.
  rewrite Hret in Hu. simpl in Hu.
  destruct (upsert_data_returned df w w' n Hempty Hret)
    as (table & new & Htable & Hbars).
  rewrite <- Hbars in Hr. apply in_map_iff in Hr as [s [Hs Hin]].
  exists s. split; [rewrite Htable; apply in_app_iff; right; exact Hin | ].
  split; [exact Hs | ].
  intros s' Hin' Hkey.
  assert (Hin0 : In s (DuckDBStorage.stock_prices w'))
    by (rewrite Htable; apply in_app_iff; right; exact Hin).
  revert Hu Hin' Hin0 Hkey. unfold unique_keys.
  generalize (DuckDBStorage.stock_prices w'). clear.
  induction l as [ | a l IH]; simpl; [tauto | ].
  intros Hu. apply NoDup_cons_iff in Hu as [Ha Hl].
  intros [<- | H1] [<- | H2] Hkey; auto.
  - exfalso. apply Ha. rewrite Hkey. apply in_map. exact H2.
  - exfalso. apply Ha. rewrite <- Hkey. apply in_map. exact H1.
Qed.

Lemma upsert_preserves_unique_keys_witness :
  unique_keys (DuckDBStorage.stock_prices (Sample.world small_table))
  /\ unique_keys
       (DuckDBStorage.stock_prices
          (snd (DuckDBStorage.upsert_data
                  (Some two_days) (Sample.world small_table)))).
Proof.
  assert (H : unique_keys
                (DuckDBStorage.stock_prices (Sample.world small_table))).
  { repeat constructor; simpl; intros H;
      repeat (destruct H as [H | H]; try discriminate H); exact H. }
  split; [exact H | ].
  apply (upsert_preserves_unique_keys (Sample.world small_table) H).
Defined.

(** ** The fetch window *)

Section WindowFacts.

Import DuckDBStorage.

Lemma max_date_acc (ticker : string) (t : list StoredRow) :
  forall acc,
    fold_left
      (fun acc r =>
         if String.eqb (s_ticker r) ticker then
           match acc with
           | Some m => Some (Z.max m (s_date r))
           | None => Some (s_date r)
           end
         else acc) t acc
    = match max_date ticker t, acc with
      | Some m, Some a => Some (Z.max a m)
      | Some m, None => Some m
      | None, _ => acc
      end.
Proof.
  unfold max_date.
  induction t as [ | r t IH]; simpl; intros acc.
  - destruct acc; reflexivity.
  - rewrite IH. rewrite (IH (if String.eqb (s_ticker r) ticker
                             then Some (s_date r) else None)).
    destruct (String.eqb (s_ticker r) ticker);
      destruct (fold_left _ t None) as [m | ]; destruct acc as [a | ];
      try reflexivity; f_equal; lia.
Qed.

Lemma max_date_cons (ticker : string) (r : StoredRow)
      (t : list StoredRow) :
  max_date ticker (r :: t)
  = if String.eqb (s_ticker r) ticker then
      match max_date ticker t with
      | Some m => Some (Z.max (s_date r) m)
      | None => Some (s_date r)
      end
    else max_date ticker t.
Proof.
  unfold max_date at 1. simpl. rewrite max_date_acc.
  destruct (String.eqb (s_ticker r) ticker);
    destruct (max_date ticker t); reflexivity.
Qed.

(** MAX(date) is the date of a row of the ticker that no row of the
    ticker exceeds; it is NULL when the ticker has no row. *)
Lemma max_date_spec (ticker : string) (t : list StoredRow) :
  match max_date ticker t with
  | Some D =>
    (exists r, In r t /\ s_ticker r = ticker /\ s_date r = D)
    /\ (forall r, In r t -> s_ticker r = ticker -> s_date r <= D)
  | None => forall r, In r t -> s_ticker r <> ticker
  end.
Proof.
  induction t as [ | r t IH]; [intros r [] | ].
  rewrite max_date_cons.
  destruct (String.eqb_spec (s_ticker r) ticker) as [Heq | Hne].
  - destruct (max_date ticker t) as [m | ].
    + destruct IH as [[r0 [Hin [Htk Hd]]] Hle]. split.
      * destruct (Z.max_spec (s_date r) m) as [[_ ->] | [_ ->]].
        -- exists r0. simpl. auto.
        -- exists r. simpl. auto.
      * intros r' [<- | Hr'] Htk'; [lia | ].
        specialize (Hle r' Hr' Htk'). lia.
    + split; [exists r; simpl; auto | ].
      intros r' [<- | Hr'] Htk'; [lia | ].
      exfalso. exact (IH r' Hr' Htk').
  - destruct (max_date ticker t) as [m | ].
    + destruct IH as [[r0 [Hin [Htk Hd]]] Hle]. split.
      * exists r0. simpl. auto.
      * intros r' [<- | Hr'] Htk'; [contradiction | auto].
    + intros r' [<- | Hr']; auto.
Qed.

Lemma max_date_last (ticker : string) (t : list StoredRow) (D : Z) :
  (exists r, In r t /\ s_ticker r = ticker /\ s_date r = D) ->
  (forall r, In r t -> s_ticker r = ticker -> s_date r <= D) ->
  max_date ticker t = Some D.
Proof.
  intros [r [Hin [Htk Hd]]] Hle.
  pose proof (max_date_spec ticker t) as H.
  destruct (max_date ticker t) as [m | ].
  - destruct H as [[r0 [Hin0 [Htk0 Hd0]]] Hle0].
    specialize (Hle r0 Hin0 Htk0). specialize (Hle0 r Hin Htk).
    f_equal. lia.
  - exfalso. exact (H r Hin Htk).
Qed.

Lemma max_date_none (ticker : string) (t : list StoredRow) :
  (forall r, In r t -> s_ticker r <> ticker) ->
  max_date ticker t = None.
Proof.
  intros Hnone. pose proof (max_date_spec ticker t) as H.
  destruct (max_date ticker t) as [m | ]; [ | reflexivity].
  destruct H as [[r [Hin [Htk _]]] _]. exfalso. exact (Hnone r Hin Htk).
Qed.

Lemma get_last_date_ok (ticker : string) (w : World) :
  conn w = true -> faults w = [] ->
  get_last_date ticker w = (inr (max_date ticker (stock_prices w)), w).
Proof.
  intros Hconn Hfaults. unfold get_last_date.
  rewrite execute_ok by assumption. destruct w; reflexivity.
Qed.

End WindowFacts.

Lemma strftime_not_empty (ordinal : Z) : Date.strftime ordinal <> "".
Proof.
  unfold Date.strftime. destruct (Date.civil ordinal) as [[y m] d].
  unfold Date.digits4. discriminate.
Qed.

(** ** The pipeline *)

Ltac run_report :=
  unfold bind, raise, ret, IngestionPipeline.add_error,
    IngestionPipeline.add_warning, IngestionPipeline.count_failed,
    IngestionPipeline.count_processed, IngestionPipeline.add_rows_inserted,
    IngestionPipeline.update, modify;
  simpl.

Section PipelineFacts.

Import IngestionPipeline.

Variable self : Pipeline.
Variables start_date end_date : option string.

(** [process_ticker] is [analyse] followed by "Store data". *)
Lemma process_ticker_split (validate_only : bool) (ticker : string)
      (s : State) :
  process_ticker self start_date end_date validate_only ticker s
  = bind (analyse self start_date end_date ticker)
         (fun r => match r with
                   | Some df => store_data validate_only df
                   | None => ret tt
                   end) s.
Proof.
  unfold process_ticker, analyse.
  next_bind. intros [download_start download_end] s1.
  next_bind. intros df s2.
  destruct (none_or_empty df); [reflexivity | ].
  next_bind. intros [[v errs] ws] s3.
  destruct (truthy errs).
  - next_bind. intros [] s4. reflexivity.
  - destruct (truthy ws); [ | reflexivity].
    next_bind. intros [] s4.
    next_bind. intros [d | ] s5; [ | reflexivity].
    destruct (empty d); [ | reflexivity].
    next_bind. intros [] s6. reflexivity.
Qed.

(** One turn of the loop returns. *)
Lemma process_returns (validate_only : bool) (ticker : string)
      (s : State) :
  process self start_date end_date validate_only ticker s
  = (inr tt, step self start_date end_date validate_only s ticker).
Proof.
  unfold step, process, try_except.
  destruct (process_ticker self start_date end_date validate_only ticker s)
    as [[e | []] s']; reflexivity.
Qed.

(** An exception of the body is put on record. *)
Lemma process_raised (validate_only : bool) (ticker : string)
      (s s' : State) (e : exn) :
  process_ticker self start_date end_date validate_only ticker s
  = (inl e, s') ->
  process self start_date end_date validate_only ticker s
  = (inr tt, (record_failure ticker e (fst s'), snd s')).
Proof.
  intros H. unfold process, try_except. rewrite H. reflexivity.
Qed.

(** The loop takes every ticker in turn. *)
Lemma for_each_process (validate_only : bool) (tickers : list string) :
  forall s,
    for_each tickers (process self start_date end_date validate_only) s
    = (inr tt,
       fold_left (step self start_date end_date validate_only) tickers s).
Proof.
  induction tickers as [ | ticker tickers IH]; intros s; [reflexivity | ].
  simpl. unfold bind. rewrite process_returns. apply IH.
Qed.

Lemma count_app {A} (p : A -> bool) (l : list A) (a : A) :
  count p (l ++ [a]) = (count p l + if p a then 1 else 0)%nat.
Proof.
  unfold count. rewrite filter_app, length_app. simpl.
  destruct (p a); reflexivity.
Qed.

(** "Store data" counts the ticker once, as processed or as failed. *)
Lemma accounted_store (validate_only : bool) (ticker : string)
      (df : option DataFrame) (r : Results) (w : DuckDBStorage.World) :
  accounted
    (fst (snd (let (res, s') := store_data validate_only df (r, w) in
               match res with
               | inl e =>
                 (add_error (PipelineError ticker e) ;; count_failed) s'
               | inr a => (inr a, s')
               end)))
  = S (accounted r).
Proof.
  unfold store_data. destruct validate_only; simpl.
  - run_report. unfold accounted. simpl. lia.
  - unfold bind at 1. unfold bind at 1. unfold on_snd. simpl snd.
    simpl fst.
    destruct (DuckDBStorage.upsert_data df w) as [[e | n] w'];
      run_report; unfold accounted; simpl; lia.
Qed.

(** Every turn of the loop accounts for its ticker. *)
Lemma accounted_step (validate_only : bool) (s : State)
      (ticker : string) :
  accounted (fst (step self start_date end_date validate_only s ticker))
  = S (accounted (fst s)).
Proof.
  unfold step, process, try_except.
  rewrite process_ticker_split.
  unfold bind at 1. unfold analyse.
  unfold bind at 1.
  destruct s as [r w]. unfold on_snd at 1. simpl snd. simpl fst.
  destruct (determine_date_range self ticker start_date end_date w)
    as [[e | [download_start download_end]] w1];
    [run_report; unfold accounted; simpl; lia | ].
  unfold bind at 1. unfold on_snd at 1. simpl snd. simpl fst.
  destruct (StockDataDownloader.download_ticker _ _ _ _ _ _ w1)
    as [[e | df] w2];
    [run_report; unfold accounted; simpl; lia | ].
  destruct (none_or_empty df);
    [run_report; unfold accounted; simpl; rewrite count_app; simpl; lia | ].
  unfold bind at 1. unfold lift_result at 1.
  destruct (DataValidator.validate _ df) as [e | [[v errs] ws]];
    [run_report; unfold accounted; simpl; lia | ].
  destruct (truthy errs);
    [run_report; unfold accounted; simpl; lia | ].
  destruct (truthy ws); [ | apply accounted_store].
  unfold bind at 1. unfold add_warning at 1, update, modify.
  unfold bind at 1. unfold lift_result.
  destruct (DataValidator.filter_invalid_rows df) as [e | [d | ]];
    [run_report; unfold accounted; simpl; rewrite count_app; simpl; lia
    | | run_report; unfold accounted; simpl; rewrite count_app; simpl; lia].
  destruct (empty d);
    [run_report; unfold accounted; simpl; rewrite count_app; simpl; lia | ].
  unfold ret at 1. rewrite accounted_store.
  unfold accounted. simpl. rewrite count_app. simpl. lia.
Qed.

Lemma accounted_fold (validate_only : bool) (tickers : list string) :
  forall s,
    accounted
      (fst (fold_left (step self start_date end_date validate_only)
                      tickers s))
    = (accounted (fst s) + List.length tickers)%nat.
Proof.
  induction tickers as [ | ticker tickers IH]; intros s; simpl; [lia | ].
  rewrite IH, accounted_step. lia.
Qed.

Lemma close_conn (w : DuckDBStorage.World) :
  DuckDBStorage.conn (DuckDBStorage.close w) = false.
Proof.
  unfold DuckDBStorage.close.
  destruct (DuckDBStorage.conn w) eqn:E; [reflexivity | exact E].
Qed.

(** A run that connects. *)
Lemma run_connected (validate_only : bool) (tickers : list string)
      (w w0 : DuckDBStorage.World) :
  DuckDBStorage.connect w = (inr tt, w0) ->
  run self tickers start_date end_date validate_only w
  = (with_duration
       (DuckDBStorage.now
          (snd (fold_left (step self start_date end_date validate_only)
                          tickers (initial_results, w0)))
        - DuckDBStorage.now w)
       (fst (fold_left (step self start_date end_date validate_only)
                       tickers (initial_results, w0))),
     DuckDBStorage.close
       (snd (fold_left (step self start_date end_date validate_only)
                       tickers (initial_results, w0)))).
Proof.
  intros Hconnect. unfold run, try_finally, try_except.
  unfold bind at 1. unfold on_snd at 1. simpl snd. rewrite Hconnect.
  simpl fst. unfold bind at 1. rewrite for_each_process.
  destruct (fold_left (step self start_date end_date validate_only)
                      tickers (initial_results, w0)) as [r1 w1].
  reflexivity.
Qed.

(** A run that cannot connect. *)
Lemma run_not_connected (validate_only : bool) (tickers : list string)
      (w w0 : DuckDBStorage.World) (e : exn) :
  DuckDBStorage.connect w = (inl e, w0) ->
  run self tickers start_date end_date validate_only w
  = (fatal_results e, DuckDBStorage.close w0).
Proof.
  intros Hconnect. unfold run, try_finally, try_except.
  unfold bind at 1. unfold on_snd at 1. simpl snd. rewrite Hconnect.
  reflexivity.
Qed.

End PipelineFacts.

(** C8.  One turn of the loop never lets an exception out: an exception
    of the body, at whatever step, is put on record with the ticker and
    counted as failed.  When the connection is established the loop takes
    every ticker in turn, and the report accounts for each of them; when
    it is not, the run ends with a fatal error and no ticker.  On either
    path the storage has no connection when the run is over. *)
Theorem run_isolates_failures
        (self : IngestionPipeline.Pipeline) (tickers : list string)
        (start_date end_date : option string) (validate_only : bool)
        (w : DuckDBStorage.World) :
  (forall ticker s,
      IngestionPipeline.process
        self start_date end_date validate_only ticker s
      = (inr tt, step self start_date end_date validate_only s ticker))
  /\ (forall ticker s e s',
         IngestionPipeline.process_ticker
           self start_date end_date validate_only ticker s = (inl e, s') ->
         step self start_date end_date validate_only s ticker
         = (record_failure ticker e (fst s'), snd s'))
  /\ (forall w0,
         DuckDBStorage.connect w = (inr tt, w0) ->
         let s := fold_left (step self start_date end_date validate_only)
                            tickers (IngestionPipeline.initial_results, w0) in
         IngestionPipeline.run
           self tickers start_date end_date validate_only w
         = (with_duration (DuckDBStorage.now (snd s) - DuckDBStorage.now w)
                          (fst s),
            DuckDBStorage.close (snd s))
         /\ accounted (fst s) = List.length tickers)
  /\ (forall e w0,
         DuckDBStorage.connect w = (inl e, w0) ->
         IngestionPipeline.run
           self tickers start_date end_date validate_only w
         = (fatal_results e, DuckDBStorage.close w0))
  /\ DuckDBStorage.conn
       (snd (IngestionPipeline.run
               self tickers start_date end_date validate_only w))
     = false.
Proof.
  split; [intros; apply process_returns | ].
  split.
  { intros ticker s e s' H. unfold step.
    rewrite (process_raised _ _ _ _ _ _ _ _ H). reflexivity. }
  split.
  { intros w0 Hconnect. split; [apply run_connected; exact Hconnect | ].
    rewrite accounted_fold. reflexivity. }
  split; [intros e w0 Hconnect; apply run_not_connected; exact Hconnect | ].
  destruct (DuckDBStorage.connect w) as [[e | []] w0] eqn:Hconnect.
  - rewrite (run_not_connected _ _ _ _ _ _ _ e Hconnect). apply close_conn.
  - rewrite (run_connected _ _ _ _ _ _ _ Hconnect). apply close_conn.
Qed.

Lemma run_isolates_failures_witness :
  IngestionPipeline.tickers_failed
    (fst (IngestionPipeline.run
            (IngestionPipeline.init Sample.settings twice true)
            ["X"; "Y"] None None false (Sample.world small_table)))
  = 2%nat
  /\ DuckDBStorage.conn
       (snd (IngestionPipeline.run
               (IngestionPipeline.init Sample.settings twice true)
               ["X"; "Y"] None None false (Sample.world small_table)))
     = false.
Proof.
  split; [vm_compute; reflexivity | ].
  apply (run_isolates_failures
           (IngestionPipeline.init Sample.settings twice true)
           ["X"; "Y"] None None false (Sample.world small_table)).
Defined.

Section Related.
Context {S : Type} (R : S -> S -> Prop).

Lemma related_ret {A} (a : A) : related R (ret a) (ret a).
Proof. intros s1 s2 H. split; [reflexivity | exact H]. Qed.

Lemma related_raise {A} (e : exn) : related R (@raise S A e) (raise e).
Proof. intros s1 s2 H. split; [reflexivity | exact H]. Qed.

Lemma related_lift_result {A} (r : exn + A) :
  related R (lift_result r) (lift_result r).
Proof. intros s1 s2 H. split; [reflexivity | exact H]. Qed.

Lemma related_modify (f : S -> S) :
  (forall s1 s2, R s1 s2 -> R (f s1) (f s2)) ->
  related R (modify f) (modify f).
Proof. intros H s1 s2 Hs. split; [reflexivity | apply H; exact Hs]. Qed.

Lemma related_bind {A B} (m1 m2 : M S A) (k1 k2 : A -> M S B) :
  related R m1 m2 -> (forall a, related R (k1 a) (k2 a)) ->
  related R (bind m1 k1) (bind m2 k2).
Proof.
  intros Hm Hk s1 s2 Hs. unfold bind.
  destruct (Hm s1 s2 Hs) as [Hres Hst].
  destruct (m1 s1) as [[e1 | a1] s1'], (m2 s2) as [[e2 | a2] s2'];
    simpl in *; try discriminate.
  - split; [congruence | exact Hst].
  - injection Hres as <-. apply Hk. exact Hst.
Qed.
End Related.

Ltac related_step :=
  match goal with
  | |- related _ (bind _ _) (bind _ _) => apply related_bind; [ | intros ]
  | |- related _ (ret _) (ret _) => apply related_ret
  | |- related _ (raise _) (raise _) => apply related_raise
  | |- related _ (lift_result _) (lift_result _) => apply related_lift_result
  | |- related _ (if ?c then _ else _) (if ?c then _ else _) => destruct c
  | |- related _ (match ?x with _ => _ end) (match ?x with _ => _ end) =>
    destruct x
  end.

(** ** A normal run and a validate-only run, step by step *)

Section Agreement.
Import DuckDBStorage.
Variable self : IngestionPipeline.Pipeline.
Variables start_date end_date : option string.

Lemma attempts_now dl fetch (range : list nat) :
  forall w1 w2,
    now w1 = now w2 ->
    exists res n,
      StockDataDownloader.attempts dl fetch range w1 = (res, set_now n w1)
      /\ StockDataDownloader.attempts dl fetch range w2
         = (res, set_now n w2).
Proof.
  induction range as [ | attempt range IH]; simpl; intros w1 w2 Hnow.
  - exists (inr None), (now w1). unfold ret.
    rewrite set_now_now, Hnow, set_now_now. auto.
  - destruct (fetch attempt) as [e | df].
    + destruct (Z.of_nat attempt <? StockDataDownloader.max_retries dl - 1).
      * unfold bind, StockDataDownloader.sleep.
        destruct (StockDataDownloader.retry_delay dl <? 0).
        -- exists (inl ValueError), (now w1). unfold raise.
           rewrite set_now_now, Hnow, set_now_now. auto.
        -- unfold modify.
           destruct (IH (set_now
                           (now w1 + StockDataDownloader.retry_delay dl)
                           w1)
                        (set_now
                           (now w2 + StockDataDownloader.retry_delay dl)
                           w2))
             as (res & n & H1 & H2); [simpl; congruence | ].
           exists res, n. rewrite H1, H2. auto.
      * exists (inr None), (now w1). unfold ret.
        rewrite set_now_now, Hnow, set_now_now. auto.
    + exists (inr df), (now w1). unfold ret.
      rewrite set_now_now, Hnow, set_now_now. auto.
Qed.

Lemma related_download (ticker : string) (tickers : list string)
      (s e : option string) :
  related (agree self start_date tickers)
          (on_snd (StockDataDownloader.download_ticker
                     (IngestionPipeline.downloader self)
                     (IngestionPipeline.settings self)
                     (IngestionPipeline.provider self) ticker s e))
          (on_snd (StockDataDownloader.download_ticker
                     (IngestionPipeline.downloader self)
                     (IngestionPipeline.settings self)
                     (IngestionPipeline.provider self) ticker s e)).
Proof.
  intros [r1 w1] [r2 w2] (Hrep & Hc1 & Hf1 & Hc2 & Hf2 & Hnow & Hmax).
  simpl in *. unfold on_snd, StockDataDownloader.download_ticker. simpl.
  match goal with
  | |- context [StockDataDownloader.attempts ?dl ?f ?range w1] =>
    destruct (attempts_now dl f range w1 w2 Hnow) as (res & n & -> & ->)
  end.
  simpl. split; [reflexivity | ].
  unfold agree. simpl. tauto.
Qed.

(** The window as a function of the last stored date. *)
Lemma determine_date_range_ok (ticker : string) (w : World) :
  conn w = true -> faults w = [] ->
  IngestionPipeline.determine_date_range self ticker start_date end_date w
  = (if reads_store self start_date then
       match max_date ticker (stock_prices w) with
       | Some d =>
         match Date.add_days d 1 with
         | inl e => inl e
         | inr next =>
           inr (Date.strftime next,
                str_or end_date
                       (Config.default_end_date
                          (IngestionPipeline.settings self)))
         end
       | None =>
         inr (Config.default_start_date (IngestionPipeline.settings self),
              str_or end_date
                     (Config.default_end_date
                        (IngestionPipeline.settings self)))
       end
     else
       inr (str_or start_date
                   (Config.default_start_date
                      (IngestionPipeline.settings self)),
            str_or end_date
                   (Config.default_end_date
                      (IngestionPipeline.settings self))),
     w).
Proof.
  intros Hconn Hfaults. unfold IngestionPipeline.determine_date_range.
  fold (reads_store self start_date).
  destruct (reads_store self start_date); [ | reflexivity].
  unfold bind at 1. rewrite get_last_date_ok by assumption.
  destruct (max_date ticker (stock_prices w)) as [d | ]; [ | reflexivity].
  unfold bind, lift_result. destruct (Date.add_days d 1); reflexivity.
Qed.

Lemma related_window (ticker : string) (tickers : list string) :
  In ticker tickers ->
  related (agree self start_date tickers)
          (on_snd (IngestionPipeline.determine_date_range
                     self ticker start_date end_date))
          (on_snd (IngestionPipeline.determine_date_range
                     self ticker start_date end_date)).
Proof.
  intros Hin [r1 w1] [r2 w2] Hagree.
  pose proof Hagree as (Hrep & Hc1 & Hf1 & Hc2 & Hf2 & Hnow & Hmax).
  simpl in Hc1, Hf1, Hc2, Hf2, Hmax. unfold on_snd. simpl snd. simpl fst.
  rewrite !determine_date_range_ok by assumption.
  simpl. split; [ | exact Hagree].
  destruct (reads_store self start_date); [ | reflexivity].
  rewrite (Hmax eq_refl ticker Hin). reflexivity.
Qed.

Lemma related_update (tickers : list string)
      (f : IngestionPipeline.Results -> IngestionPipeline.Results) :
  (forall r1 r2, same_report r1 r2 -> same_report (f r1) (f r2)) ->
  related (agree self start_date tickers)
          (IngestionPipeline.update f) (IngestionPipeline.update f).
Proof.
  intros H. apply related_modify.
  intros [r1 w1] [r2 w2] (Hrep & Hrest). split; [ | exact Hrest].
  apply H. exact Hrep.
Qed.

Ltac solve_same_report :=
  intros ? ? (? & ? & ? & ?); repeat split; simpl; congruence.

Lemma related_analyse (ticker : string) (tickers : list string) :
  In ticker tickers ->
  related (agree self start_date tickers)
          (analyse self start_date end_date ticker)
          (analyse self start_date end_date ticker).
Proof.
  intros Hin. unfold analyse, IngestionPipeline.add_error,
                IngestionPipeline.add_warning,
                IngestionPipeline.count_failed.
  repeat first [ apply related_window; exact Hin
               | apply related_download
               | apply related_update; solve_same_report
               | related_step ].
Qed.
End Agreement.

#[export] Instance world_kept_preorder : PreOrder world_kept.
Proof.
  split; [intros w; repeat split; auto | ].
  intros w1 w2 w3 (H1 & H2 & H3) (H4 & H5 & H6).
  repeat split; [congruence | congruence | auto].
Qed.

#[export] Instance errors_grow_preorder : PreOrder errors_grow.
Proof.
  split; [intros s; exists []; rewrite app_nil_r; reflexivity | ].
  intros s1 s2 s3 [l1 H1] [l2 H2]. exists (l1 ++ l2).
  rewrite H2, H1, app_assoc. reflexivity.
Qed.

Section StoreOfOneTicker.
Import DuckDBStorage.
Variable self : IngestionPipeline.Pipeline.
Variables start_date end_date : option string.

Lemma world_kept_execute {A}
      (stmt : list StoredRow -> exn + (A * list StoredRow)) :
  stable world_kept (execute stmt).
Proof.
  intros w. unfold execute, bind, gets, duckdb_call, raise, modify, ret,
            world_kept.
  destruct (conn w) eqn:Hc; simpl; [ | auto].
  destruct (faults w) as [ | [e | ] fs] eqn:Hf; simpl;
    try destruct (stmt (stock_prices w)) as [e' | [a t']]; simpl;
    repeat split; try assumption; try reflexivity; intros;
    try assumption; try discriminate.
Qed.

Lemma world_kept_upsert_data (df : option DataFrame) :
  stable world_kept (upsert_data df).
Proof.
  unfold upsert_data.
  repeat first [ apply world_kept_execute | stable_step ].
Qed.

Lemma max_date_app (t : string) (table new : list StoredRow) :
  (forall r, In r new -> s_ticker r <> t) ->
  max_date t (table ++ new) = max_date t table.
Proof.
  intros Hnew. unfold max_date. rewrite fold_left_app.
  generalize (fold_left
                (fun acc r =>
                   if String.eqb (s_ticker r) t then
                     match acc with
                     | Some m => Some (Z.max m (s_date r))
                     | None => Some (s_date r)
                     end
                   else acc) table None).
  induction new as [ | r new IH]; simpl; intros acc; [reflexivity | ].
  destruct (String.eqb_spec (s_ticker r) t) as [Heq | Hne].
  - exfalso. exact (Hnew r (or_introl eq_refl) Heq).
  - apply IH. intros r' Hr'. apply Hnew. right. exact Hr'.
Qed.

Lemma max_date_filter (t : string) (p : StoredRow -> bool)
      (table : list StoredRow) :
  (forall r, p r = false -> s_ticker r <> t) ->
  max_date t (filter p table) = max_date t table.
Proof.
  intros Hp. induction table as [ | r table IH]; [reflexivity | ].
  simpl filter. destruct (p r) eqn:E.
  - rewrite !max_date_cons, IH. reflexivity.
  - rewrite max_date_cons, IH.
    apply Hp in E. apply String.eqb_neq in E. rewrite E. reflexivity.
Qed.

(** An upsert for one ticker leaves the last date of another alone. *)
Lemma upsert_other_ticker (t t' : string) (df : DataFrame) (w : World) :
  single_ticker t df -> t' <> t ->
  max_date t' (stock_prices (snd (upsert_data (Some df) w)))
  = max_date t' (stock_prices w).
Proof.
  intros Hticker Hne.
  apply (upsert_data_preserves
           (fun table => max_date t' table = max_date t' (stock_prices w)));
    [reflexivity | | ].
  - intros ds table Hdates IH. rewrite max_date_filter; [exact IH | ].
    intros r Hr. apply negb_false_iff in Hr.
    unfold in_span in Hr. unfold first_ticker in Hr.
    destruct (rows df) as [ | r0 rs] eqn:Hrows; [discriminate | ].
    rewrite (Hticker r0) in Hr by (rewrite Hrows; left; reflexivity).
    split_andb.
    match goal with
    | H : String.eqb _ _ = true |- _ => apply String.eqb_eq in H
    end. congruence.
  - intros c table table' IH Hins.
    apply insert_rows_app in Hins as (new & -> & Hbars & _).
    rewrite max_date_app; [exact IH | ].
    intros r Hr Heq.
    assert (Hin : In (price_bar r) (rows df))
      by (rewrite <- Hbars; apply in_map; exact Hr).
    apply Hticker in Hin. simpl in Hin. congruence.
Qed.
End StoreOfOneTicker.

Section FrameOfOneTicker.
Import StockDataDownloader.

Lemma rows_fold_rename (mappings : list (string * string)) :
  forall df, rows (fold_left rename mappings df) = rows df.
Proof.
  induction mappings as [ | m ms IH]; intros df; [reflexivity | ].
  simpl. rewrite IH. reflexivity.
Qed.

(** The frame of a successful attempt carries the ticker in every row. *)
Lemma attempt_body_single (history : exn + History) (t : string)
      (d : DataFrame) :
  attempt_body history t = inr (Some d) -> single_ticker t d.
Proof.
  unfold attempt_body. destruct history as [e | h]; [discriminate | ].
  destruct (empty (data h)); [discriminate | ].
  destruct (reset_index h) as [e | df]; [discriminate | ].
  match goal with
  | |- context [select _ (columns ?x)] =>
    set (df' := x);
    assert (Hrows : forall r, In r (rows df') -> ticker r = Some t)
  end.
  { subst df'. rewrite rows_fold_rename. unfold assign_ticker. simpl.
    intros r Hr. apply in_map_iff in Hr as [r0 [<- _]]. reflexivity. }
  destruct (select _ _) as [e | cs]; [discriminate | ].
  destruct (to_datetime_error _); [discriminate | ].
  intros H. injection H as <-. exact Hrows.
Qed.

Lemma attempts_single (self : Downloader)
      (fetch : nat -> exn + option DataFrame) (t : string) :
  (forall attempt d, fetch attempt = inr (Some d) -> single_ticker t d) ->
  forall range w d w',
    attempts self fetch range w = (inr (Some d), w') -> single_ticker t d.
Proof.
  intros Hfetch. induction range as [ | attempt range IH]; simpl;
    intros w d w'; [discriminate | ].
  destruct (fetch attempt) as [e | df] eqn:E.
  - destruct (Z.of_nat attempt <? max_retries self - 1);
      [ | discriminate].
    unfold bind, sleep. destruct (retry_delay self <? 0);
      [discriminate | ].
    unfold modify. apply IH.
  - unfold ret. intros H. injection H as -> _. exact (Hfetch _ _ E).
Qed.

Lemma download_ticker_single (self : Downloader)
      (settings : Config.Settings) (provider : Provider) (t : string)
      (s e : option string) (w w' : DuckDBStorage.World) (d : DataFrame) :
  download_ticker self settings provider t s e w = (inr (Some d), w') ->
  single_ticker t d.
Proof.
  unfold download_ticker. apply attempts_single.
  intros attempt d0. apply attempt_body_single.
Qed.

(** What [filter_invalid_rows] returns has rows of the frame only. *)
Lemma filter_invalid_rows_incl (d d' : DataFrame) :
  DataValidator.filter_invalid_rows (Some d) = inr (Some d') ->
  incl (rows d') (rows d).
Proof.
  destruct (empty d) eqn:Hempty.
  { unfold DataValidator.filter_invalid_rows. rewrite Hempty.
    intros H. injection H as <-. apply incl_refl. }
  intros H.
  apply (filter_invalid_rows_returned d _ Hempty) in H as (rs & H & Hd').
  injection Hd' as ->. revert H.
  unfold DataValidator.dropna.
  destruct (filter _ ["ticker"; "date"; "close"]); [ | discriminate].
  intros H. injection H as <-. simpl.
  unfold passing, passing_high_low, passing_volume, passing_prices.
  cbn [fold_left DataValidator.price_cols].
  repeat match goal with
         | |- incl (filter _ _) _ =>
           eapply incl_tran; [apply incl_filter | ]
         | |- incl (if ?c then _ else _) _ => destruct c
         end; apply incl_refl.
Qed.

(** The frame that [analyse] hands to "Store data" is a frame of the
    ticker. *)
Lemma analyse_single (pipeline : IngestionPipeline.Pipeline)
      (start_date end_date : option string) (t : string)
      (s s' : IngestionPipeline.State) (df : option DataFrame) :
  analyse pipeline start_date end_date t s = (inr (Some df), s') ->
  exists d, df = Some d /\ single_ticker t d.
Proof.
  unfold analyse. unfold bind at 1.
  destruct (on_snd _ s) as [[e | [download_start download_end]] s1];
    [discriminate | ].
  unfold bind at 1. unfold on_snd at 1.
  destruct (download_ticker _ _ _ _ _ _ (snd s1)) as [[e | df0] w2] eqn:Hd;
    [discriminate | ].
  destruct df0 as [d0 | ]; [ | discriminate].
  apply download_ticker_single in Hd.
  destruct (none_or_empty (Some d0)); [discriminate | ].
  unfold bind at 1, lift_result at 1.
  destruct (DataValidator.validate _ _) as [e | [[v errs] ws]];
    [discriminate | ].
  destruct (truthy errs); [discriminate | ].
  destruct (truthy ws).
  - unfold bind at 1. unfold IngestionPipeline.add_warning at 1,
                        IngestionPipeline.update, modify.
    unfold bind at 1, lift_result.
    destruct (DataValidator.filter_invalid_rows (Some d0))
      as [e | [d | ]] eqn:Hf; try discriminate.
    destruct (empty d); [discriminate | ].
    unfold ret. intros H. injection H as <- _.
    exists d. split; [reflexivity | ].
    intros r Hr. apply Hd. apply (filter_invalid_rows_incl _ _ Hf). exact Hr.
  - unfold ret. intros H. injection H as <- _.
    exists d0. split; [reflexivity | exact Hd].
Qed.
End FrameOfOneTicker.

Section TwoRuns.
Import IngestionPipeline.
Variable self : Pipeline.
Variables start_date end_date : option string.

Lemma errors_grow_on_snd {A} (m : M DuckDBStorage.World A) :
  stable errors_grow (@on_snd Results _ _ m).
Proof.
  intros [r w]. unfold on_snd. simpl. destruct (m w) as [res w'].
  exists []. simpl. symmetry. apply app_nil_r.
Qed.

Lemma errors_grow_update (f : Results -> Results) :
  (forall r, exists l, errors (f r) = errors r ++ l) ->
  stable errors_grow (update f).
Proof. intros H. apply stable_modify. intros [r w]. apply H. Qed.

Ltac solve_errors_grow :=
  repeat first
         [ apply errors_grow_on_snd
         | apply errors_grow_update; intros; simpl;
           solve [eexists; reflexivity
                 | exists []; symmetry; apply app_nil_r]
         | stable_step ].

Lemma errors_grow_process (validate_only : bool) (t : string) :
  stable errors_grow (process self start_date end_date validate_only t).
Proof.
  unfold process, process_ticker, store_data, add_error, add_warning,
    count_failed, count_processed, add_rows_inserted.
  solve_errors_grow.
Qed.

Lemma flagged_grow (s s' : State) :
  errors_grow s s' -> flagged (fst s) = true -> flagged (fst s') = true.
Proof.
  intros [l H] Hf. unfold flagged in *. rewrite H, existsb_app, Hf.
  reflexivity.
Qed.

Lemma flagged_fold (validate_only : bool) (tickers : list string) :
  forall s,
    flagged (fst s) = true ->
    flagged (fst (fold_left (step self start_date end_date validate_only)
                            tickers s)) = true.
Proof.
  induction tickers as [ | t tickers IH]; intros s Hf; [exact Hf | ].
  simpl. apply IH. apply (flagged_grow s); [ | exact Hf].
  apply errors_grow_process.
Qed.

Lemma agree_weaken (t : string) (rest : list string) (s1 s2 : State) :
  agree self start_date (t :: rest) s1 s2 ->
  agree self start_date rest s1 s2.
Proof.
  intros (Hrep & Hc1 & Hf1 & Hc2 & Hf2 & Hnow & Hmax).
  repeat split; try assumption; try apply Hrep.
  intros Hreads t' Ht'. apply Hmax; [exact Hreads | right; exact Ht'].
Qed.

Lemma flagged_failure (t : string) (e : exn) (s : State) :
  flagged (fst (snd ((add_error (PipelineError t e) ;; count_failed) s)))
  = true.
Proof.
  destruct s as [r w]. unfold flagged. run_report.
  rewrite existsb_app. simpl. apply orb_true_r.
Qed.

(** One turn of the loop in a normal run and in a validate-only run. *)
Lemma step_agree (t : string) (rest : list string) (sN sV : State) :
  (reads_store self start_date = true -> ~ In t rest) ->
  agree self start_date (t :: rest) sN sV ->
  agree self start_date rest
        (step self start_date end_date false sN t)
        (step self start_date end_date true sV t)
  \/ flagged (fst (step self start_date end_date false sN t)) = true.
Proof.
  intros Hfresh Hagree. unfold step, process, try_except.
  rewrite !process_ticker_split.
  destruct (related_analyse self start_date end_date t (t :: rest)
                            (or_introl eq_refl) sN sV Hagree)
    as [Hres Hagree1].
  pose proof (analyse_single self start_date end_date t sN) as Hsingle.
  destruct (analyse self start_date end_date t sN)
    as [[eN | oN] [rN wN]] eqn:EN;
    destruct (analyse self start_date end_date t sV)
      as [[eV | oV] [rV wV]] eqn:EV;
    simpl in Hres; try discriminate;
    rewrite (bind_run _ _ _ _ _ EN), (bind_run _ _ _ _ _ EV).
  - right. apply flagged_failure.
  - injection Hres as <-. destruct oN as [df | ].
    + destruct (Hsingle _ _ eq_refl) as [d [-> Hd]].
      unfold store_data. cbn [negb]. cbv iota.
      pose proof (world_kept_upsert_data (Some d) wN) as Hkept.
      pose proof (fun t' => upsert_other_ticker t t' d wN Hd) as Hother.
      destruct (DuckDBStorage.upsert_data (Some d) wN)
        as [[e | n] w2] eqn:EU;
        rewrite bind_assoc, (bind_run _ _ _ _ _ (on_snd_run _ rN _ _ _ EU)).
      * right. apply flagged_failure.
      * left. run_report.
        destruct Hagree1 as (Hrep & Hc1 & Hf1 & Hc2 & Hf2 & Hnow & Hmax).
        destruct Hkept as (Hk1 & Hk2 & Hk3). simpl in *.
        destruct Hrep as (He & Hw & Hp & Hfl).
        repeat split; simpl; try congruence; auto.
        intros Hreads t' Ht'. rewrite Hother.
        -- apply Hmax; [exact Hreads | right; exact Ht'].
        -- intros ->. exact (Hfresh Hreads Ht').
    + left. simpl. apply agree_weaken with (t := t). exact Hagree1.
Qed.

Lemma fold_agree (rest : list string) :
  forall sN sV,
    (reads_store self start_date = true -> NoDup rest) ->
    agree self start_date rest sN sV ->
    same_report
      (fst (fold_left (step self start_date end_date false) rest sN))
      (fst (fold_left (step self start_date end_date true) rest sV))
    \/ flagged
         (fst (fold_left (step self start_date end_date false) rest sN))
       = true.
Proof.
  induction rest as [ | t rest IH]; intros sN sV Hdup Hagree.
  - left. apply Hagree.
  - simpl.
    destruct (step_agree t rest sN sV) as [Hnext | Hflag];
      [ | exact Hagree | | ].
    + intros Hreads. apply Hdup in Hreads.
      apply NoDup_cons_iff in Hreads. tauto.
    + apply IH; [ | exact Hnext].
      intros Hreads. apply Hdup in Hreads.
      apply NoDup_cons_iff in Hreads. tauto.
    + right. apply flagged_fold. exact Hflag.
Qed.

Lemma connect_ok (w : DuckDBStorage.World) :
  DuckDBStorage.faults w = [] ->
  DuckDBStorage.connect w = (inr tt, DuckDBStorage.set_conn true w).
Proof.
  intros Hfaults. unfold DuckDBStorage.connect. unfold bind at 1, gets.
  destruct (DuckDBStorage.conn w) eqn:Hconn; simpl.
  - destruct w; simpl in *; subst; reflexivity.
  - unfold bind at 1. unfold DuckDBStorage.duckdb_call. rewrite Hfaults.
    unfold bind at 1, modify. unfold DuckDBStorage._initialize_schema.
    unfold bind at 1. rewrite execute_ok by (simpl; auto). simpl.
    unfold try_except, bind.
    rewrite !execute_ok by (simpl; auto). simpl.
    destruct w; simpl in *; subst; reflexivity.
Qed.
End TwoRuns.

Lemma stable_try_finally {S A} (R : S -> S -> Prop) {HR : PreOrder R}
      (m : M S A) (f : S -> S) :
  stable R m -> (forall s, R s (f s)) -> stable R (try_finally m f).
Proof.
  intros Hm Hf s. unfold try_finally. specialize (Hm s).
  destruct (m s) as [r s']. simpl in *.
  transitivity s'; [exact Hm | apply Hf].
Qed.

(** A validate-only run stores nothing. *)
Lemma nothing_stored_run (self : IngestionPipeline.Pipeline)
      (tickers : list string) (start_date end_date : option string)
      (w : DuckDBStorage.World) :
  nothing_stored
    (IngestionPipeline.initial_results, w)
    (IngestionPipeline.run self tickers start_date end_date true w).
Proof.
  unfold IngestionPipeline.run.
  apply (stable_try_finally nothing_stored).
  - unfold IngestionPipeline.set_duration, IngestionPipeline.add_error.
    repeat first [ apply nothing_stored_process
                 | apply nothing_stored_update; intros; reflexivity
                 | apply nothing_stored_on_snd
                 | apply stable_connect
                 | stable_step ].
  - intros [r w']. split; [ | reflexivity]. simpl.
    unfold same_table, DuckDBStorage.close.
    destruct (DuckDBStorage.conn w'); reflexivity.
Qed.

(** C9, as the code has it.  A validate-only run leaves the table as it
    was and reports no inserted row, whatever the validation says.  Its
    errors and warnings are those of the normal run from the same store
    with the same provider, as long as the database does not fail, no
    ticker is listed twice when the window is read from the store, and
    the normal run reports no pipeline error (which a refused store
    write raises, and a validate-only run cannot meet). *)
Theorem validate_only_run
        (settings : Config.Settings)
        (provider : StockDataDownloader.Provider) (tickers : list string)
        (start_date end_date : option string) (incremental : bool)
        (w : DuckDBStorage.World) :
  DuckDBStorage.stock_prices
    (snd (IngestionPipeline.run_pipeline
            settings provider tickers start_date end_date incremental
            true w))
  = DuckDBStorage.stock_prices w
  /\ IngestionPipeline.total_rows_inserted
       (fst (IngestionPipeline.run_pipeline
               settings provider tickers start_date end_date incremental
               true w))
     = 0%nat
  /\ (DuckDBStorage.faults w = [] ->
      (incremental && negb (str_truthy start_date) = true ->
       NoDup tickers) ->
      flagged (fst (IngestionPipeline.run_pipeline
                      settings provider tickers start_date end_date
                      incremental false w))
      = false ->
      IngestionPipeline.errors
        (fst (IngestionPipeline.run_pipeline
                settings provider tickers start_date end_date incremental
                true w))
      = IngestionPipeline.errors
          (fst (IngestionPipeline.run_pipeline
                  settings provider tickers start_date end_date
                  incremental false w))
      /\ IngestionPipeline.warnings
           (fst (IngestionPipeline.run_pipeline
                   settings provider tickers start_date end_date
                   incremental true w))
         = IngestionPipeline.warnings
             (fst (IngestionPipeline.run_pipeline
                     settings provider tickers start_date end_date
                     incremental false w))).
Proof.
  unfold IngestionPipeline.run_pipeline.
  set (self := IngestionPipeline.init settings provider incremental).
  set (w0 := DuckDBStorage.set_conn false w).
  destruct (nothing_stored_run self tickers start_date end_date w0)
    as [Htable Hrows].
  split; [exact Htable | ]. split; [exact Hrows | ].
  intros Hfaults Hdup.
  assert (Hconnect : DuckDBStorage.connect w0
                     = (inr tt, DuckDBStorage.set_conn true w0))
    by (apply connect_ok; exact Hfaults).
  rewrite !(run_connected self start_date end_date _ tickers w0 _ Hconnect).
  simpl fst.
  destruct (fold_agree
              self start_date end_date tickers
              (IngestionPipeline.initial_results,
               DuckDBStorage.set_conn true w0)
              (IngestionPipeline.initial_results,
               DuckDBStorage.set_conn true w0))
    as [(He & Hw & _) | Hflag].
  - exact Hdup.
  - unfold agree, same_report. simpl. tauto.
  - intros _. simpl. split; congruence.
  - unfold flagged in *. simpl. congruence.
Qed.

Lemma validate_only_run_witness :
  IngestionPipeline.errors
    (fst (IngestionPipeline.run_pipeline
            Sample.settings (Sample.serves [Sample.day; Sample.day + 1])
            ["X"; "Y"] None None true true (Sample.world small_table)))
  = IngestionPipeline.errors
      (fst (IngestionPipeline.run_pipeline
              Sample.settings (Sample.serves [Sample.day; Sample.day + 1])
              ["X"; "Y"] None None true false (Sample.world small_table)))
  /\ IngestionPipeline.warnings
       (fst (IngestionPipeline.run_pipeline
               Sample.settings (Sample.serves [Sample.day; Sample.day + 1])
               ["X"; "Y"] None None true true (Sample.world small_table)))
     = IngestionPipeline.warnings
         (fst (IngestionPipeline.run_pipeline
                 Sample.settings (Sample.serves [Sample.day; Sample.day + 1])
                 ["X"; "Y"] None None true false
                 (Sample.world small_table))).
Proof.
  refine (proj2 (proj2 (validate_only_run
                          Sample.settings
                          (Sample.serves [Sample.day; Sample.day + 1])
                          ["X"; "Y"] None None true
                          (Sample.world small_table))) _ _ _).
  - reflexivity.
  - intros _. repeat constructor; simpl; intros H;
      repeat (destruct H as [H | H]; try discriminate H); exact H.
  - vm_compute. reflexivity.
Defined.

(** C9, as stated, fails when the provider has the same day twice: the
    normal run is refused at the store write and reports a pipeline
    error for the ticker, the validate-only run reports no error. *)
Lemma validate_only_run_differs :
  IngestionPipeline.errors
    (fst (IngestionPipeline.run_pipeline
            Sample.settings twice ["X"] None None true true
            (Sample.world [])))
  = []
  /\ IngestionPipeline.errors
       (fst (IngestionPipeline.run_pipeline
               Sample.settings twice ["X"] None None true false
               (Sample.world [])))
     = [IngestionPipeline.PipelineError
          "X" (ConstraintException "PRIMARY KEY")]
  /\ IngestionPipeline.errors
       (fst (IngestionPipeline.run_pipeline
               Sample.settings twice ["X"] None None true true
               (Sample.world [])))
     <> IngestionPipeline.errors
          (fst (IngestionPipeline.run_pipeline
                  Sample.settings twice ["X"] None None true false
                  (Sample.world []))).
Proof.
  split; [vm_compute; reflexivity | ].
  split; [vm_compute; reflexivity | ].
  vm_compute. discriminate.
Qed.

(** ** The scenarios of the specification, run on the model *)

(** Ten rows for AAPL into an empty store: ten rows inserted and the last
    date is 2024-01-10; the same ingestion again inserts ten rows and the
    store still has ten. *)
Example scenario_reingest :
  let first :=
    IngestionPipeline.run_pipeline
      Sample.settings (Sample.serves ten_days) ["AAPL"]
      (Some "2024-01-01") (Some "2024-01-11") true false empty_store in
  let second :=
    IngestionPipeline.run_pipeline
      Sample.settings (Sample.serves ten_days) ["AAPL"]
      (Some "2024-01-01") (Some "2024-01-11") true false (snd first) in
  IngestionPipeline.total_rows_inserted (fst first) = 10%nat
  /\ DuckDBStorage.max_date "AAPL" (DuckDBStorage.stock_prices (snd first))
     = Some Sample.day
  /\ IngestionPipeline.total_rows_inserted (fst second) = 10%nat
  /\ List.length (DuckDBStorage.stock_prices (snd second)) = 10%nat
  /\ IngestionPipeline.errors (fst second) = [].
Proof. vm_compute. repeat split; reflexivity. Qed.

(** One row with volume -5: a warning on volume, the row is filtered out,
    and the ticker fails with no row inserted. *)
Example scenario_negative_volume :
  IngestionPipeline.run_pipeline
    Sample.settings negative_volume ["X"] None None true false empty_store
  = ({| IngestionPipeline.tickers_processed := 0;
        IngestionPipeline.tickers_failed := 1;
        IngestionPipeline.total_rows_inserted := 0;
        IngestionPipeline.errors := [IngestionPipeline.AllRowsFiltered "X"];
        IngestionPipeline.warnings :=
          [IngestionPipeline.DataQualityWarnings
             "X" [DataValidator.InsufficientData 1 10;
                  DataValidator.NegativeValues "volume" 1]];
        IngestionPipeline.duration_seconds := Some 0 |},
      empty_store).
Proof. vm_compute. reflexivity. Qed.

(** The same ten rows in a validate-only run: the ticker is processed and
    nothing is stored. *)
Example scenario_validate_only :
  IngestionPipeline.run_pipeline
    Sample.settings (Sample.serves ten_days) ["AAPL"] None None true true
    empty_store
  = ({| IngestionPipeline.tickers_processed := 1;
        IngestionPipeline.tickers_failed := 0;
        IngestionPipeline.total_rows_inserted := 0;
        IngestionPipeline.errors := [];
        IngestionPipeline.warnings := [];
        IngestionPipeline.duration_seconds := Some 0 |},
      empty_store).
Proof. vm_compute. reflexivity. Qed.

(** With data through 2024-01-10 in the store, an incremental run asks
    the provider for the days from 2024-01-11 on. *)
Example scenario_incremental :
  let first :=
    IngestionPipeline.run_pipeline
      Sample.settings (Sample.serves ten_days) ["AAPL"]
      (Some "2024-01-01") None true false empty_store in
  let second :=
    IngestionPipeline.run_pipeline
      Sample.settings (asked_from "2024-01-11" [Sample.day + 1]) ["AAPL"]
      None None true false (snd first) in
  IngestionPipeline.total_rows_inserted (fst second) = 1%nat
  /\ IngestionPipeline.errors (fst second) = []
  /\ DuckDBStorage.max_date "AAPL" (DuckDBStorage.stock_prices (snd second))
     = Some (Sample.day + 1)
  /\ List.length (DuckDBStorage.stock_prices (snd second)) = 11%nat.
Proof. vm_compute. repeat split; reflexivity. Qed.

(** The calendar: ordinals of known days. *)
Example strftime_known_days :
  Date.strftime 1 = "0001-01-01"
  /\ Date.strftime 719163 = "1970-01-01"
  /\ Date.strftime 730179 = "2000-02-29"
  /\ Date.strftime Sample.day = "2024-01-10"
  /\ Date.strftime Date.max_ordinal = "9999-12-31".
Proof. vm_compute. repeat split; reflexivity. Qed.

(** A row whose volume is 2^63 is refused by the INSERT after the DELETE
    has removed the stored row of that day; a frame whose open prices are
    text is refused by the comparisons of [filter_invalid_rows]. *)
Example scenario_refused_cells :
  DuckDBStorage.upsert_data
    (Some (Sample.frame [Sample.bar "X" Sample.day (2 ^ 63)]))
    (Sample.world small_table)
  = (inl (ConversionException "INT64"),
     Sample.world [stored_bar "Y" Sample.day 1])
  /\ DuckDBStorage.upsert_data
       (Some (Sample.frame [Sample.bar "X" Sample.day (2 ^ 63 - 1)]))
       (Sample.world [])
     = (inr 1%nat,
        Sample.world
          [DuckDBStorage.stored
             "X" Sample.day 1705276800
             (Sample.bar "X" Sample.day (2 ^ 63 - 1))])
  /\ DataValidator.filter_invalid_rows
       (Some (with_rows
                {| columns := [("ticker", Sample.text);
                               ("date", Sample.object);
                               ("open", Sample.text);
                               ("high", Sample.numeric);
                               ("low", Sample.numeric);
                               ("close", Sample.numeric);
                               ("volume", Sample.numeric);
                               ("adj_close", Sample.numeric)];
                   to_datetime_error := None;
                   rows := [] |}
                [Sample.bar "X" Sample.day 5]))
     = inl TypeError.
Proof. vm_compute. repeat split; reflexivity. Qed.

(* ================================================================== *)
(** * Further properties *)

(** ** The read queries of the store *)

Section QueryFacts.
Import DuckDBStorage.

Lemma insert_by_date_perm (r : StoredRow) (l : list StoredRow) :
  Permutation (insert_by_date r l) (r :: l).
Proof.
  induction l as [|x l IH]; simpl.
  - apply Permutation_refl.
  - destruct (s_date r <=? s_date x).
    + apply Permutation_refl.
    + eapply perm_trans; [apply perm_skip, IH | apply perm_swap].
Qed.

Lemma order_by_date_perm (l : list StoredRow) :
  Permutation (order_by_date l) l.
Proof.
  induction l as [|x l IH]; simpl.
  - apply perm_nil.
  - eapply perm_trans; [apply insert_by_date_perm | apply perm_skip, IH].
Qed.

Lemma insert_by_date_sorted (r : StoredRow) (l : list StoredRow) :
  StronglySorted by_date l -> StronglySorted by_date (insert_by_date r l).
Proof.
  induction 1 as [|x l Hl IH Hx]; simpl.
  - constructor; constructor.
  - destruct (s_date r <=? s_date x) eqn:E.
    + apply Z.leb_le in E. constructor.
      * constructor; assumption.
      * constructor; [exact E |].
        rewrite Forall_forall in *. intros y Hy. specialize (Hx y Hy).
        unfold by_date in *. lia.
    + apply Z.leb_gt in E. constructor; [exact IH |].
      rewrite Forall_forall in *. intros y Hy.
      apply (Permutation_in _ (insert_by_date_perm r l)) in Hy.
      destruct Hy as [<- | Hy]; [unfold by_date; lia | auto].
Qed.

Lemma order_by_date_sorted (l : list StoredRow) :
  StronglySorted by_date (order_by_date l).
Proof.
  induction l; simpl; [constructor | apply insert_by_date_sorted; assumption].
Qed.

Lemma in_range_spec (tk : string) (lo hi : option Z) (r : StoredRow) :
  in_range tk lo hi r = true <->
  s_ticker r = tk
  /\ (forall d, lo = Some d -> d <= s_date r)
  /\ (forall d, hi = Some d -> s_date r <= d).
Proof.
  unfold in_range. rewrite !andb_true_iff, String.eqb_eq.
  destruct lo as [a|], hi as [b|]; rewrite ?Z.leb_le; split;
    intros [[H1 H2] H3] || intros (H1 & H2 & H3);
    repeat split; intros; try discriminate; auto;
    try (match goal with H : Some _ = Some _ |- _ => injection H as <- end;
         auto).
Qed.

Lemma set_stock_prices_same (w : World) :
  set_stock_prices (stock_prices w) w = w.
Proof. destruct w; reflexivity. Qed.

Lemma query_ticker_data_ok (to_date : string -> exn + Z) (tk : string)
      (sd ed : option string) (lo hi : option Z) (w : World) :
  conn w = true -> faults w = [] ->
  date_param to_date sd = inr lo -> date_param to_date ed = inr hi ->
  query_ticker_data to_date tk sd ed w
  = (inr (order_by_date (filter (in_range tk lo hi) (stock_prices w))), w).
Proof.
  intros Hc Hf Hlo Hhi. unfold query_ticker_data.
  rewrite execute_ok by assumption. rewrite Hlo, Hhi.
  rewrite set_stock_prices_same. reflexivity.
Qed.

End QueryFacts.

(** X1.  On an open connection to a database that does not fail,
    [query_ticker_data] returns, in ascending order of date, exactly the
    stored rows of the ticker whose date is within the bounds that were
    given (an absent or empty bound string is no bound), each as often as
    it is stored, and leaves the store as it was. *)
Theorem query_ticker_data_selects
        (to_date : string -> exn + Z) (ticker : string)
        (start_date end_date : option string) (lo hi : option Z)
        (w : DuckDBStorage.World)
        (Hconn : DuckDBStorage.conn w = true)
        (Hfaults : DuckDBStorage.faults w = [])
        (Hlo : DuckDBStorage.date_param to_date start_date = inr lo)
        (Hhi : DuckDBStorage.date_param to_date end_date = inr hi) :
  exists result,
    DuckDBStorage.query_ticker_data to_date ticker start_date end_date w
    = (inr result, w)
    /\ StronglySorted by_date result
    /\ Permutation
         result
         (filter (DuckDBStorage.in_range ticker lo hi)
                 (DuckDBStorage.stock_prices w))
    /\ (forall r,
          In r result <->
          In r (DuckDBStorage.stock_prices w)
          /\ DuckDBStorage.s_ticker r = ticker
          /\ (forall d, lo = Some d -> d <= DuckDBStorage.s_date r)
          /\ (forall d, hi = Some d -> DuckDBStorage.s_date r <= d)).
Proof.
  eexists. split; [apply (query_ticker_data_ok _ _ _ _ lo hi); assumption |].
  split; [apply order_by_date_sorted |].
  split; [apply order_by_date_perm |].
  intro r. rewrite <- in_range_spec, <- filter_In. split; intro H.
  - apply (Permutation_in _ (order_by_date_perm _)), H.
  - apply (Permutation_in _ (Permutation_sym (order_by_date_perm _))), H.
Qed.

Lemma query_ticker_data_selects_witness :
  DuckDBStorage.query_ticker_data
    iso_days "X" (Some "2024-01-10") (Some "")
    (Sample.world [stored_bar "X" (Sample.day + 1) 1;
                   stored_bar "Y" Sample.day 1;
                   stored_bar "X" Sample.day 1;
                   stored_bar "X" (Sample.day - 1) 1])
  = (inr [stored_bar "X" Sample.day 1; stored_bar "X" (Sample.day + 1) 1],
     Sample.world [stored_bar "X" (Sample.day + 1) 1;
                   stored_bar "Y" Sample.day 1;
                   stored_bar "X" Sample.day 1;
                   stored_bar "X" (Sample.day - 1) 1]).
Proof.
  destruct (query_ticker_data_selects
              iso_days "X" (Some "2024-01-10") (Some "")
              (Some Sample.day) None
              (Sample.world [stored_bar "X" (Sample.day + 1) 1;
                             stored_bar "Y" Sample.day 1;
                             stored_bar "X" Sample.day 1;
                             stored_bar "X" (Sample.day - 1) 1])
              eq_refl eq_refl eq_refl eq_refl) as (result & Hrun & _).
  rewrite Hrun. vm_compute in Hrun. injection Hrun as <-. reflexivity.
Defined.

(** ** Upserts that are refused, and what is stored after an upsert *)

Section UpsertRuns.
Import DuckDBStorage.

Variable t : string.
Variable df : DataFrame.
Variable ds : list Z.
Hypothesis Hticker : single_ticker t df.
Hypothesis Hdates : dates (rows df) = inr ds.
Hypothesis Hrows : rows df <> [].
Hypothesis Hcols : has_required_columns df.

(** Every row of the frame has the ticker and a date of [ds]. *)
Lemma frame_row_key (r : Row) :
  In r (rows df) -> ticker r = Some t /\ exists d, date r = Some d /\ In d ds.
Proof.
  intro Hr. split; [exact (Hticker r Hr) | ].
  assert (Hd : In (date r) (map Some ds)).
  { rewrite <- (proj1 (dates_spec _ _) Hdates). apply in_map. exact Hr. }
  apply in_map_iff in Hd as [d [Hd Hin]]. exists d. split; congruence.
Qed.

End UpsertRuns.

Section RefusedInsert.
Import DuckDBStorage.

(** A row whose key is in the table stops the INSERT. *)
Lemma insert_rows_taken (c : Z) (tk : string) (rs : list Row) :
  forall table,
    (forall r, In r rs -> ticker r = Some tk /\ exists d, date r = Some d) ->
    (exists r d, In r rs /\ date r = Some d
                 /\ In (tk, d) (map stored_key table)) ->
    insert_rows c rs table = inl (ConstraintException "PRIMARY KEY").
Proof.
  induction rs as [ | r0 rs IH]; simpl; intros table Hwf Htaken.
  - destruct Htaken as (r & d & [] & _).
  - destruct (Hwf r0 (or_introl eq_refl)) as [Htk [d0 Hd0]].
    rewrite Htk, Hd0.
    destruct (has_key tk d0 table) eqn:Hkey; [reflexivity | ].
    apply IH; [intros r Hr; apply Hwf; right; exact Hr | ].
    destruct Htaken as (r & d & [<- | Hr] & Hd & Hin).
    + apply has_key_false in Hkey. exfalso. apply Hkey. congruence.
    + exists r, d. split; [exact Hr | split; [exact Hd | ]].
      rewrite map_app, in_app_iff. left. exact Hin.
Qed.

(** Two rows of the same ticker and date stop the INSERT. *)
Lemma insert_rows_repeated (c : Z) (tk : string) (rs : list Row) :
  forall table,
    (forall r, In r rs -> ticker r = Some tk /\ exists d, date r = Some d) ->
    ~ NoDup (map date rs) ->
    insert_rows c rs table = inl (ConstraintException "PRIMARY KEY").
Proof.
  induction rs as [ | r0 rs IH]; simpl; intros table Hwf Hrep.
  - exfalso. apply Hrep. constructor.
  - destruct (Hwf r0 (or_introl eq_refl)) as [Htk [d0 Hd0]].
    rewrite Htk, Hd0.
    destruct (has_key tk d0 table) eqn:Hkey; [reflexivity | ].
    assert (Hwf' : forall r, In r rs ->
                     ticker r = Some tk /\ exists d, date r = Some d)
      by (intros r Hr; apply Hwf; right; exact Hr).
    assert (Hdec : forall x y : option Z, {x = y} + {x <> y})
      by (decide equality; apply Z.eq_dec).
    destruct (in_dec Hdec (date r0) (map date rs)) as [Hin | Hnotin].
    + apply (insert_rows_taken c tk); [exact Hwf' | ].
      apply in_map_iff in Hin as [r [Hr Hin]].
      exists r, d0. split; [exact Hin | split; [congruence | ]].
      rewrite map_app, in_app_iff. right. left. reflexivity.
    + apply IH; [exact Hwf' | ].
      intro Hnodup. apply Hrep. constructor; assumption.
Qed.

End RefusedInsert.

Section AfterUpsert.
Import DuckDBStorage.

Variable t : string.
Variable df : DataFrame.
Variable ds : list Z.
Hypothesis Hticker : single_ticker t df.
Hypothesis Hdates : dates (rows df) = inr ds.
Hypothesis Hrows : rows df <> [].

Lemma frame_dates_not_empty : ds <> [].
Proof.
  intros ->. apply dates_spec in Hdates. simpl in Hdates.
  apply map_eq_nil in Hdates. exact (Hrows Hdates).
Qed.

(** The stored form of the frame holds a row for each of its dates. *)
Lemma new_row_of_date (new : list StoredRow) (d : Z) :
  map price_bar new = rows df -> In d ds ->
  exists s, In s new /\ s_ticker s = t /\ s_date s = d.
Proof.
  intros Hnew Hd.
  destruct (dates_rows df ds d Hdates Hd) as [r [Hr Hrd]].
  rewrite <- Hnew in Hr. apply in_map_iff in Hr as [s [Hs Hin]].
  exists s. split; [exact Hin | ].
  split; [apply (new_rows_in_span t df ds Hticker Hdates new Hnew s Hin) | ].
  subst r. simpl in Hrd. congruence.
Qed.

Lemma max_date_upsert (table new : list StoredRow) :
  map price_bar new = rows df ->
  max_date t (kept t ds table ++ new)
  = Some (match max_date t table with
          | Some D => Z.max D (maximum ds)
          | None => maximum ds
          end).
Proof.
  intro Hnew.
  destruct (minimum_maximum_in ds frame_dates_not_empty) as [_ Hmax].
  destruct (new_row_of_date new _ Hnew Hmax) as (s & Hs & Hst & Hsd).
  assert (Hnew_le : forall r, In r new -> s_date r <= maximum ds).
  { intros r Hr.
    apply (minimum_maximum_bounds ds),
      (new_rows_in_span t df ds Hticker Hdates new Hnew r Hr). }
  pose proof (max_date_spec t table) as Hspec.
  destruct (max_date t table) as [D | ].
  - destruct Hspec as [(r0 & Hr0 & Ht0 & Hd0) Hle].
    apply max_date_last.
    + destruct (Z.max_spec D (maximum ds)) as [[Hlt ->] | [Hge ->]].
      * exists s. rewrite in_app_iff. auto.
      * destruct (Z.eq_dec D (maximum ds)) as [Heq | Hne].
        { exists s. rewrite in_app_iff. split; [auto | split; congruence]. }
        exists r0. rewrite in_app_iff. split; [left | auto].
        unfold kept. apply filter_In. split; [exact Hr0 | ].
        unfold in_span. apply negb_true_iff.
        apply andb_false_iff. right. apply Z.leb_gt. lia.
    + intros r Hr Hrt. apply in_app_iff in Hr as [Hr | Hr].
      * unfold kept in Hr. apply filter_In in Hr as [Hr _].
        specialize (Hle r Hr Hrt). lia.
      * specialize (Hnew_le r Hr). lia.
  - apply max_date_last.
    + exists s. rewrite in_app_iff. auto.
    + intros r Hr Hrt. apply in_app_iff in Hr as [Hr | Hr].
      * unfold kept in Hr. apply filter_In in Hr as [Hr _].
        exfalso. exact (Hspec r Hr Hrt).
      * exact (Hnew_le r Hr).
Qed.

(** The rows of the table after an upsert that are of the ticker and in
    the span of the frame are the new ones. *)
Lemma in_range_upsert (table new : list StoredRow) (lo hi : option Z) :
  map price_bar new = rows df ->
  (forall d, lo = Some d -> d <= minimum ds) ->
  (forall d, hi = Some d -> maximum ds <= d) ->
  exists old,
    filter (in_range t lo hi) (kept t ds table ++ new) = old ++ new
    /\ (lo = Some (minimum ds) -> hi = Some (maximum ds) -> old = []).
Proof.
  intros Hnew Hlo Hhi. rewrite filter_app.
  exists (filter (in_range t lo hi) (kept t ds table)). split.
  - f_equal. apply forallb_filter_id. apply forallb_forall. intros s Hs.
    destruct (new_rows_in_span t df ds Hticker Hdates new Hnew s Hs)
      as [Hst Hsd].
    apply (minimum_maximum_bounds ds) in Hsd.
    apply in_range_spec. split; [exact Hst | ].
    split; intros d Hd; [specialize (Hlo d Hd) | specialize (Hhi d Hd)]; lia.
  - intros -> ->. unfold kept. rewrite filter_filter.
    induction table as [ | r table IH]; simpl; [reflexivity | ].
    unfold in_span, in_range.
    destruct (String.eqb (s_ticker r) t); simpl; [ | exact IH].
    destruct (minimum ds <=? s_date r); simpl; [ | exact IH].
    destruct (s_date r <=? maximum ds); simpl; exact IH.
Qed.

End AfterUpsert.

(** X2.  When [upsert_data] of a frame of one ticker returns,
    [get_last_date] of that ticker is the later of the last date of the
    frame and the last date stored before, and [get_last_date] of every
    other ticker is what it was.  The upsert returns when the prices and
    volumes of the frame are numeric, its dates are distinct and its
    volumes fit the BIGINT column. *)
Theorem get_last_date_after_upsert
        (w : DuckDBStorage.World) (df : DataFrame) (t : string)
        (ds : list Z)
        (Hconn : DuckDBStorage.conn w = true)
        (Hfaults : DuckDBStorage.faults w = [])
        (Hcols : has_required_columns df)
        (Hrows : rows df <> [])
        (Hticker : single_ticker t df)
        (Hdates : DuckDBStorage.dates (rows df) = inr ds) :
  (forall n w',
      DuckDBStorage.upsert_data (Some df) w = (inr n, w') ->
      DuckDBStorage.get_last_date t w'
      = (inr (Some match DuckDBStorage.max_date
                           t (DuckDBStorage.stock_prices w) with
                   | Some D => Z.max D (DuckDBStorage.maximum ds)
                   | None => DuckDBStorage.maximum ds
                   end), w')
      /\ (forall t',
            t' <> t ->
            DuckDBStorage.get_last_date t' w'
            = (inr (DuckDBStorage.max_date
                      t' (DuckDBStorage.stock_prices w)), w')))
  /\ (numeric_cells df -> NoDup ds ->
      DuckDBStorage.casts_to_bigint (rows df) = true ->
      exists n w', DuckDBStorage.upsert_data (Some df) w = (inr n, w')).
Proof.
  split.
  - intros n w' Hrun.
    destruct (upsert_data_stored t df ds Hticker Hdates Hrows Hcols
                                 w w' n Hconn Hfaults Hrun)
      as (new & -> & Hnew & _). split.
    + rewrite get_last_date_ok by assumption. simpl.
      rewrite (max_date_upsert t df ds Hticker Hdates Hrows _ _ Hnew).
      reflexivity.
    + intros t' Hne. rewrite get_last_date_ok by assumption.
      pose proof (upsert_other_ticker t t' df w Hticker Hne) as Hother.
      rewrite Hrun in Hother. simpl in Hother. simpl. rewrite Hother.
      reflexivity.
  - intros Hnumeric Hdistinct Hvolumes.
    destruct (upsert_data_ok t df ds Hticker Hdates Hrows Hcols Hnumeric
                             Hdistinct Hvolumes w Hconn Hfaults)
      as (new & Hrun & _).
    eexists _, _. exact Hrun.
Qed.

Lemma get_last_date_after_upsert_witness :
  exists n w',
    DuckDBStorage.upsert_data (Some two_days) (Sample.world small_table)
    = (inr n, w')
    /\ DuckDBStorage.get_last_date "X" w' = (inr (Some (Sample.day + 1)), w')
    /\ DuckDBStorage.get_last_date "Y" w' = (inr (Some Sample.day), w').
Proof.
  destruct (get_last_date_after_upsert
              (Sample.world small_table) two_days "X"
              [Sample.day; Sample.day + 1])
    as (Hlast & Hreturns);
    try reflexivity.
  - discriminate.
  - intros r [<- | [<- | []]]; reflexivity.
  - destruct Hreturns as (n & w' & Hrun); [ | | reflexivity | ].
    { intros c Hc _. simpl in Hc.
      repeat (destruct Hc as [<- | Hc]; [reflexivity | ]). contradiction. }
    { repeat constructor; simpl; intuition discriminate. }
    destruct (Hlast n w' Hrun) as [Hx Hy].
    exists n, w'. split; [exact Hrun | ]. split; [exact Hx | ].
    apply Hy. discriminate.
Defined.

(** X3.  On a working connection, [upsert_data] of a non-empty frame of
    one ticker with the required columns, numeric prices and volumes and
    no missing date returns if and only if the dates of the frame are distinct and its volumes fit the
    BIGINT column.  When the volumes fit and a date is repeated it raises
    the PRIMARY KEY violation of the INSERT; when the dates are distinct and
    a volume does not fit it raises the conversion error of the INSERT.
    Whenever it raises, the DELETE before the INSERT has taken effect: the
    rows of the ticker in the span of the frame are gone and none of the
    frame is stored. *)
Theorem upsert_data_repeated_date
        (w : DuckDBStorage.World) (df : DataFrame) (t : string)
        (ds : list Z)
        (Hconn : DuckDBStorage.conn w = true)
        (Hfaults : DuckDBStorage.faults w = [])
        (Hcols : has_required_columns df)
        (Hnumeric : numeric_cells df)
        (Hrows : rows df <> [])
        (Hticker : single_ticker t df)
        (Hdates : DuckDBStorage.dates (rows df) = inr ds) :
  (NoDup ds /\ DuckDBStorage.casts_to_bigint (rows df) = true <->
   exists n w', DuckDBStorage.upsert_data (Some df) w = (inr n, w'))
  /\ (~ NoDup ds -> DuckDBStorage.casts_to_bigint (rows df) = true ->
      DuckDBStorage.upsert_data (Some df) w
      = (inl (ConstraintException "PRIMARY KEY"),
         DuckDBStorage.set_stock_prices
           (kept t ds (DuckDBStorage.stock_prices w)) w))
  /\ (NoDup ds -> DuckDBStorage.casts_to_bigint (rows df) = false ->
      DuckDBStorage.upsert_data (Some df) w
      = (inl (ConversionException "INT64"),
         DuckDBStorage.set_stock_prices
           (kept t ds (DuckDBStorage.stock_prices w)) w))
  /\ (forall e w',
         DuckDBStorage.upsert_data (Some df) w = (inl e, w') ->
         w' = DuckDBStorage.set_stock_prices
                (kept t ds (DuckDBStorage.stock_prices w)) w).
Proof.
  assert (Hfail : ~ NoDup ds ->
            DuckDBStorage.casts_to_bigint (rows df) = true ->
            DuckDBStorage.upsert_data (Some df) w
            = (inl (ConstraintException "PRIMARY KEY"),
               DuckDBStorage.set_stock_prices
                 (kept t ds (DuckDBStorage.stock_prices w)) w)).
  { intros Hrep Hvolumes.
    rewrite (upsert_data_numeric t df ds) by assumption. rewrite Hvolumes.
    rewrite (insert_rows_repeated _ t); [reflexivity | | ].
    - intros r Hr.
      destruct (frame_row_key t df ds Hticker Hdates r Hr)
        as [Htk (d & Hd & _)].
      split; [exact Htk | exists d; exact Hd].
    - intro Hnodup. apply Hrep.
      rewrite (proj1 (dates_spec _ _) Hdates) in Hnodup.
      exact (NoDup_map_inv _ _ Hnodup). }
  split; [ | split; [exact Hfail | split]].
  - split.
    + intros [Hdistinct Hvolumes].
      destruct (upsert_data_ok t df ds Hticker Hdates Hrows Hcols Hnumeric
                               Hdistinct Hvolumes w Hconn Hfaults)
        as (new & Hrun & _).
      eexists _, _. exact Hrun.
    + intros (n & w' & Hrun).
      destruct (upsert_data_stored t df ds Hticker Hdates Hrows Hcols
                                   w w' n Hconn Hfaults Hrun)
        as (new & _ & _ & _ & Hvolumes).
      split; [ | exact Hvolumes].
      assert (Hdec : forall x y : Z, {x = y} + {x <> y}) by apply Z.eq_dec.
      destruct (ListDec.NoDup_dec Hdec ds) as [Hyes | Hno]; [exact Hyes | ].
      rewrite (Hfail Hno Hvolumes) in Hrun. discriminate.
  - intros _ Hvolumes.
    apply (upsert_data_overflow t df ds); assumption.
  - intros e w'. apply (upsert_data_refused t df ds); assumption.
Qed.

Lemma upsert_data_repeated_date_witness :
  DuckDBStorage.upsert_data
    (Some same_day_twice)
    (Sample.world [stored_bar "X" Sample.day 5; stored_bar "Y" Sample.day 1])
  = (inl (ConstraintException "PRIMARY KEY"),
     Sample.world [stored_bar "Y" Sample.day 1]).
Proof.
  refine (proj1 (proj2 (upsert_data_repeated_date
                          (Sample.world [stored_bar "X" Sample.day 5;
                                         stored_bar "Y" Sample.day 1])
                          same_day_twice "X" [Sample.day; Sample.day]
                          eq_refl eq_refl eq_refl _ _ _ eq_refl)) _ eq_refl).
  - intros c Hc _. simpl in Hc.
    repeat (destruct Hc as [<- | Hc]; [reflexivity | ]). contradiction.
  - discriminate.
  - intros r [<- | [<- | []]]; reflexivity.
  - intro H. inversion H as [ | x l Hin _]. apply Hin. left. reflexivity.
Defined.

(** X4.  Insert, then look up: when [upsert_data] of a frame of one
    ticker returns, [query_ticker_data] for that ticker with bounds that
    contain the dates of the frame returns every row of the frame; with the
    first and the last date of the frame as bounds it returns the rows of
    the frame and nothing else.  The upsert returns when the prices and
    volumes of the frame are numeric, its dates are distinct and its
    volumes fit the BIGINT column. *)
Theorem query_ticker_data_after_upsert
        (to_date : string -> exn + Z)
        (start_date end_date : option string) (lo hi : option Z)
        (w : DuckDBStorage.World) (df : DataFrame) (t : string)
        (ds : list Z)
        (Hconn : DuckDBStorage.conn w = true)
        (Hfaults : DuckDBStorage.faults w = [])
        (Hcols : has_required_columns df)
        (Hrows : rows df <> [])
        (Hticker : single_ticker t df)
        (Hdates : DuckDBStorage.dates (rows df) = inr ds)
        (Hstart : DuckDBStorage.date_param to_date start_date = inr lo)
        (Hend : DuckDBStorage.date_param to_date end_date = inr hi)
        (Hlo : forall d, lo = Some d -> d <= DuckDBStorage.minimum ds)
        (Hhi : forall d, hi = Some d -> DuckDBStorage.maximum ds <= d) :
  (forall n w',
      DuckDBStorage.upsert_data (Some df) w = (inr n, w') ->
      exists result,
        DuckDBStorage.query_ticker_data to_date t start_date end_date w'
        = (inr result, w')
        /\ incl (rows df) (map DuckDBStorage.price_bar result)
        /\ (lo = Some (DuckDBStorage.minimum ds) ->
            hi = Some (DuckDBStorage.maximum ds) ->
            Permutation (map DuckDBStorage.price_bar result) (rows df)))
  /\ (numeric_cells df -> NoDup ds ->
      DuckDBStorage.casts_to_bigint (rows df) = true ->
      exists n w', DuckDBStorage.upsert_data (Some df) w = (inr n, w')).
Proof.
  split.
  - intros n w' Hrun.
    destruct (upsert_data_stored t df ds Hticker Hdates Hrows Hcols
                                 w w' n Hconn Hfaults Hrun)
      as (new & -> & Hnew & _).
    destruct (in_range_upsert t df ds Hticker Hdates
                              (DuckDBStorage.stock_prices w) new lo hi
                              Hnew Hlo Hhi) as (old & Hfilter & Hold).
    eexists.
    split; [apply (query_ticker_data_ok _ _ _ _ lo hi); assumption | ].
    simpl DuckDBStorage.stock_prices. rewrite Hfilter. split.
    + intros r Hr. rewrite <- Hnew in Hr.
      apply in_map_iff in Hr as [s [<- Hs]]. apply in_map.
      apply (Permutation_in _ (Permutation_sym (order_by_date_perm _))).
      apply in_app_iff. right. exact Hs.
    + intros Hmin Hmax. rewrite (Hold Hmin Hmax). simpl.
      rewrite <- Hnew. apply Permutation_map. apply order_by_date_perm.
  - intros Hnumeric Hdistinct Hvolumes.
    destruct (upsert_data_ok t df ds Hticker Hdates Hrows Hcols Hnumeric
                             Hdistinct Hvolumes w Hconn Hfaults)
      as (new & Hrun & _).
    eexists _, _. exact Hrun.
Qed.

Lemma query_ticker_data_after_upsert_witness :
  exists n w' result,
    DuckDBStorage.upsert_data (Some two_days) (Sample.world small_table)
    = (inr n, w')
    /\ DuckDBStorage.query_ticker_data
         iso_days "X" (Some "2024-01-10") (Some "2024-01-11") w'
       = (inr result, w')
    /\ Permutation (map DuckDBStorage.price_bar result) (rows two_days).
Proof.
  destruct (query_ticker_data_after_upsert
              iso_days (Some "2024-01-10") (Some "2024-01-11")
              (Some Sample.day) (Some (Sample.day + 1))
              (Sample.world small_table) two_days "X"
              [Sample.day; Sample.day + 1])
    as (Hquery & Hreturns);
    try reflexivity.
  - discriminate.
  - intros r [<- | [<- | []]]; reflexivity.
  - intros d H. injection H as <-. vm_compute. discriminate.
  - intros d H. injection H as <-. vm_compute. discriminate.
  - destruct Hreturns as (n & w' & Hrun); [ | | reflexivity | ].
    { intros c Hc _. simpl in Hc.
      repeat (destruct Hc as [<- | Hc]; [reflexivity | ]). contradiction. }
    { repeat constructor; simpl; intuition discriminate. }
    destruct (Hquery n w' Hrun) as (result & Hresult & _ & Hexact).
    exists n, w', result. split; [exact Hrun | ]. split; [exact Hresult | ].
    apply Hexact; reflexivity.
Defined.

(** ** Tickers and summary *)

Section TickerOrder.

Lemma ticker_lt_spec (a b : string) :
  ticker_lt a b <-> String.compare a b = Lt.
Proof.
  unfold ticker_lt, String.ltb.
  destruct (String.compare a b); split; congruence.
Qed.

Lemma ticker_lt_irrefl (a : string) : ~ ticker_lt a a.
Proof.
  rewrite ticker_lt_spec. intro H.
  pose proof (String.compare_antisym a a) as Hopp.
  rewrite H in Hopp. discriminate.
Qed.

Lemma ticker_lt_trans (a b c : string) :
  ticker_lt a b -> ticker_lt b c -> ticker_lt a c.
Proof.
  rewrite !ticker_lt_spec. revert b c.
  induction a as [ | x a IH]; intros [ | y b] [ | z c]; simpl;
    try congruence.
  unfold Ascii.compare.
  destruct (N.compare_spec (N_of_ascii x) (N_of_ascii y)) as [Hxy | Hxy | Hxy];
    try discriminate;
    destruct (N.compare_spec (N_of_ascii y) (N_of_ascii z))
      as [Hyz | Hyz | Hyz];
    try discriminate; intros H1 H2.
  - rewrite Hxy, Hyz, N.compare_refl. exact (IH _ _ H1 H2).
  - rewrite Hxy. apply N.compare_lt_iff in Hyz. rewrite Hyz. reflexivity.
  - rewrite <- Hyz. apply N.compare_lt_iff in Hxy. rewrite Hxy. reflexivity.
  - assert (H : (N_of_ascii x < N_of_ascii z)%N) by lia.
    apply N.compare_lt_iff in H. rewrite H. reflexivity.
Qed.

Lemma ticker_gt_lt (a b : string) :
  String.compare a b = Gt -> ticker_lt b a.
Proof.
  intro H. apply ticker_lt_spec. rewrite String.compare_antisym, H.
  reflexivity.
Qed.

End TickerOrder.

Section TickersFacts.
Import DuckDBStorage.

Lemma insert_ticker_in (tk x : string) (l : list string) :
  In x (insert_ticker tk l) <-> x = tk \/ In x l.
Proof.
  induction l as [ | y l IH]; simpl.
  - intuition.
  - destruct (String.compare tk y) eqn:E; simpl.
    + apply String.compare_eq_iff in E. subst y. intuition.
    + intuition.
    + rewrite IH. intuition.
Qed.

Lemma insert_ticker_sorted (tk : string) (l : list string) :
  StronglySorted ticker_lt l -> StronglySorted ticker_lt (insert_ticker tk l).
Proof.
  induction 1 as [ | y l Hl IH Hy]; simpl.
  - constructor; constructor.
  - destruct (String.compare tk y) eqn:E.
    + constructor; assumption.
    + apply ticker_lt_spec in E. constructor.
      * constructor; assumption.
      * constructor; [exact E | ].
        rewrite Forall_forall in *. intros z Hz.
        exact (ticker_lt_trans _ _ _ E (Hy z Hz)).
    + constructor; [exact IH | ].
      rewrite Forall_forall in *. intros z Hz.
      apply insert_ticker_in in Hz as [-> | Hz];
        [apply ticker_gt_lt; exact E | auto].
Qed.

Lemma distinct_tickers_sorted (table : list StoredRow) :
  StronglySorted ticker_lt (distinct_tickers table).
Proof.
  induction table; simpl; [constructor | apply insert_ticker_sorted; assumption].
Qed.

Lemma distinct_tickers_in (tk : string) (table : list StoredRow) :
  In tk (distinct_tickers table) <->
  exists r, In r table /\ s_ticker r = tk.
Proof.
  induction table as [ | r table IH]; simpl.
  - split; [intros [] | intros (r & [] & _)].
  - rewrite insert_ticker_in, IH. split.
    + intros [-> | (r' & Hr' & Ht)]; [exists r; auto | exists r'; auto].
    + intros (r' & [<- | Hr'] & Ht); [left; auto | right; exists r'; auto].
Qed.

Lemma sorted_tickers_distinct (l : list string) :
  StronglySorted ticker_lt l -> NoDup l.
Proof.
  induction 1 as [ | y l Hl IH Hy]; constructor; [ | exact IH].
  intro Hin. rewrite Forall_forall in Hy.
  exact (ticker_lt_irrefl y (Hy y Hin)).
Qed.

Lemma get_available_tickers_ok (w : World) :
  conn w = true -> faults w = [] ->
  get_available_tickers w = (inr (distinct_tickers (stock_prices w)), w).
Proof.
  intros Hc Hf. unfold get_available_tickers.
  rewrite execute_ok by assumption. rewrite set_stock_prices_same.
  reflexivity.
Qed.

Lemma get_data_summary_ok (w : World) :
  conn w = true -> faults w = [] ->
  get_data_summary w
  = (inr (map (summarise (stock_prices w))
              (distinct_tickers (stock_prices w))), w).
Proof.
  intros Hc Hf. unfold get_data_summary.
  rewrite execute_ok by assumption. rewrite set_stock_prices_same.
  reflexivity.
Qed.

Lemma rows_of_spec (tk : string) (table : list StoredRow) (r : StoredRow) :
  In r (rows_of tk table) <-> In r table /\ s_ticker r = tk.
Proof. unfold rows_of. rewrite filter_In, String.eqb_eq. reflexivity. Qed.

(** Each row counts for one ticker of a list that holds its ticker
    once. *)
Lemma row_counted_once (x : string) (tickers : list string) :
  NoDup tickers -> In x tickers ->
  list_sum (map (fun tk => if String.eqb x tk then 1 else 0)%nat tickers)
  = 1%nat.
Proof.
  induction 1 as [ | y l Hy Hl IH]; simpl; intros Hin; [contradiction | ].
  destruct (String.eqb_spec x y) as [-> | Hne].
  - f_equal.
    clear IH Hin Hl. induction l as [ | z l IH]; simpl; [reflexivity | ].
    destruct (String.eqb_spec y z) as [-> | _].
    + exfalso. apply Hy. left. reflexivity.
    + apply IH. intro H. apply Hy. right. exact H.
  - destruct Hin as [-> | Hin]; [congruence | ]. apply IH. exact Hin.
Qed.

Lemma row_counts_add (table : list StoredRow) (tickers : list string) :
  NoDup tickers ->
  (forall r, In r table -> In (s_ticker r) tickers) ->
  list_sum (map (fun tk => List.length (rows_of tk table)) tickers)
  = List.length table.
Proof.
  intros Hnodup. induction table as [ | r table IH]; intros Hall.
  - simpl. induction tickers; simpl; [reflexivity | ].
    apply IHtickers. inversion Hnodup; assumption. intros r [].
  - change (List.length (r :: table)) with (S (List.length table)).
    rewrite <- IH by (intros; apply Hall; right; assumption).
    assert (Hsplit :
              list_sum (map (fun tk => List.length (rows_of tk (r :: table)))
                            tickers)
              = (list_sum (map (fun tk => if String.eqb (s_ticker r) tk
                                          then 1 else 0) tickers)
                 + list_sum (map (fun tk => List.length (rows_of tk table))
                                 tickers))%nat).
    { clear. induction tickers as [ | tk l IHl]; [reflexivity | ].
      unfold list_sum in *. cbn [map fold_right]. rewrite IHl. unfold rows_of at 1. cbn [filter].
      fold (rows_of tk table).
      destruct (String.eqb (s_ticker r) tk); simpl; lia. }
    rewrite Hsplit, (row_counted_once (s_ticker r) tickers Hnodup)
      by (apply Hall; left; reflexivity).
    reflexivity.
Qed.

End TickersFacts.

Section SummaryFacts.
Import DuckDBStorage.

Variable table : list StoredRow.

Lemma max_date_in (tk : string) :
  max_date tk table <> None <-> In tk (distinct_tickers table).
Proof.
  rewrite distinct_tickers_in. pose proof (max_date_spec tk table) as H.
  destruct (max_date tk table) as [D | ].
  - destruct H as [(r & Hr & Ht & _) _]. split; [ | discriminate].
    intros _. exists r. auto.
  - split; [congruence | ]. intros (r & Hr & Ht). exfalso. exact (H r Hr Ht).
Qed.

(** What a row of the summary says about the rows of its ticker. *)
Lemma summarise_group (tk : string) :
  In tk (distinct_tickers table) ->
  let s := summarise table tk in
  let group := rows_of tk table in
  sum_ticker s = tk
  /\ row_count s = List.length group
  /\ (0 < row_count s)%nat
  /\ max_date tk table = Some (sum_end_date s)
  /\ (exists r, In r group /\ s_date r = sum_start_date s)
  /\ (forall r, In r group -> sum_start_date s <= s_date r <= sum_end_date s)
  /\ (exists r, In r group /\ created_at r = last_updated s)
  /\ (forall r, In r group -> created_at r <= last_updated s).
Proof.
  intros Hin s group. apply distinct_tickers_in in Hin as (r0 & Hr0 & Ht0).
  assert (Hgroup : In r0 group) by (apply rows_of_spec; auto).
  assert (Hne : forall f : StoredRow -> Z, map f group <> []).
  { intros f Hnil. apply map_eq_nil in Hnil. rewrite Hnil in Hgroup.
    exact Hgroup. }
  destruct (minimum_maximum_in _ (Hne s_date)) as [Hmin Hmax].
  destruct (minimum_maximum_in _ (Hne created_at)) as [_ Hlast].
  apply in_map_iff in Hmin as (rmin & Hmin & Hrmin).
  apply in_map_iff in Hmax as (rmax & Hmax & Hrmax).
  apply in_map_iff in Hlast as (rlast & Hlast & Hrlast).
  split; [reflexivity | ]. split; [reflexivity | ].
  split.
  { change (row_count s) with (List.length group).
    destruct group; [contradiction | simpl; lia]. }
  split.
  { apply max_date_last.
    - exists rmax. apply rows_of_spec in Hrmax as [Hr Ht]. auto.
    - intros r Hr Ht.
      apply (minimum_maximum_bounds (map s_date group)), in_map.
      apply rows_of_spec. auto. }
  split; [exists rmin; auto | ].
  split.
  { intros r Hr.
    apply (minimum_maximum_bounds (map s_date group)), in_map, Hr. }
  split; [exists rlast; auto | ].
  intros r Hr.
  apply (minimum_maximum_bounds (map created_at group)), in_map, Hr.
Qed.

Lemma summary_counts_add :
  list_sum (map row_count (map (summarise table) (distinct_tickers table)))
  = List.length table.
Proof.
  rewrite map_map.
  apply (row_counts_add table (distinct_tickers table)).
  - apply sorted_tickers_distinct, distinct_tickers_sorted.
  - intros r Hr. apply distinct_tickers_in. exists r. auto.
Qed.

(** Distinct dates between two days are no more than the days. *)
Lemma distinct_dates_bound (l : list Z) (a b : Z) :
  NoDup l -> (forall x, In x l -> a <= x <= b) ->
  Z.of_nat (List.length l) <= Z.max 0 (b - a + 1).
Proof.
  intros Hnodup Hrange.
  assert (Hlen : (List.length (map (fun x => Z.to_nat (x - a)) l)
                  <= List.length (seq 0 (Z.to_nat (b - a + 1))))%nat).
  { apply NoDup_incl_length.
    - clear - Hnodup Hrange. induction Hnodup as [ | x l Hx Hl IH]; simpl.
      + constructor.
      + constructor.
        * intro Hin. apply in_map_iff in Hin as (y & Hy & Hin).
          assert (a <= y <= b) by (apply Hrange; right; exact Hin).
          assert (a <= x <= b) by (apply Hrange; left; reflexivity).
          assert (y = x) by lia. subst y. exact (Hx Hin).
        * apply IH. intros y Hy. apply Hrange. right. exact Hy.
    - intros n Hn. apply in_map_iff in Hn as (x & <- & Hx).
      specialize (Hrange x Hx). apply in_seq. lia. }
  rewrite length_map, length_seq in Hlen. lia.
Qed.

Lemma rows_of_distinct_dates (tk : string) :
  unique_keys table -> NoDup (map s_date (rows_of tk table)).
Proof.
  unfold unique_keys. induction table as [ | r l IH]; simpl; intro Hu.
  - constructor.
  - apply NoDup_cons_iff in Hu as [Hr Hu].
    unfold rows_of. simpl.
    destruct (String.eqb_spec (s_ticker r) tk) as [Ht | Ht];
      [ | apply IH; exact Hu].
    simpl. constructor; [ | apply IH; exact Hu].
    intro Hin. apply in_map_iff in Hin as (r' & Hd & Hr').
    apply filter_In in Hr' as [Hr' Ht']. apply String.eqb_eq in Ht'.
    apply Hr. apply in_map_iff. exists r'. split; [ | exact Hr'].
    unfold stored_key. congruence.
Qed.

End SummaryFacts.

(** X5.  On a working connection [get_available_tickers] returns the
    tickers that have a stored row, each once, in strictly ascending order,
    and leaves the store as it was; a ticker is listed if and only if
    [get_last_date] has a date for it. *)
Theorem get_available_tickers_spec
        (w : DuckDBStorage.World)
        (Hconn : DuckDBStorage.conn w = true)
        (Hfaults : DuckDBStorage.faults w = []) :
  exists tickers,
    DuckDBStorage.get_available_tickers w = (inr tickers, w)
    /\ StronglySorted ticker_lt tickers
    /\ NoDup tickers
    /\ (forall t,
          In t tickers <->
          exists r, In r (DuckDBStorage.stock_prices w)
                    /\ DuckDBStorage.s_ticker r = t)
    /\ (forall t,
          In t tickers <->
          DuckDBStorage.max_date t (DuckDBStorage.stock_prices w) <> None).
Proof.
  eexists. split; [apply get_available_tickers_ok; assumption | ].
  split; [apply distinct_tickers_sorted | ].
  split; [apply sorted_tickers_distinct, distinct_tickers_sorted | ].
  split; intro t.
  - apply distinct_tickers_in.
  - symmetry. apply max_date_in.
Qed.

Lemma get_available_tickers_spec_witness :
  exists tickers,
    DuckDBStorage.get_available_tickers
      (Sample.world [stored_bar "Y" Sample.day 1; stored_bar "X" Sample.day 1;
                     stored_bar "Y" (Sample.day + 1) 1])
    = (inr tickers,
       Sample.world [stored_bar "Y" Sample.day 1; stored_bar "X" Sample.day 1;
                     stored_bar "Y" (Sample.day + 1) 1])
    /\ tickers = ["X"; "Y"].
Proof.
  destruct (get_available_tickers_spec
              (Sample.world [stored_bar "Y" Sample.day 1;
                             stored_bar "X" Sample.day 1;
                             stored_bar "Y" (Sample.day + 1) 1])
              eq_refl eq_refl) as (tickers & Hrun & _).
  exists tickers. split; [exact Hrun | ].
  vm_compute in Hrun. congruence.
Defined.

(** X6.  On a working connection [get_data_summary] has one row per
    ticker of [get_available_tickers], in the same order.  The row of a
    ticker counts its stored rows (at least one), its end date is what
    [get_last_date] answers, its start date is the date of a stored row,
    every stored date of the ticker lies between the two, and
    [last_updated] is the latest [created_at] of its rows.  The row counts
    add up to the size of the table. *)
Theorem get_data_summary_spec
        (w : DuckDBStorage.World)
        (Hconn : DuckDBStorage.conn w = true)
        (Hfaults : DuckDBStorage.faults w = []) :
  exists summary,
    DuckDBStorage.get_data_summary w = (inr summary, w)
    /\ DuckDBStorage.get_available_tickers w
       = (inr (map DuckDBStorage.sum_ticker summary), w)
    /\ (forall s,
          In s summary ->
          let group :=
            rows_of (DuckDBStorage.sum_ticker s)
                    (DuckDBStorage.stock_prices w) in
          DuckDBStorage.row_count s = List.length group
          /\ (0 < DuckDBStorage.row_count s)%nat
          /\ DuckDBStorage.max_date (DuckDBStorage.sum_ticker s)
                                    (DuckDBStorage.stock_prices w)
             = Some (DuckDBStorage.sum_end_date s)
          /\ (exists r, In r group
                        /\ DuckDBStorage.s_date r
                           = DuckDBStorage.sum_start_date s)
          /\ (forall r, In r group ->
                DuckDBStorage.sum_start_date s <= DuckDBStorage.s_date r
                <= DuckDBStorage.sum_end_date s)
          /\ (exists r, In r group
                        /\ DuckDBStorage.created_at r
                           = DuckDBStorage.last_updated s)
          /\ (forall r, In r group ->
                DuckDBStorage.created_at r <= DuckDBStorage.last_updated s))
    /\ list_sum (map DuckDBStorage.row_count summary)
       = List.length (DuckDBStorage.stock_prices w).
Proof.
  eexists. split; [apply get_data_summary_ok; assumption | ].
  split.
  { rewrite get_available_tickers_ok by assumption.
    rewrite map_map. simpl. rewrite map_id. reflexivity. }
  split; [ | apply summary_counts_add].
  intros s Hs. apply in_map_iff in Hs as (tk & <- & Htk).
  destruct (summarise_group (DuckDBStorage.stock_prices w) tk Htk)
    as (_ & H).
  exact H.
Qed.

Lemma get_data_summary_spec_witness :
  exists summary,
    DuckDBStorage.get_data_summary
      (Sample.world [stored_bar "Y" Sample.day 1; stored_bar "X" Sample.day 1;
                     stored_bar "Y" (Sample.day + 2) 1])
    = (inr summary,
       Sample.world [stored_bar "Y" Sample.day 1; stored_bar "X" Sample.day 1;
                     stored_bar "Y" (Sample.day + 2) 1])
    /\ summary
       = [ {| DuckDBStorage.sum_ticker := "X";
              DuckDBStorage.sum_start_date := Sample.day;
              DuckDBStorage.sum_end_date := Sample.day;
              DuckDBStorage.row_count := 1;
              DuckDBStorage.last_updated := 0 |};
           {| DuckDBStorage.sum_ticker := "Y";
              DuckDBStorage.sum_start_date := Sample.day;
              DuckDBStorage.sum_end_date := Sample.day + 2;
              DuckDBStorage.row_count := 2;
              DuckDBStorage.last_updated := 0 |} ].
Proof.
  destruct (get_data_summary_spec
              (Sample.world [stored_bar "Y" Sample.day 1;
                             stored_bar "X" Sample.day 1;
                             stored_bar "Y" (Sample.day + 2) 1])
              eq_refl eq_refl) as (summary & Hrun & _).
  exists summary. split; [exact Hrun | ].
  vm_compute in Hrun. injection Hrun as <-. reflexivity.
Defined.

(** X7.  When no key (ticker, date) is stored twice, which every write
    of the store maintains, the row count of a ticker in the summary is at
    most the number of days from its start date to its end date. *)
Theorem summary_row_count_bound
        (w : DuckDBStorage.World)
        (Hconn : DuckDBStorage.conn w = true)
        (Hfaults : DuckDBStorage.faults w = [])
        (Hunique : unique_keys (DuckDBStorage.stock_prices w)) :
  exists summary,
    DuckDBStorage.get_data_summary w = (inr summary, w)
    /\ forall s,
        In s summary ->
        Z.of_nat (DuckDBStorage.row_count s)
        <= DuckDBStorage.sum_end_date s - DuckDBStorage.sum_start_date s + 1.
Proof.
  eexists. split; [apply get_data_summary_ok; assumption | ].
  intros s Hs. apply in_map_iff in Hs as (tk & <- & Htk).
  destruct (summarise_group (DuckDBStorage.stock_prices w) tk Htk)
    as (_ & Hcount & Hpos & _ & _ & Hrange & _).
  cbv zeta in Hcount, Hrange, Hpos. rewrite Hcount.
  pose proof (distinct_dates_bound
                (map DuckDBStorage.s_date
                     (rows_of tk (DuckDBStorage.stock_prices w)))
                (DuckDBStorage.sum_start_date
                   (DuckDBStorage.summarise (DuckDBStorage.stock_prices w) tk))
                (DuckDBStorage.sum_end_date
                   (DuckDBStorage.summarise (DuckDBStorage.stock_prices w) tk))
                (rows_of_distinct_dates _ tk Hunique)) as Hbound.
  rewrite length_map in Hbound.
  assert (Hin : forall x,
             In x (map DuckDBStorage.s_date
                       (rows_of tk (DuckDBStorage.stock_prices w))) ->
             DuckDBStorage.sum_start_date
               (DuckDBStorage.summarise (DuckDBStorage.stock_prices w) tk)
             <= x
             <= DuckDBStorage.sum_end_date
                  (DuckDBStorage.summarise (DuckDBStorage.stock_prices w) tk)).
  { intros x Hx. apply in_map_iff in Hx as (r & <- & Hr).
    apply Hrange. exact Hr. }
  specialize (Hbound Hin). rewrite Hcount in Hpos. lia.
Qed.

Lemma summary_row_count_bound_witness :
  exists summary,
    DuckDBStorage.get_data_summary (Sample.world small_table)
    = (inr summary, Sample.world small_table)
    /\ forall s,
        In s summary ->
        Z.of_nat (DuckDBStorage.row_count s)
        <= DuckDBStorage.sum_end_date s - DuckDBStorage.sum_start_date s + 1.
Proof.
  apply (summary_row_count_bound (Sample.world small_table)
                                 eq_refl eq_refl).
  repeat constructor; simpl; intuition discriminate.
Defined.

(** ** Edge behaviour of the store *)

Section ClosedConnection.
Import DuckDBStorage.

Lemma execute_closed {A}
      (stmt : list StoredRow -> exn + (A * list StoredRow)) (w : World) :
  conn w = false -> execute stmt w = (inl AttributeError, w).
Proof.
  intro Hc. unfold execute, bind, gets. rewrite Hc. reflexivity.
Qed.

Lemma upsert_data_closed (df : DataFrame) (w : World) :
  conn w = false -> empty df = false ->
  exists e, upsert_data (Some df) w = (inl e, w).
Proof.
  intros Hc Hempty. unfold upsert_data. rewrite Hempty.
  unfold bind at 1, lift_result at 1.
  destruct (column "ticker" df) as [e | []]; [eexists; reflexivity | ].
  unfold try_except.
  unfold bind at 1, lift_result at 1.
  destruct (column "date" df) as [e | []]; [eexists; reflexivity | ].
  unfold bind at 1, lift_result at 1.
  destruct (dates (rows df)) as [e | ds]; [eexists; reflexivity | ].
  unfold bind at 1. rewrite execute_closed by assumption.
  eexists. reflexivity.
Qed.

(** The count that an upsert returns. *)
Lemma upsert_data_count (df : DataFrame) (w w' : World) (n : nat) :
  upsert_data (Some df) w = (inr n, w') ->
  n = (if empty df then 0 else List.length (rows df))%nat.
Proof.
  unfold upsert_data. destruct (empty df).
  { unfold ret. intro H. injection H as <- _. reflexivity. }
  unfold bind at 1, lift_result at 1.
  destruct (column "ticker" df); [discriminate | ].
  unfold try_except.
  unfold bind at 1, lift_result at 1.
  destruct (column "date" df); [discriminate | ].
  unfold bind at 1, lift_result at 1.
  destruct (dates (rows df)) as [e | ds]; [discriminate | ].
  unfold bind at 1.
  destruct (execute _ w) as [[e | []] w1]; [discriminate | ].
  unfold bind at 1, gets at 1. unfold bind at 1.
  destruct (execute (insert_frame (now w1) df) w1)
    as [[e | []] w2]; [discriminate | ].
  unfold ret. intros H. injection H as <- _. reflexivity.
Qed.

Lemma bulk_upsert_entries (data_dict : list (string * option DataFrame)) :
  forall results w,
  exists res w',
    bulk_upsert data_dict results w = (inr (results ++ res), w')
    /\ map fst res = map fst data_dict
    /\ Forall2
         (fun item entry =>
            snd entry = 0%nat
            \/ exists d, snd item = Some d
                         /\ snd entry = List.length (rows d))
         data_dict res
    /\ world_kept w w'.
Proof.
  induction data_dict as [ | [tk df] data_dict IH]; simpl; intros results w.
  - exists [], w. rewrite app_nil_r. repeat split; auto.
  - unfold bind at 1.
    assert (Hfirst : exists n w1,
               match df with
               | Some _ => try_except (upsert_data df) (fun _ => ret 0%nat)
               | None => ret 0%nat
               end w = (inr n, w1)
               /\ (n = 0%nat
                   \/ exists d, df = Some d /\ n = List.length (rows d))
               /\ world_kept w w1).
    { destruct df as [d | ].
      - unfold try_except. pose proof (world_kept_upsert_data (Some d) w) as Hk.
        destruct (upsert_data (Some d) w) as [[e | n] w1] eqn:E.
        + exists 0%nat, w1. split; [reflexivity | ]. split; [left; reflexivity | exact Hk].
        + exists n, w1. split; [reflexivity | ]. split; [ | exact Hk].
          apply upsert_data_count in E. destruct (empty d); [left | right].
          * exact E.
          * exists d. split; [reflexivity | exact E].
      - exists 0%nat, w. split; [reflexivity | ].
        split; [left; reflexivity | reflexivity]. }
    destruct Hfirst as (n & w1 & -> & Hn & Hk1).
    destruct (IH (results ++ [(tk, n)]) w1) as (res & w' & -> & Hkeys & Hall & Hk).
    exists ((tk, n) :: res), w'. rewrite <- app_assoc. split; [reflexivity | ].
    split; [simpl; f_equal; exact Hkeys | ].
    split; [ | etransitivity; eassumption].
    constructor; [exact Hn | exact Hall].
Qed.

(** Item by item: the count of an entry is the number of rows of the
    frame when its upsert returns on a frame that is not empty, and 0 for
    no frame, an empty frame and an upsert that raises; the next item is
    upserted on the store that this one leaves. *)
Lemma bulk_upsert_counts (data_dict : list (string * option DataFrame)) :
  forall results w,
  exists res,
    bulk_upsert data_dict results w
    = (inr (results ++ res), after_upserts data_dict w)
    /\ forall i ticker df,
         nth_error data_dict i = Some (ticker, df) ->
         nth_error res i
         = Some (ticker,
                 reported_count df (after_upserts (firstn i data_dict) w)).
Proof.
  induction data_dict as [ | [tk df] data_dict IH]; intros results w.
  - exists []. rewrite app_nil_r. split; [reflexivity | ].
    intros [ | i] ticker df H; discriminate H.
  - cbn [bulk_upsert]. unfold bind at 1.
    assert (Hfirst :
              match df with
              | Some _ => try_except (upsert_data df) (fun _ => ret 0%nat)
              | None => ret 0%nat
              end w
              = (inr (reported_count df w),
                 after_upserts [(tk, df)] w)).
    { destruct df as [d | ]; [ | reflexivity].
      unfold try_except, after_upserts, reported_count. cbn [fold_left snd].
      destruct (upsert_data (Some d) w) as [[e | n] w1] eqn:E; cbn [fst snd].
      - destruct (empty d) eqn:Hempty; [ | reflexivity].
        unfold upsert_data in E. rewrite Hempty in E. discriminate E.
      - apply upsert_data_count in E. subst n. unfold ret.
        destruct (empty d); reflexivity. }
    rewrite Hfirst.
    destruct (IH (results ++ [(tk, reported_count df w)])
                 (after_upserts [(tk, df)] w)) as (res & Hrun & Hres).
    exists ((tk, reported_count df w) :: res).
    rewrite Hrun, <- app_assoc. split; [reflexivity | ].
    intros [ | i] ticker df0 H.
    + injection H as <- <-. reflexivity.
    + exact (Hres i ticker df0 H).
Qed.

End ClosedConnection.

(** X8.  Without a connection (before [connect], after [close]) no
    operation of the store changes anything: [upsert_data] returns 0 for an
    absent or empty frame and raises for every other frame, and
    [get_last_date], [query_ticker_data], [get_available_tickers] and
    [get_data_summary] raise AttributeError. *)
Theorem storage_without_connection
        (w : DuckDBStorage.World)
        (Hclosed : DuckDBStorage.conn w = false) :
  (forall df,
      none_or_empty df = true ->
      DuckDBStorage.upsert_data df w = (inr 0%nat, w))
  /\ (forall df,
         none_or_empty df = false ->
         exists e, DuckDBStorage.upsert_data df w = (inl e, w))
  /\ (forall ticker,
         DuckDBStorage.get_last_date ticker w = (inl AttributeError, w))
  /\ (forall to_date ticker start_date end_date,
         DuckDBStorage.query_ticker_data
           to_date ticker start_date end_date w
         = (inl AttributeError, w))
  /\ DuckDBStorage.get_available_tickers w = (inl AttributeError, w)
  /\ DuckDBStorage.get_data_summary w = (inl AttributeError, w).
Proof.
  split.
  { intros [d | ] H; simpl in H; unfold DuckDBStorage.upsert_data;
      [rewrite H | ]; reflexivity. }
  split.
  { intros [d | ] H; simpl in H; [ | discriminate].
    apply upsert_data_closed; assumption. }
  repeat split; intros; apply execute_closed; assumption.
Qed.

Lemma storage_without_connection_witness :
  DuckDBStorage.upsert_data (Some two_days) empty_store
  = (inl AttributeError, empty_store)
  /\ DuckDBStorage.get_last_date "X" empty_store
     = (inl AttributeError, empty_store).
Proof.
  destruct (storage_without_connection empty_store eq_refl)
    as (_ & Hupsert & Hlast & _).
  split; [ | apply Hlast].
  destruct (Hupsert (Some two_days) eq_refl) as [e He].
  rewrite He. vm_compute in He. injection He as <-. reflexivity.
Defined.

(** X9.  [bulk_upsert] never raises.  Its result has one entry per
    item of the dictionary, under the same tickers in the same order.  The
    count of an entry is the number of rows of the frame when the frame is
    not empty and its upsert returns; it is 0 when there is no frame, when
    the frame is empty and when the upsert raises.  A frame that fails
    does not stop the frames after it: every frame is upserted on the
    store that the frames before it have left.  The connection stays as
    it was. *)
Theorem bulk_upsert_reports_every_ticker
        (data_dict : list (string * option DataFrame))
        (w : DuckDBStorage.World) :
  exists results,
    DuckDBStorage.bulk_upsert data_dict [] w
    = (inr results, after_upserts data_dict w)
    /\ map fst results = map fst data_dict
    /\ (forall i ticker df,
           nth_error data_dict i = Some (ticker, df) ->
           nth_error results i
           = Some (ticker,
                   reported_count
                     df (after_upserts (firstn i data_dict) w)))
    /\ DuckDBStorage.conn (after_upserts data_dict w) = DuckDBStorage.conn w.
Proof.
  destruct (bulk_upsert_counts data_dict [] w) as (res & Hrun & Hcounts).
  destruct (bulk_upsert_entries data_dict [] w)
    as (res' & w' & Hrun' & Hkeys & _ & Hk & _).
  rewrite Hrun in Hrun'. injection Hrun' as <- <-.
  exists res. auto.
Qed.

Section SummaryOfThePipeline.
Import DuckDBStorage.

Lemma close_set_conn (c : bool) (w : World) :
  close (set_conn c w) = set_conn false w.
Proof. unfold close. destruct c, w; reflexivity. Qed.

Lemma stable_get_data_summary : stable same_table get_data_summary.
Proof.
  apply stable_execute_read. intros t a t' H. injection H as _ <-.
  reflexivity.
Qed.

Lemma stable_get_summary :
  stable same_table IngestionPipeline.get_summary.
Proof.
  unfold IngestionPipeline.get_summary.
  repeat first [ apply stable_connect | apply stable_get_data_summary
               | stable_step ].
  apply stable_modify. intro s. unfold same_table, close. destruct (conn s); reflexivity.
Qed.

End SummaryOfThePipeline.

(** X10.  [get_summary] never raises and never changes the table.  On a
    database that does not fail it returns the summary and leaves the
    connection closed.  When the summary query fails it returns the frame
    without columns and, [close] being inside the [try], leaves the
    connection open. *)
Theorem get_summary_spec (w : DuckDBStorage.World) :
  (exists frame w', IngestionPipeline.get_summary w = (inr frame, w'))
  /\ DuckDBStorage.stock_prices (snd (IngestionPipeline.get_summary w))
     = DuckDBStorage.stock_prices w
  /\ (DuckDBStorage.faults w = [] ->
      IngestionPipeline.get_summary w
      = (inr (Some (map (DuckDBStorage.summarise
                           (DuckDBStorage.stock_prices w))
                        (DuckDBStorage.distinct_tickers
                           (DuckDBStorage.stock_prices w)))),
         DuckDBStorage.set_conn false w))
  /\ (forall e fs,
         DuckDBStorage.conn w = true ->
         DuckDBStorage.faults w = Some e :: fs ->
         IngestionPipeline.get_summary w
         = (inr None, DuckDBStorage.set_faults fs w))
  /\ (forall e fs,
         DuckDBStorage.conn w = false ->
         DuckDBStorage.faults w = None :: None :: None :: None :: Some e :: fs ->
         IngestionPipeline.get_summary w
         = (inr None,
            DuckDBStorage.set_conn true (DuckDBStorage.set_faults fs w))).
Proof.
  split.
  { unfold IngestionPipeline.get_summary, try_except.
    destruct (bind DuckDBStorage.connect _ w) as [[e | frame] w'];
      eexists _, _; reflexivity. }
  split; [apply stable_get_summary | ].
  split.
  { intro Hfaults. unfold IngestionPipeline.get_summary, try_except.
    unfold bind at 1. rewrite connect_ok by assumption.
    unfold bind at 1. rewrite get_data_summary_ok by (destruct w; auto).
    unfold bind, modify, ret. rewrite close_set_conn. reflexivity. }
  split.
  { intros e fs Hconn Hfaults.
    destruct w as [c t f n]. simpl in Hconn, Hfaults. subst c f.
    reflexivity. }
  intros e fs Hconn Hfaults.
  destruct w as [c t f n]. simpl in Hconn, Hfaults. subst c f.
  reflexivity.
Qed.

Lemma get_summary_spec_witness :
  IngestionPipeline.get_summary
    (DuckDBStorage.set_conn false (Sample.world small_table))
  = (inr (Some [ {| DuckDBStorage.sum_ticker := "X";
                    DuckDBStorage.sum_start_date := Sample.day;
                    DuckDBStorage.sum_end_date := Sample.day;
                    DuckDBStorage.row_count := 1;
                    DuckDBStorage.last_updated := 0 |};
                 {| DuckDBStorage.sum_ticker := "Y";
                    DuckDBStorage.sum_start_date := Sample.day;
                    DuckDBStorage.sum_end_date := Sample.day;
                    DuckDBStorage.row_count := 1;
                    DuckDBStorage.last_updated := 0 |} ]),
     DuckDBStorage.set_conn false (Sample.world small_table)).
Proof.
  exact (proj1 (proj2 (proj2 (get_summary_spec
                                (DuckDBStorage.set_conn
                                   false (Sample.world small_table)))))
               eq_refl).
Defined.

(** X11.  The storage as a context manager.  When [__enter__] returns,
    the with statement gives the result or the exception of its body and
    ends with the connection closed.  When [__enter__] raises, the body
    does not run and [__exit__] is not called: if it is the schema
    statement that failed, after [duckdb.connect] succeeded, the connection
    is left open. *)
Theorem with_storage_closes {A} (body : M DuckDBStorage.World A)
        (w : DuckDBStorage.World) :
  (forall w0,
      DuckDBStorage.connect w = (inr tt, w0) ->
      DuckDBStorage.with_storage body w
      = (fst (body w0), DuckDBStorage.close (snd (body w0)))
      /\ DuckDBStorage.conn (snd (DuckDBStorage.with_storage body w)) = false)
  /\ (forall e w0,
         DuckDBStorage.connect w = (inl e, w0) ->
         DuckDBStorage.with_storage body w = (inl e, w0))
  /\ (forall e fs,
         DuckDBStorage.conn w = false ->
         DuckDBStorage.faults w = None :: Some e :: fs ->
         DuckDBStorage.with_storage body w
         = (inl e,
            DuckDBStorage.set_conn true (DuckDBStorage.set_faults fs w))).
Proof.
  assert (Hfail : forall e w0,
             DuckDBStorage.connect w = (inl e, w0) ->
             DuckDBStorage.with_storage body w = (inl e, w0)).
  { intros e w0 Hc.
    unfold DuckDBStorage.with_storage, DuckDBStorage.__enter__, bind.
    rewrite Hc. reflexivity. }
  split.
  { intros w0 Hc.
    assert (Hrun : DuckDBStorage.with_storage body w
                   = (fst (body w0), DuckDBStorage.close (snd (body w0)))).
    { unfold DuckDBStorage.with_storage, DuckDBStorage.__enter__, bind.
      rewrite Hc. unfold try_finally, DuckDBStorage.__exit__.
      destruct (body w0); reflexivity. }
    split; [exact Hrun | ]. rewrite Hrun. apply close_conn. }
  split; [exact Hfail | ].
  intros e fs Hconn Hfaults. apply Hfail.
  destruct w as [c t f n]. simpl in Hconn, Hfaults. subst c f.
  reflexivity.
Qed.

Lemma with_storage_closes_witness :
  DuckDBStorage.with_storage
    (DuckDBStorage.get_last_date "X")
    (DuckDBStorage.set_conn false (Sample.world small_table))
  = (inr (Some Sample.day),
     DuckDBStorage.set_conn false (Sample.world small_table)).
Proof.
  exact (proj1 (proj1 (with_storage_closes
                         (DuckDBStorage.get_last_date "X")
                         (DuckDBStorage.set_conn
                            false (Sample.world small_table)))
                      (Sample.world small_table) eq_refl)).
Defined.

(** ** What the validator accepts *)

Section FloatFacts.

Lemma SFcompare_numbers (x y : float64) :
  is_nan x = false -> is_nan y = false -> exists c, SFcompare x y = Some c.
Proof.
  destruct x as [sx | sx | | sx mx ex], y as [sy | sy | | sy my ey];
    simpl; intros; try discriminate;
    repeat match goal with
           | |- context [if ?b then _ else _] => destruct b
           end; eauto.
Qed.

Lemma not_flt_fge (x y : float64) :
  flt x y = false -> is_nan x = false -> is_nan y = false -> fge x y = true.
Proof.
  unfold flt, fge, SFltb, SFleb. intros Hlt Hx Hy.
  rewrite SFcompare_antisym.
  destruct (SFcompare_numbers x y Hx Hy) as [c Hc]. rewrite Hc in *.
  destruct c; simpl; congruence.
Qed.

Lemma not_flt0_fge0 (x : float64) :
  flt0 x = false -> is_nan x = false -> fge0 x = true.
Proof. intros H Hx. apply (not_flt_fge x zero); auto. Qed.

Lemma not_ilt0_ige0 (v : option Z) :
  ilt0 v = false -> is_null v = false -> ige0 v = true.
Proof.
  destruct v as [n | ]; simpl; [ | discriminate].
  intros H _. apply Z.ltb_ge in H. apply Z.leb_le. exact H.
Qed.

End FloatFacts.

Section SchemaFacts.
Import DataValidator.

Lemma append_if_app {A} (c : bool) (e : A) (l : list A) :
  append_if c e l = l ++ (if c then [e] else []).
Proof. destruct c; simpl; [reflexivity | symmetry; apply app_nil_r]. Qed.

(** The errors of the schema pass, check by check. *)
Lemma validate_schema_errors (df : DataFrame) :
  empty df = false ->
  validate_schema (Some df)
  = (let errors :=
       (let missing :=
          filter (fun c => negb (has_column c df)) required_columns in
        if truthy missing then [MissingRequiredColumns missing] else [])
       ++ (if has_column "ticker" df
              && negb (column_is is_string_dtype "ticker" df)
           then [TickerNotString] else [])
       ++ (if has_column "date" df then
             match to_datetime_error df with
             | Some e => [DateNotValid e]
             | None => []
             end
           else [])
       ++ flat_map
            (fun col => if has_column col df
                           && negb (column_is is_numeric_dtype col df)
                        then [ColumnNotNumeric col] else [])
            numeric_columns in
     (negb (truthy errors), errors)).
Proof.
  intro Hempty. unfold validate_schema. rewrite Hempty.
  cbn [fold_left price_cols numeric_columns flat_map app].
  rewrite !append_if_app. cbv zeta.
  assert (Heq : forall a b : list schema_error,
             a = b -> (negb (truthy a), a) = (negb (truthy b), b))
    by (intros a b ->; reflexivity).
  apply Heq.
  destruct (has_column "date" df); [destruct (to_datetime_error df) | ];
    simpl app; rewrite ?app_nil_r, <- ?app_assoc; reflexivity.
Qed.

Lemma one_if_nil {A} (c : bool) (e : A) :
  (if c then [e] else []) = [] <-> c = false.
Proof. destruct c; split; congruence. Qed.

Lemma flat_map_nil {A B} (f : A -> list B) (l : list A) :
  flat_map f l = [] <-> forall x, In x l -> f x = [].
Proof.
  induction l as [ | a l IH]; simpl.
  - split; [intros _ x [] | reflexivity].
  - split.
    + intros H. apply app_eq_nil in H as [Ha Hl]. intros x [<- | Hx]; auto.
      apply IH; assumption.
    + intros H. rewrite (H a) by (left; reflexivity). apply IH.
      intros x Hx. apply H. right. exact Hx.
Qed.

Lemma validate_schema_ok (df : DataFrame) :
  fst (validate_schema (Some df)) = true <-> schema_ok df.
Proof.
  destruct (empty df) eqn:Hempty.
  { unfold validate_schema. rewrite Hempty. simpl.
    split; [discriminate | ]. intros [H _]. congruence. }
  rewrite (validate_schema_errors df Hempty). cbv zeta. cbn [fst].
  rewrite negb_true_iff, truthy_false.
  split.
  - intro H.
    apply app_eq_nil in H as [Hmissing H].
    apply app_eq_nil in H as [Hticker H].
    apply app_eq_nil in H as [Hdate Hnumeric].
    apply one_if_nil, truthy_false in Hmissing.
    apply no_missing_columns in Hmissing.
    pose proof (proj1 (has_columns_spec _ df) Hmissing) as Hcol.
    rewrite Hcol in Hticker, Hdate by (simpl; tauto).
    apply one_if_nil in Hticker. simpl in Hticker.
    apply negb_false_iff in Hticker.
    split; [exact Hempty | ]. split; [exact Hmissing | ].
    split; [exact Hticker | ].
    split; [destruct (to_datetime_error df); [discriminate | reflexivity] | ].
    intros c Hc.
    pose proof (proj1 (flat_map_nil _ _) Hnumeric c Hc) as Hnum.
    apply one_if_nil in Hnum.
    rewrite Hcol in Hnum
      by (unfold numeric_columns in Hc; simpl in Hc |- *; tauto).
    simpl in Hnum. apply negb_false_iff in Hnum. exact Hnum.
  - intros (_ & Hcols & Hticker & Hdate & Hnumeric).
    rewrite (proj2 (flat_map_nil _ _))
      by (intros c Hc; rewrite (Hnumeric c Hc), andb_false_r; reflexivity).
    rewrite (proj2 (no_missing_columns df _) Hcols), Hticker, Hdate.
    rewrite andb_false_r. destruct (has_column "date" df); reflexivity.
Qed.

End SchemaFacts.



Section QualityFacts.
Import DataValidator.
Variable settings : Config.Settings.

Lemma append_if_warn (k : nat) (w : nat -> quality_warning)
      (l : list quality_warning) :
  append_if (0 <? k)%nat (w k) l = l ++ warn_if_any k w.
Proof. unfold warn_if_any. apply append_if_app. Qed.

Lemma validate_data_quality_warnings (df : DataFrame) :
  empty df = false -> has_required_columns df ->
  to_datetime_error df = None -> numeric_cells df ->
  validate_data_quality settings (Some df)
  = inr (negb (truthy (quality_warnings settings df)),
         quality_warnings settings df).
Proof.
  intros Hempty Hcols Hdate Hnum.
  unfold validate_data_quality. rewrite Hempty.
  rewrite (text_columns_numeric df Hnum). cbn [truthy].
  rewrite (proj2 (no_missing_columns df _) Hcols), Hdate.
  pose proof (proj1 (has_columns_spec _ df) Hcols) as Hcol.
  cbn [fold_left price_cols required_columns].
  rewrite !Hcol by (simpl; tauto). cbn [andb].
  rewrite !append_if_warn, append_if_app.
  assert (Heq : forall a b : list quality_warning,
             a = b -> @inr exn _ (negb (truthy a), a)
                      = inr (negb (truthy b), b))
    by (intros a b ->; reflexivity).
  unfold quality_warnings.
  cbn [flat_map price_cols required_columns].
  destruct (1 <? List.length (rows df))%nat; apply Heq;
    rewrite ?append_if_warn; simpl app;
    rewrite ?app_nil_r, <- ?app_assoc; reflexivity.
Qed.

Lemma count_none {A} (p : A -> bool) (l : list A) :
  count p l = 0%nat <-> forall x, In x l -> p x = false.
Proof.
  unfold count. induction l as [ | a l IH]; simpl.
  - split; [intros _ x [] | reflexivity].
  - destruct (p a) eqn:E; simpl.
    + split; [discriminate | ]. intro H.
      rewrite (H a) in E by (left; reflexivity). discriminate.
    + rewrite IH. split.
      * intros H x [<- | Hx]; auto.
      * intros H x Hx. apply H. right. exact Hx.
Qed.

Lemma warn_if_any_nil (k : nat) (w : nat -> quality_warning) :
  warn_if_any k w = [] <-> k = 0%nat.
Proof.
  unfold warn_if_any. destruct k; simpl; split; congruence.
Qed.

(** A row without a negative value, an inverted range or a missing
    cell is a row that [filter_invalid_rows] keeps. *)
Lemma row_ok_clean (r : Row) :
  row_ok r = true <->
  (forall col, In col price_cols -> flt0 (price col r) = false)
  /\ ilt0 (volume r) = false
  /\ flt (high r) (low r) = false
  /\ (forall col, In col required_columns -> cell_isnull col r = false).
Proof.
  split.
  - intro Hok. pose proof (row_ok_no_nan r Hok) as Hnan.
    unfold has_nan in Hnan. repeat (apply orb_false_iff in Hnan as [Hnan ?]).
    destruct (row_ok_sound r Hok)
      as (Ho & Hh & Hl & Hc & Ha & Hv & Hhl & Ht & Hd & Hcn).
    split; [ | split; [exact Hv | split; [exact Hhl | ]]].
    + intros col Hcol. simpl in Hcol.
      repeat (destruct Hcol as [<- | Hcol]; [assumption | ]).
      contradiction.
    + intros col Hcol. simpl in Hcol.
      repeat (destruct Hcol as [<- | Hcol];
              [unfold cell_isnull, price; simpl;
               try assumption;
               try (destruct (ticker r); [reflexivity | congruence]);
               try (destruct (date r); [reflexivity | congruence]) | ]).
      contradiction.
  - intros (Hneg & Hvol & Hhl & Hnull).
    assert (Hp : forall col, In col price_cols ->
                   fge0 (price col r) = true).
    { intros col Hcol. apply not_flt0_fge0; [apply Hneg; exact Hcol | ].
      assert (Hreq : In col required_columns)
        by (simpl in Hcol |- *; tauto).
      specialize (Hnull col Hreq). simpl in Hcol.
      repeat (destruct Hcol as [<- | Hcol]; [exact Hnull | ]).
      contradiction. }
    pose proof (Hp "open") as Ho. pose proof (Hp "high") as Hh.
    pose proof (Hp "low") as Hl. pose proof (Hp "close") as Hc.
    pose proof (Hp "adj_close") as Ha.
    pose proof (Hnull "ticker") as Ht. pose proof (Hnull "date") as Hd.
    pose proof (Hnull "volume") as Hv.
    unfold price, cell_isnull in *. simpl in *.
    unfold row_ok.
    rewrite Ho, Hh, Hl, Hc, Ha by tauto.
    rewrite (not_ilt0_ige0 _ Hvol) by tauto.
    rewrite (not_flt_fge _ _ Hhl)
      by (apply fge0_not_nan; first [apply Hh | apply Hl]; tauto).
    rewrite Ht, Hd by tauto.
    rewrite (fge0_not_nan _ (Hc ltac:(tauto))). reflexivity.
Qed.

End QualityFacts.

Section DuplicateFacts.
Import DataValidator.

Lemma same_key_spec (r1 r2 : Row) :
  same_key r1 r2 = true <-> row_key r1 = row_key r2.
Proof.
  unfold same_key, row_key. rewrite andb_true_iff.
  assert (Ht : match ticker r1, ticker r2 with
               | Some a, Some b => String.eqb a b
               | None, None => true
               | _, _ => false
               end = true <-> ticker r1 = ticker r2).
  { destruct (ticker r1) as [a | ], (ticker r2) as [b | ];
      rewrite ?String.eqb_eq; split; congruence. }
  assert (Hd : match date r1, date r2 with
               | Some a, Some b => a =? b
               | None, None => true
               | _, _ => false
               end = true <-> date r1 = date r2).
  { destruct (date r1) as [a | ], (date r2) as [b | ];
      rewrite ?Z.eqb_eq; split; congruence. }
  rewrite Ht, Hd. split; [intros [-> ->]; reflexivity | ].
  intro H. injection H. auto.
Qed.

Lemma seen_key (r : Row) (seen : list Row) :
  existsb (same_key r) seen = true <-> In (row_key r) (map row_key seen).
Proof.
  rewrite existsb_exists, in_map_iff. split.
  - intros (x & Hx & Hk). exists x. apply same_key_spec in Hk. auto.
  - intros (x & Hk & Hx). exists x. split; [exact Hx | ].
    apply same_key_spec. auto.
Qed.

Lemma duplicated_none (rs : list Row) :
  forall seen,
    duplicated seen rs = 0%nat <->
    NoDup (map row_key rs)
    /\ forall r, In r rs -> ~ In (row_key r) (map row_key seen).
Proof.
  induction rs as [ | r rs IH]; intro seen; simpl.
  - split; [intros _; split; [constructor | intros r []] | reflexivity].
  - rewrite Nat.eq_add_0, IH, NoDup_cons_iff.
    pose proof (seen_key r seen) as Hseen.
    destruct (existsb (same_key r) seen).
    + split; [intros [H _]; discriminate | ].
      intros [_ H]. exfalso. apply (H r); [left; reflexivity | ].
      apply Hseen. reflexivity.
    + assert (Hr : ~ In (row_key r) (map row_key seen))
        by (intro H; apply Hseen in H; discriminate).
      split.
      * intros [_ [Hnodup Hfresh]]. split; [split; [ | exact Hnodup] | ].
        -- intro Hin. apply in_map_iff in Hin as (r' & Hk & Hr').
           apply (Hfresh r' Hr'). simpl. left. auto.
        -- intros r' [<- | Hr']; [exact Hr | ].
           intro Hin. apply (Hfresh r' Hr'). simpl. right. exact Hin.
      * intros [[Hnew Hnodup] Hfresh].
        split; [reflexivity | split; [exact Hnodup | ]].
        intros r' Hr' [Hk | Hin].
        -- apply Hnew. rewrite Hk. apply in_map. exact Hr'.
        -- apply (Hfresh r'); [right; exact Hr' | exact Hin].
Qed.

End DuplicateFacts.

Section GapFacts.
Import DataValidator.

Lemma insert_sorted_in (d x : Z) (l : list Z) :
  In x (insert_sorted d l) <-> x = d \/ In x l.
Proof.
  induction l as [ | y l IH]; simpl.
  - intuition.
  - destruct (d <=? y); simpl; [intuition | ]. rewrite IH. intuition.
Qed.

Lemma sorted_dates_in (d : Z) (rs : list Row) :
  In d (sorted_dates rs) <-> In d (present_dates rs).
Proof.
  induction rs as [ | r rs IH]; simpl; [reflexivity | ].
  destruct (date r) as [d0 | ]; simpl; [ | exact IH].
  rewrite insert_sorted_in, IH. intuition.
Qed.

Lemma insert_sorted_ascending (d : Z) (l : list Z) :
  StronglySorted Z.le l -> StronglySorted Z.le (insert_sorted d l).
Proof.
  induction 1 as [ | y l Hl IH Hy]; simpl.
  - constructor; constructor.
  - destruct (d <=? y) eqn:E.
    + apply Z.leb_le in E. constructor; [constructor; assumption | ].
      constructor; [exact E | ].
      rewrite Forall_forall in *. intros z Hz. specialize (Hy z Hz). lia.
    + apply Z.leb_gt in E. constructor; [exact IH | ].
      rewrite Forall_forall in *. intros z Hz.
      apply insert_sorted_in in Hz as [-> | Hz]; [lia | auto].
Qed.

Lemma sorted_dates_ascending (rs : list Row) :
  StronglySorted Z.le (sorted_dates rs).
Proof.
  induction rs as [ | r rs IH]; simpl; [constructor | ].
  destruct (date r); [apply insert_sorted_ascending | ]; exact IH.
Qed.

Lemma gap_free_same (l l' : list Z) :
  (forall d, In d l <-> In d l') -> gap_free l -> gap_free l'.
Proof.
  intros Hsame Hl d Hd. apply Hsame in Hd.
  destruct (Hl d Hd) as [Hmax | (d' & Hd' & Hnext)].
  - left. intros d' Hd'. apply Hmax, Hsame, Hd'.
  - right. exists d'. split; [apply Hsame, Hd' | exact Hnext].
Qed.

Lemma large_gaps_none (l : list Z) :
  StronglySorted Z.le l -> (large_gaps l = 0%nat <-> gap_free l).
Proof.
  induction 1 as [ | a l Hl IH Ha].
  - simpl. split; [intros _ d [] | reflexivity].
  - rewrite Forall_forall in Ha.
    destruct l as [ | b l].
    + simpl. split; [ | reflexivity]. intros _ d [<- | []]. left.
      intros d' [<- | []]. lia.
    + change (large_gaps (a :: b :: l))
        with ((if (7 <? b - a)%Z then 1 else 0) + large_gaps (b :: l))%nat.
      rewrite Nat.eq_add_0, IH.
      assert (Hab : a <= b) by (apply Ha; left; reflexivity).
      split.
      * intros [Hgap Hfree].
        assert (Hclose : b - a <= 7)
          by (destruct (7 <? b - a) eqn:E;
              [discriminate | apply Z.ltb_ge in E; exact E]).
        assert (Hrest : forall d, In d (b :: l) ->
                  (forall d', In d' (a :: b :: l) -> d' <= d)
                  \/ exists d', In d' (a :: b :: l) /\ d < d' <= d + 7).
        { intros d Hd. destruct (Hfree d Hd) as [Hmax | (d' & Hd' & Hn)].
          - left. intros d' [<- | Hd']; [ | apply Hmax, Hd'].
            specialize (Ha d Hd). lia.
          - right. exists d'. split; [right; exact Hd' | exact Hn]. }
        intros d [<- | Hd]; [ | apply Hrest, Hd].
        destruct (Z.eq_dec a b) as [Heq | Hne].
        -- subst a. apply Hrest. left. reflexivity.
        -- right. exists b. split; [right; left; reflexivity | lia].
      * intro Hfree. split.
        -- destruct (7 <? b - a) eqn:E; [ | reflexivity].
           apply Z.ltb_lt in E. exfalso.
           destruct (Hfree a (or_introl eq_refl))
             as [Hmax | (d' & [<- | Hd'] & Hn)].
           ++ specialize (Hmax b (or_intror (or_introl eq_refl))). lia.
           ++ lia.
           ++ inversion Hl as [ | x y Hl' Hb]; subst.
              rewrite Forall_forall in Hb.
              destruct Hd' as [<- | Hd']; [lia | ].
              specialize (Hb d' Hd'). lia.
        -- intros d Hd.
           destruct (Hfree d (or_intror Hd))
             as [Hmax | (d' & [<- | Hd'] & Hn)].
           ++ left. intros d' Hd'. apply Hmax. right. exact Hd'.
           ++ specialize (Ha d Hd). lia.
           ++ right. exists d'. auto.
Qed.

Lemma few_rows_gap_free (rs : list Row) :
  (List.length rs <= 1)%nat -> gap_free (present_dates rs).
Proof.
  destruct rs as [ | r [ | r' rs]]; simpl; intro Hlen; try lia.
  - intros d [].
  - destruct (date r) as [d0 | ]; simpl; [ | intros d []].
    intros d [<- | []]. left. intros d' [<- | []]. lia.
Qed.

End GapFacts.

Section ValidFrames.
Import DataValidator.
Variable settings : Config.Settings.

Lemma no_warnings_app (l l' : list quality_warning) :
  l ++ l' = [] <-> l = [] /\ l' = [].
Proof.
  split; [apply app_eq_nil | intros [-> ->]; reflexivity].
Qed.

Lemma quality_warnings_nil (df : DataFrame) :
  quality_warnings settings df = [] <-> quality_ok settings (rows df).
Proof.
  unfold quality_warnings, quality_ok.
  rewrite !no_warnings_app, !flat_map_nil, !warn_if_any_nil.
  rewrite !count_none.
  rewrite (duplicated_none (rows df) []).
  assert (Hsize : (if Z.of_nat (List.length (rows df))
                      <? Config.min_data_points settings
                   then [InsufficientData
                           (List.length (rows df))
                           (Config.min_data_points settings)]
                   else []) = []
                  <-> Config.min_data_points settings
                      <= Z.of_nat (List.length (rows df))).
  { destruct (Z.ltb_spec (Z.of_nat (List.length (rows df)))
                         (Config.min_data_points settings));
      split; intros; try discriminate; try lia; reflexivity. }
  assert (Hgaps : (if (1 <? List.length (rows df))%nat
                   then warn_if_any
                          (large_gaps (sorted_dates (rows df))) DateGaps
                   else []) = []
                  <-> gap_free (present_dates (rows df))).
  { destruct (Nat.ltb_spec 1 (List.length (rows df))).
    - rewrite warn_if_any_nil,
        (large_gaps_none _ (sorted_dates_ascending (rows df))).
      split; apply gap_free_same; intro d;
        [ | symmetry]; apply sorted_dates_in.
    - split; [ | reflexivity]. intros _. apply few_rows_gap_free. lia. }
  rewrite Hsize, Hgaps.
  split.
  - intros (Hmin & Hneg & Hvol & Hhl & Hnull & [Hdup _] & Hfree).
    split; [exact Hmin | ]. split; [ | split; assumption].
    intros r Hr. apply row_ok_clean.
    split; [intros col Hcol | split; [apply Hvol, Hr | split]].
    + pose proof (Hneg col Hcol) as H. apply warn_if_any_nil in H.
      exact (proj1 (count_none _ _) H r Hr).
    + apply Hhl, Hr.
    + intros col Hcol. pose proof (Hnull col Hcol) as H.
      apply warn_if_any_nil in H. exact (proj1 (count_none _ _) H r Hr).
  - intros (Hmin & Hok & Hdup & Hfree).
    split; [exact Hmin | ].
    split.
    { intros col Hcol. apply warn_if_any_nil, count_none. intros r Hr.
      apply (proj1 (row_ok_clean r) (Hok r Hr)). exact Hcol. }
    split; [intros r Hr; apply (proj1 (row_ok_clean r) (Hok r Hr)) | ].
    split; [intros r Hr; apply (proj1 (row_ok_clean r) (Hok r Hr)) | ].
    split.
    { intros col Hcol. apply warn_if_any_nil, count_none. intros r Hr.
      apply (proj1 (row_ok_clean r) (Hok r Hr)). exact Hcol. }
    split; [ | exact Hfree]. split; [exact Hdup | ]. intros r _ [].
Qed.

Lemma validate_schema_ok_eq (df : DataFrame) :
  schema_ok df -> validate_schema (Some df) = (true, []).
Proof.
  intro Hok. pose proof (validate_schema_flag (Some df)) as Hflag.
  apply validate_schema_ok in Hok.
  destruct (validate_schema (Some df)) as [flag errs]. simpl in *.
  subst flag. symmetry in Hflag. apply negb_true_iff, truthy_false in Hflag.
  subst errs. reflexivity.
Qed.

(** [validate] on a frame that passes the schema. *)
Lemma validate_schema_ok_run (df : DataFrame) :
  schema_ok df ->
  validate settings (Some df)
  = inr (negb (truthy (quality_warnings settings df)), [],
         quality_warnings settings df).
Proof.
  intro Hok. unfold validate. rewrite (validate_schema_ok_eq df Hok).
  pose proof (schema_ok_numeric df Hok) as Hnum.
  destruct Hok as (Hempty & Hcols & _ & Hdate & _).
  rewrite (validate_data_quality_warnings settings df Hempty Hcols Hdate
                                          Hnum).
  reflexivity.
Qed.


End ValidFrames.


Section FilteredFrames.
Import DataValidator.
Variable settings : Config.Settings.




End FilteredFrames.




Section RowOrder.
Import DataValidator.

Lemma count_order {A} (p : A -> bool) (l l' : list A) :
  Permutation l l' -> count p l = count p l'.
Proof.
  unfold count. induction 1 as [ | x l l' _ IH | x y l | l l' l'' _ IH1 _ IH2];
    simpl.
  - reflexivity.
  - destruct (p x); simpl; congruence.
  - destruct (p x), (p y); reflexivity.
  - congruence.
Qed.

Lemma same_key_seen (a b : Row) (seen : list Row) :
  same_key a b = true ->
  existsb (same_key a) seen = existsb (same_key b) seen.
Proof.
  intro Hab. apply same_key_spec in Hab.
  apply eq_true_iff_eq. rewrite !seen_key, Hab. reflexivity.
Qed.

Lemma same_key_sym (a b : Row) : same_key a b = same_key b a.
Proof.
  apply eq_true_iff_eq. rewrite !same_key_spec. split; congruence.
Qed.

Lemma duplicated_seen (rs : list Row) :
  forall s1 s2,
    (forall r, existsb (same_key r) s1 = existsb (same_key r) s2) ->
    duplicated s1 rs = duplicated s2 rs.
Proof.
  induction rs as [ | r rs IH]; intros s1 s2 Hsame; simpl; [reflexivity | ].
  rewrite (Hsame r). f_equal. apply IH. intro r'. simpl.
  rewrite (Hsame r'). reflexivity.
Qed.

Lemma duplicated_order (l l' : list Row) :
  Permutation l l' -> forall seen, duplicated seen l = duplicated seen l'.
Proof.
  induction 1 as [ | x l l' _ IH | x y l | l l' l'' _ IH1 _ IH2];
    intro seen; simpl.
  - reflexivity.
  - rewrite IH. reflexivity.
  - rewrite (duplicated_seen l (x :: y :: seen) (y :: x :: seen))
      by (intro r; simpl; rewrite !orb_assoc,
                            (orb_comm (same_key r x)); reflexivity).
    rewrite !Nat.add_assoc. f_equal.
    rewrite (same_key_sym x y).
    destruct (same_key y x) eqn:Hyx; simpl.
    + rewrite (same_key_seen y x seen Hyx).
      destruct (existsb (same_key x) seen); reflexivity.
    + apply Nat.add_comm.
  - rewrite IH1. apply IH2.
Qed.

Lemma insert_sorted_swap (a b : Z) (l : list Z) :
  insert_sorted a (insert_sorted b l) = insert_sorted b (insert_sorted a l).
Proof.
  induction l as [ | x l IH]; simpl.
  - destruct (Z.leb_spec a b), (Z.leb_spec b a); try reflexivity; try lia.
    assert (a = b) by lia. subst. reflexivity.
  - destruct (Z.leb_spec b x), (Z.leb_spec a x); simpl;
      repeat match goal with
             | |- context [?u <=? ?v] => destruct (Z.leb_spec u v)
             end; try reflexivity; try lia.
    + assert (a = b) by lia. subst. reflexivity.
    + rewrite IH. reflexivity.
Qed.

Lemma sorted_dates_order (l l' : list Row) :
  Permutation l l' -> sorted_dates l = sorted_dates l'.
Proof.
  induction 1 as [ | x l l' _ IH | x y l | l l' l'' _ IH1 _ IH2]; simpl.
  - reflexivity.
  - rewrite IH. reflexivity.
  - destruct (date x), (date y); try reflexivity.
    apply insert_sorted_swap.
  - congruence.
Qed.

Lemma empty_order (df : DataFrame) (rs : list Row) :
  Permutation (rows df) rs -> empty (with_rows df rs) = empty df.
Proof.
  intro Hperm. unfold empty. simpl.
  destruct (rows df) as [ | r l] eqn:E.
  - apply Permutation_nil in Hperm. subst rs. reflexivity.
  - destruct rs; [ | reflexivity].
    apply Permutation_sym, Permutation_nil in Hperm. discriminate.
Qed.

Lemma validate_schema_order (df : DataFrame) (rs : list Row) :
  Permutation (rows df) rs ->
  validate_schema (Some (with_rows df rs)) = validate_schema (Some df).
Proof.
  intro Hperm. unfold validate_schema. rewrite (empty_order df rs Hperm).
  reflexivity.
Qed.

Lemma missing_cells_order (col : string) (rs rs' : list Row) :
  Permutation rs rs' ->
  forallb (cell_isnull col) rs = forallb (cell_isnull col) rs'.
Proof.
  induction 1 as [ | r l l' _ IH | r r' l | l l' l'' _ IH1 _ IH2];
    cbn [forallb].
  - reflexivity.
  - rewrite IH. reflexivity.
  - rewrite !andb_assoc, (andb_comm (cell_isnull col r')). reflexivity.
  - congruence.
Qed.

Lemma text_columns_order (df : DataFrame) (rs : list Row) :
  Permutation (rows df) rs ->
  text_columns (with_rows df rs) = text_columns df.
Proof.
  intro Hperm. unfold text_columns. apply filter_ext. intro c.
  unfold orderable.
  change (rows (with_rows df rs)) with rs.
  change (has_column c (with_rows df rs)) with (has_column c df).
  change (column_is is_numeric_dtype c (with_rows df rs))
    with (column_is is_numeric_dtype c df).
  rewrite (missing_cells_order c _ _ Hperm). reflexivity.
Qed.

Lemma validate_data_quality_order (settings : Config.Settings)
      (df : DataFrame) (rs : list Row) :
  Permutation (rows df) rs ->
  validate_data_quality settings (Some (with_rows df rs))
  = validate_data_quality settings (Some df).
Proof.
  intro Hperm. unfold validate_data_quality.
  rewrite (empty_order df rs Hperm), (text_columns_order df rs Hperm).
  change (rows (with_rows df rs)) with rs.
  change (to_datetime_error (with_rows df rs)) with (to_datetime_error df).
  change (has_column ?c (with_rows df rs)) with (has_column c df).
  cbn [fold_left price_cols required_columns].
  rewrite <- !(count_order _ _ _ Hperm).
  rewrite <- (duplicated_order _ _ Hperm).
  rewrite <- (sorted_dates_order _ _ Hperm).
  rewrite <- (Permutation_length Hperm).
  reflexivity.
Qed.

End RowOrder.

(** X15.  The verdict of [validate] (flag, errors, warnings with their
    counts, or the exception) does not depend on the order of the rows of
    the frame. *)
Theorem validate_row_order
        (settings : Config.Settings) (df : DataFrame) (rs : list Row)
        (Hperm : Permutation (rows df) rs) :
  DataValidator.validate settings (Some (with_rows df rs))
  = DataValidator.validate settings (Some df).
Proof.
  unfold DataValidator.validate.
  rewrite (validate_schema_order df rs Hperm),
    (validate_data_quality_order settings df rs Hperm).
  reflexivity.
Qed.

Lemma validate_row_order_witness :
  DataValidator.validate
    Sample.settings
    (Some (Sample.frame [Sample.bar "X" (Sample.day + 9) 6;
                         Sample.bar "X" Sample.day 5]))
  = DataValidator.validate
      Sample.settings
      (Some (Sample.frame [Sample.bar "X" Sample.day 5;
                           Sample.bar "X" (Sample.day + 9) 6])).
Proof.
  apply (validate_row_order
           Sample.settings
           (Sample.frame [Sample.bar "X" Sample.day 5;
                          Sample.bar "X" (Sample.day + 9) 6])
           [Sample.bar "X" (Sample.day + 9) 6; Sample.bar "X" Sample.day 5]).
  apply perm_swap.
Defined.

(** ** What the downloader returns *)

Section DownloadedFrames.
Import StockDataDownloader.

Lemma has_column_in (c : string) (df : DataFrame) :
  has_column c df = true <-> In c (map fst (columns df)).
Proof.
  unfold has_column. rewrite existsb_exists, in_map_iff. split.
  - intros (x & Hx & Hc). apply String.eqb_eq in Hc. exists x. auto.
  - intros (x & Hc & Hx). exists x. split; [exact Hx | ].
    apply String.eqb_eq. auto.
Qed.

Lemma lookup_column_none (c : string) (cs : list (string * column_info)) :
  existsb (fun x => String.eqb c (fst x)) cs = false ->
  lookup_column c cs = None.
Proof.
  induction cs as [ | [c0 i] cs IH]; simpl; [reflexivity | ].
  destruct (String.eqb c c0); simpl; [discriminate | exact IH].
Qed.

Lemma lookup_assign_ticker (t : string) (df : DataFrame) :
  lookup_column "ticker" (columns (assign_ticker t df))
  = Some object_of_str.
Proof.
  unfold assign_ticker. cbn [columns].
  destruct (has_column "ticker" df) eqn:Hcol; unfold has_column in Hcol.
  - induction (columns df) as [ | [c0 i] cs IH]; [discriminate | ].
    cbn [map fst snd lookup_column existsb] in *.
    rewrite (String.eqb_sym c0 "ticker").
    destruct (String.eqb "ticker" c0) eqn:E.
    + cbn [lookup_column]. rewrite E. reflexivity.
    + cbn [lookup_column]. rewrite E. apply IH. exact Hcol.
  - induction (columns df) as [ | [c0 i] cs IH]; [reflexivity | ].
    cbn [app lookup_column existsb fst] in *.
    destruct (String.eqb "ticker" c0); [discriminate | ].
    apply IH. exact Hcol.
Qed.

Lemma lookup_rename (c old new : string) (df : DataFrame) :
  c <> old -> c <> new ->
  lookup_column c (columns (rename df (old, new)))
  = lookup_column c (columns df).
Proof.
  intros Hold Hnew. unfold rename, set_columns. cbn [columns fst snd].
  induction (columns df) as [ | [c0 i] cs IH]; [reflexivity | ].
  cbn [map fst snd lookup_column].
  destruct (String.eqb_spec c0 old) as [-> | Hc0]; cbn [lookup_column].
  - apply String.eqb_neq in Hold, Hnew. rewrite Hold, Hnew. exact IH.
  - rewrite IH. reflexivity.
Qed.

Lemma labelled_in (c : string) (cs : list (string * column_info))
      (x : string * column_info) :
  In x (labelled c cs) -> fst x = c /\ In x cs.
Proof.
  unfold labelled. intro Hx. apply filter_In in Hx as [Hin Hc].
  apply String.eqb_eq in Hc. auto.
Qed.

Lemma lookup_labelled (c : string) (cs rest : list (string * column_info)) :
  labelled c cs <> [] ->
  lookup_column c (labelled c cs ++ rest) = lookup_column c cs.
Proof.
  unfold labelled.
  induction cs as [ | [c0 i] cs IH]; cbn [filter fst]; [congruence | ].
  cbn [lookup_column].
  destruct (String.eqb c c0) eqn:E.
  - intros _. cbn [app lookup_column]. rewrite E. reflexivity.
  - exact IH.
Qed.

Lemma lookup_not_labelled (c c' : string)
      (cs rest : list (string * column_info)) :
  c <> c' ->
  lookup_column c (labelled c' cs ++ rest) = lookup_column c rest.
Proof.
  intro Hne. unfold labelled.
  induction cs as [ | [c0 i] cs IH]; cbn [filter fst]; [reflexivity | ].
  destruct (String.eqb_spec c' c0) as [<- | Hc0]; [ | exact IH].
  cbn [app lookup_column]. apply String.eqb_neq in Hne. rewrite Hne.
  exact IH.
Qed.

(** A selection that goes through finds every label, and is made of the
    columns of each label in turn. *)
Lemma select_columns (cols : list string)
      (cs : list (string * column_info)) :
  forall sel,
    select cols cs = inr sel ->
    (forall c, In c cols -> labelled c cs <> [])
    /\ sel = flat_map (fun c => labelled c cs) cols.
Proof.
  induction cols as [ | c cols IH]; cbn [select flat_map]; intros sel.
  - intros H. injection H as <-. split; [intros c [] | reflexivity].
  - destruct (labelled c cs) as [ | x found] eqn:Hc; [discriminate | ].
    destruct (select cols cs) as [e | sel0]; [discriminate | ].
    intros H. injection H as <-.
    destruct (IH sel0 eq_refl) as [Hfound ->].
    split; [ | reflexivity].
    intros c' [<- | Hc']; [rewrite Hc; discriminate | exact (Hfound c' Hc')].
Qed.

Lemma select_has_columns (cols : list string)
      (cs sel : list (string * column_info)) :
  select cols cs = inr sel ->
  (forall c, In c cols -> In c (map fst sel))
  /\ (forall c, In c (map fst sel) -> In c cols).
Proof.
  intro Hsel. apply select_columns in Hsel as [Hfound ->]. split.
  - intros c Hc. specialize (Hfound c Hc).
    destruct (labelled c cs) as [ | x found] eqn:E; [congruence | ].
    apply in_map_iff. exists x. split.
    + apply (labelled_in c cs). rewrite E. left. reflexivity.
    + apply in_flat_map. exists c. split; [exact Hc | ].
      rewrite E. left. reflexivity.
  - intros c Hc. apply in_map_iff in Hc as (x & <- & Hx).
    apply in_flat_map in Hx as (c' & Hc' & Hx).
    apply labelled_in in Hx as [-> _]. exact Hc'.
Qed.

Lemma select_lookup (cols : list string)
      (cs sel : list (string * column_info)) (c : string) :
  select cols cs = inr sel -> NoDup cols -> In c cols ->
  lookup_column c sel = lookup_column c cs.
Proof.
  intro Hsel. apply select_columns in Hsel as [Hfound ->].
  induction cols as [ | c0 cols IH]; intros Hnodup Hc; [destruct Hc | ].
  apply NoDup_cons_iff in Hnodup as [Hnotin Hnodup].
  cbn [flat_map].
  destruct (String.eqb_spec c c0) as [-> | Hne].
  - apply lookup_labelled. apply Hfound. left. reflexivity.
  - rewrite lookup_not_labelled by exact Hne.
    apply IH; [ | exact Hnodup | ].
    + intros c' Hc'. apply Hfound. right. exact Hc'.
    + destruct Hc as [Heq | Hc]; [congruence | exact Hc].
Qed.

(** When no label is repeated in the selection, it has one column per
    label. *)
Lemma select_names (cols : list string)
      (cs sel : list (string * column_info)) :
  select cols cs = inr sel -> NoDup (map fst sel) -> map fst sel = cols.
Proof.
  intro Hsel. apply select_columns in Hsel as [Hfound ->].
  induction cols as [ | c cols IH]; [reflexivity | ].
  cbn [flat_map]. rewrite map_app. intro Hnodup.
  pose proof (Hfound c (or_introl eq_refl)) as Hc.
  pose proof (labelled_in c cs) as Hlabel.
  destruct (labelled c cs) as [ | x found]; [congruence | ].
  assert (Hx : fst x = c) by (apply Hlabel; left; reflexivity).
  destruct found as [ | y found].
  - cbn [map app] in *. rewrite Hx. f_equal.
    apply IH.
    + intros c' Hc'. apply Hfound. right. exact Hc'.
    + apply NoDup_cons_iff in Hnodup as [_ Hnodup]. exact Hnodup.
  - exfalso.
    assert (Hy : fst y = c) by (apply Hlabel; right; left; reflexivity).
    cbn [map app] in Hnodup.
    apply NoDup_cons_iff in Hnodup as [Hnotin _].
    apply Hnotin. left. congruence.
Qed.

Lemma reset_index_rows (h : History) (df : DataFrame) :
  reset_index h = inr df ->
  rows df = rows (data h) /\ to_datetime_error df = to_datetime_error (data h).
Proof.
  unfold reset_index.
  match goal with
  | |- (if ?c then _ else _) = _ -> _ => destruct c; [discriminate | ]
  end.
  intros H. injection H as <-. split; reflexivity.
Qed.

(** The frame of a successful attempt. *)
Lemma attempt_body_frame (history : exn + History) (t : string)
      (d : DataFrame) :
  attempt_body history t = inr (Some d) ->
  has_required_columns d
  /\ (forall c, has_column c d = true ->
                In c DataValidator.required_columns)
  /\ (NoDup (map fst (columns d)) ->
      map fst (columns d) = DataValidator.required_columns)
  /\ to_datetime_error d = None
  /\ column_is is_string_dtype "ticker" d = true
  /\ exists h,
      history = inr h /\ empty (data h) = false
      /\ rows d = map (set_ticker t) (rows (data h)).
Proof.
  unfold attempt_body. destruct history as [e | h]; [discriminate | ].
  destruct (empty (data h)) eqn:Hempty; [discriminate | ].
  destruct (reset_index h) as [e | df0] eqn:Hreset; [discriminate | ].
  apply reset_index_rows in Hreset as [Hrows0 _].
  match goal with
  | |- context [select _ (columns (fold_left rename column_mapping ?x))] =>
    set (df' := fold_left rename column_mapping x);
    assert (Hrows : rows df' = map (set_ticker t) (rows (data h)));
    [ | assert (Hticker : lookup_column "ticker" (columns df')
                          = Some object_of_str) ]
  end.
  { subst df'. rewrite rows_fold_rename. unfold assign_ticker. cbn [rows].
    rewrite <- Hrows0.
    repeat match goal with
           | |- context [if ?c then _ else _] => destruct c
           end; reflexivity. }
  { subst df'. cbn [fold_left column_mapping].
    rewrite !lookup_rename by discriminate.
    apply lookup_assign_ticker. }
  destruct (select _ _) as [e | cs] eqn:Hsel; [discriminate | ].
  destruct (to_datetime_error (set_columns cs df')) eqn:Hdate;
    [discriminate | ].
  intros H. injection H as <-.
  destruct (select_has_columns _ _ _ Hsel) as [Hall Honly].
  split.
  { apply has_columns_spec. intros c Hc. apply has_column_in.
    cbn [columns set_columns]. exact (Hall c Hc). }
  split.
  { intros c Hc. apply has_column_in in Hc. exact (Honly c Hc). }
  split; [exact (select_names _ _ _ Hsel) | ].
  split; [exact Hdate | ].
  split.
  - unfold column_is. cbn [columns set_columns].
    rewrite (select_lookup _ _ _ "ticker" Hsel).
    + rewrite Hticker. reflexivity.
    + repeat constructor; simpl; intuition discriminate.
    + simpl. tauto.
  - exists h. split; [reflexivity | ]. split; [exact Hempty | exact Hrows].
Qed.

Lemma attempts_some (self : Downloader)
      (fetch : nat -> exn + option DataFrame) :
  forall range w d w',
    attempts self fetch range w = (inr (Some d), w') ->
    exists attempt, In attempt range /\ fetch attempt = inr (Some d).
Proof.
  induction range as [ | attempt range IH]; simpl;
    intros w d w'; [discriminate | ].
  destruct (fetch attempt) as [e | df] eqn:E.
  - destruct (Z.of_nat attempt <? max_retries self - 1);
      [ | discriminate].
    unfold bind, sleep. destruct (retry_delay self <? 0);
      [discriminate | ].
    unfold modify. intro H. apply IH in H as (a & Ha & Hf).
    exists a. auto.
  - unfold ret. intros H. injection H as -> _. exists attempt. auto.
Qed.

(** Attempts never raise when the delay is not negative, and only the
    clock moves, by at most one delay per attempt but the last. *)
Lemma attempts_bounded (self : Downloader)
      (fetch : nat -> exn + option DataFrame) :
  0 <= retry_delay self ->
  forall n first w,
  exists res elapsed,
    attempts self fetch (seq first n) w
    = (inr res, DuckDBStorage.set_now (DuckDBStorage.now w + elapsed) w)
    /\ 0 <= elapsed
       <= Z.max 0 (max_retries self - 1 - Z.of_nat first) * retry_delay self.
Proof.
  intros Hdelay. induction n as [ | n IH]; intros first w; simpl.
  - exists None, 0. rewrite Z.add_0_r, set_now_now.
    split; [reflexivity | ]. nia.
  - destruct (fetch first) as [e | df].
    + destruct (Z.ltb_spec (Z.of_nat first) (max_retries self - 1)).
      * unfold bind, sleep.
        destruct (Z.ltb_spec (retry_delay self) 0); [lia | ].
        unfold modify.
        destruct (IH (S first)
                     (DuckDBStorage.set_now
                        (DuckDBStorage.now w + retry_delay self) w))
          as (res & elapsed & Hrun & Hbound).
        rewrite Hrun. exists res, (retry_delay self + elapsed).
        split.
        -- simpl. rewrite set_now_set_now. do 2 f_equal. lia.
        -- nia.
      * exists None, 0. unfold ret. rewrite Z.add_0_r, set_now_now.
        split; [reflexivity | ]. nia.
    + exists df, 0. unfold ret. rewrite Z.add_0_r, set_now_now.
      split; [reflexivity | ]. nia.
Qed.

End DownloadedFrames.

Section FramesForTheValidator.

Lemma has_required_columns_names (d : DataFrame) :
  map fst (columns d) = DataValidator.required_columns ->
  has_required_columns d.
Proof.
  intro Hnames. apply has_columns_spec. intros c Hc.
  apply has_column_in. rewrite Hnames. exact Hc.
Qed.

Lemma not_empty_frame (d : DataFrame) :
  rows d <> [] -> columns d <> [] -> empty d = false.
Proof.
  unfold empty. destruct (rows d); [congruence | ].
  destruct (columns d); [congruence | reflexivity].
Qed.

End FramesForTheValidator.

Section ShapeOfDownloads.
Import StockDataDownloader.

(** The frame that [download_ticker] returns. *)
Lemma download_ticker_shape (self : Downloader) (settings : Config.Settings)
      (provider : Provider) (ticker : string)
      (start_date end_date : option string)
      (w w' : DuckDBStorage.World) (d : DataFrame) :
  download_ticker self settings provider ticker start_date end_date w
  = (inr (Some d), w') ->
  has_required_columns d
  /\ empty d = false
  /\ to_datetime_error d = None
  /\ column_is is_string_dtype "ticker" d = true
  /\ (exists attempt h,
      Z.of_nat attempt < max_retries self
      /\ provider ticker
                  (str_or start_date (Config.default_start_date settings))
                  (str_or end_date (Config.default_end_date settings))
                  attempt
         = inr h
      /\ rows d = map (set_ticker ticker) (rows (data h)))
  /\ (forall c, has_column c d = true ->
                In c DataValidator.required_columns)
  /\ (NoDup (map fst (columns d)) ->
      map fst (columns d) = DataValidator.required_columns).
Proof.
  intro Hrun. unfold download_ticker in Hrun.
  apply attempts_some in Hrun as (attempt & Hin & Hfetch).
  apply attempt_body_frame in Hfetch
    as (Hcols & Honly & Hnames & Hdate & Hticker & h & Hh & Hempty & Hrows).
  split; [exact Hcols | ]. split.
  { apply not_empty_frame.
    - rewrite Hrows. unfold empty in Hempty.
      destruct (rows (data h)); discriminate.
    - intro Hnil.
      apply has_columns_spec with (c := "ticker") in Hcols;
        [ | left; reflexivity].
      unfold has_column in Hcols. rewrite Hnil in Hcols. discriminate. }
  split; [exact Hdate | ]. split; [exact Hticker | ].
  split; [ | split; assumption].
  exists attempt, h. apply in_seq in Hin.
  split; [lia | ]. split; [exact Hh | exact Hrows].
Qed.

End ShapeOfDownloads.

(** X16.  A frame that [download_ticker] returns is never empty, has
    every required column and no other, carries the ticker in every row,
    has dates that parse, and has the rows that the provider gave at one
    of the attempts.  When no label is repeated in it, it has exactly the
    eight required columns in their order, its ticker column is a string
    column, and the schema pass can only reject it for a price or volume
    column that is not numeric. *)
Theorem download_ticker_frame
        (self : StockDataDownloader.Downloader) (settings : Config.Settings)
        (provider : StockDataDownloader.Provider) (ticker : string)
        (start_date end_date : option string)
        (w w' : DuckDBStorage.World) (d : DataFrame)
        (Hrun : StockDataDownloader.download_ticker
                  self settings provider ticker start_date end_date w
                = (inr (Some d), w')) :
  empty d = false
  /\ has_required_columns d
  /\ (forall c, has_column c d = true ->
                In c DataValidator.required_columns)
  /\ single_ticker ticker d
  /\ to_datetime_error d = None
  /\ (exists attempt h,
         Z.of_nat attempt < StockDataDownloader.max_retries self
         /\ provider ticker
                     (str_or start_date (Config.default_start_date settings))
                     (str_or end_date (Config.default_end_date settings))
                     attempt
            = inr h
         /\ rows d = map (StockDataDownloader.set_ticker ticker)
                         (rows (StockDataDownloader.data h)))
  /\ (NoDup (map fst (columns d)) ->
      map fst (columns d) = DataValidator.required_columns
      /\ column_is is_string_dtype "ticker" d = true
      /\ (fst (DataValidator.validate_schema (Some d)) = true <->
          forall c, In c numeric_columns ->
                    column_is is_numeric_dtype c d = true)).
Proof.
  pose proof (download_ticker_single _ _ _ _ _ _ _ _ _ Hrun) as Hsingle.
  destruct (download_ticker_shape _ _ _ _ _ _ _ _ _ Hrun)
    as (Hcols & Hnonempty & Hdate & Hticker & Hprovider & Honly & Hnames).
  split; [exact Hnonempty | ]. split; [exact Hcols | ].
  split; [exact Honly | ].
  split; [exact Hsingle | ]. split; [exact Hdate | ].
  split; [exact Hprovider | ].
  intro Hnodup. split; [exact (Hnames Hnodup) | ].
  split; [exact Hticker | ].
  rewrite validate_schema_ok. unfold schema_ok. tauto.
Qed.

Lemma download_ticker_frame_witness :
  StockDataDownloader.download_ticker
    Sample.downloader Sample.settings (Sample.serves [Sample.day]) "X"
    None None (Sample.world [])
  = (inr (Some (Sample.frame [Sample.bar "X" Sample.day 5])),
     Sample.world [])
  /\ map fst (columns (Sample.frame [Sample.bar "X" Sample.day 5]))
     = DataValidator.required_columns.
Proof.
  assert (Hrun : StockDataDownloader.download_ticker
                   Sample.downloader Sample.settings
                   (Sample.serves [Sample.day]) "X" None None
                   (Sample.world [])
                 = (inr (Some (Sample.frame [Sample.bar "X" Sample.day 5])),
                    Sample.world []))
    by (vm_compute; reflexivity).
  split; [exact Hrun | ].
  refine (proj1 (proj2 (proj2 (proj2 (proj2 (proj2 (proj2
            (download_ticker_frame
               Sample.downloader Sample.settings
               (Sample.serves [Sample.day]) "X" None None
               (Sample.world []) _ _ Hrun)))))) _)).
  repeat constructor; simpl; intuition discriminate.
Defined.

(** X17.  With a retry delay that is not negative, [download_ticker]
    never raises and touches nothing but the clock: it sleeps at most
    (max_retries - 1) times the retry delay, whatever the provider
    answers. *)
Theorem download_ticker_bounded
        (self : StockDataDownloader.Downloader) (settings : Config.Settings)
        (provider : StockDataDownloader.Provider) (ticker : string)
        (start_date end_date : option string) (w : DuckDBStorage.World)
        (Hdelay : 0 <= StockDataDownloader.retry_delay self) :
  exists res elapsed,
    StockDataDownloader.download_ticker
      self settings provider ticker start_date end_date w
    = (inr res, DuckDBStorage.set_now (DuckDBStorage.now w + elapsed) w)
    /\ 0 <= elapsed
       <= Z.max 0 (StockDataDownloader.max_retries self - 1)
          * StockDataDownloader.retry_delay self.
Proof.
  unfold StockDataDownloader.download_ticker.
  destruct (attempts_bounded
              self
              (fun attempt =>
                 StockDataDownloader.attempt_body
                   (provider ticker
                             (str_or start_date
                                     (Config.default_start_date settings))
                             (str_or end_date
                                     (Config.default_end_date settings))
                             attempt) ticker)
              Hdelay (Z.to_nat (StockDataDownloader.max_retries self)) 0%nat w)
    as (res & elapsed & Hrun & Hbound).
  exists res, elapsed. split; [exact Hrun | ].
  rewrite Z.sub_0_r in Hbound. exact Hbound.
Qed.

Lemma download_ticker_bounded_witness :
  exists res elapsed,
    StockDataDownloader.download_ticker
      Sample.downloader Sample.settings Sample.down "X" None None
      (Sample.world [])
    = (inr res,
       DuckDBStorage.set_now (1705276800 + elapsed) (Sample.world []))
    /\ 0 <= elapsed <= 4.
Proof.
  destruct (download_ticker_bounded
              Sample.downloader Sample.settings Sample.down "X" None None
              (Sample.world [])) as (res & elapsed & Hrun & Hbound).
  - vm_compute. discriminate.
  - exists res, elapsed. split; [exact Hrun | exact Hbound].
Defined.

(** ** Invariants of a run *)

#[export] Instance failures_match_preorder : PreOrder failures_match.
Proof.
  split; [intros s; reflexivity | ].
  intros s1 s2 s3. unfold failures_match. lia.
Qed.

#[export] Instance growth_reported_preorder : PreOrder growth_reported.
Proof.
  split; [intros s; unfold growth_reported; lia | ].
  intros s1 s2 s3. unfold growth_reported. lia.
Qed.

Section ReportFacts.
Import IngestionPipeline.
Variable self : Pipeline.
Variables start_date end_date : option string.

Lemma failures_match_on_snd {A} (m : M DuckDBStorage.World A) :
  stable failures_match (@on_snd Results _ _ m).
Proof.
  intros [r w]. unfold on_snd, failures_match. simpl.
  destruct (m w). reflexivity.
Qed.

Lemma failures_match_update (f : Results -> Results) :
  (forall r, errors (f r) = errors r /\ tickers_failed (f r) = tickers_failed r) ->
  stable failures_match (update f).
Proof.
  intros Hf [r w]. unfold failures_match. simpl.
  destruct (Hf r) as [-> ->]. reflexivity.
Qed.

Lemma failures_match_failure (msg : message) :
  stable failures_match (add_error msg ;; count_failed).
Proof.
  intros [r w]. unfold failures_match. simpl. rewrite length_app. simpl. lia.
Qed.

Ltac solve_failures_match :=
  repeat first
         [ apply failures_match_failure
         | apply failures_match_on_snd
         | apply failures_match_update; intros; split; reflexivity
         | stable_step ].

Lemma failures_match_process (validate_only : bool) (t : string) :
  stable failures_match (process self start_date end_date validate_only t).
Proof.
  unfold process, process_ticker, store_data.
  unfold add_warning, count_processed, add_rows_inserted.
  solve_failures_match.
Qed.

Lemma failures_match_fold (validate_only : bool) (tickers : list string) :
  forall s,
    failures_match
      s (fold_left (step self start_date end_date validate_only) tickers s).
Proof.
  induction tickers as [ | t tickers IH]; intro s; simpl; [reflexivity | ].
  etransitivity; [ | apply IH].
  apply (failures_match_process validate_only t s).
Qed.

End ReportFacts.

(** X18.  In the report of a run that connected, the number of error
    messages is the number of failed tickers, and processed and failed
    tickers together are no more than the tickers given.  In the report of
    a run that could not connect the only error is the fatal one and no
    ticker is counted. *)
Theorem run_errors_match_failures
        (self : IngestionPipeline.Pipeline) (tickers : list string)
        (start_date end_date : option string) (validate_only : bool)
        (w : DuckDBStorage.World) :
  let report :=
    fst (IngestionPipeline.run
           self tickers start_date end_date validate_only w) in
  (forall w0,
      DuckDBStorage.connect w = (inr tt, w0) ->
      List.length (IngestionPipeline.errors report)
      = IngestionPipeline.tickers_failed report
      /\ (IngestionPipeline.tickers_processed report
          + IngestionPipeline.tickers_failed report
          <= List.length tickers)%nat)
  /\ (forall e w0,
         DuckDBStorage.connect w = (inl e, w0) ->
         IngestionPipeline.errors report
         = [IngestionPipeline.PipelineFatalError e]
         /\ IngestionPipeline.tickers_failed report = 0%nat
         /\ IngestionPipeline.tickers_processed report = 0%nat).
Proof.
  cbv zeta. split.
  - intros w0 Hconnect.
    rewrite (run_connected self start_date end_date validate_only tickers
                           w w0 Hconnect).
    cbn [fst with_duration IngestionPipeline.errors
             IngestionPipeline.tickers_failed
             IngestionPipeline.tickers_processed].
    pose proof (failures_match_fold self start_date end_date validate_only
                                    tickers
                                    (IngestionPipeline.initial_results, w0))
      as Hmatch.
    pose proof (accounted_fold self start_date end_date validate_only
                               tickers
                               (IngestionPipeline.initial_results, w0))
      as Hall.
    unfold failures_match in Hmatch. unfold accounted in Hall.
    simpl in Hmatch, Hall. split; lia.
  - intros e w0 Hconnect.
    rewrite (run_not_connected self start_date end_date validate_only
                               tickers w w0 e Hconnect).
    repeat split.
Qed.

Lemma run_errors_match_failures_witness :
  let report :=
    fst (IngestionPipeline.run
           (IngestionPipeline.init Sample.settings twice true)
           ["X"; "Y"] None None false (Sample.world small_table)) in
  List.length (IngestionPipeline.errors report) = 2%nat
  /\ IngestionPipeline.tickers_failed report = 2%nat.
Proof.
  cbv zeta.
  destruct (proj1 (run_errors_match_failures
                     (IngestionPipeline.init Sample.settings twice true)
                     ["X"; "Y"] None None false (Sample.world small_table))
                  (Sample.world small_table) eq_refl) as [Hmatch _].
  split; [reflexivity | ]. rewrite <- Hmatch. reflexivity.
Defined.

Section GrowthFacts.
Import DuckDBStorage.

Lemma execute_raised {A}
      (stmt : list StoredRow -> exn + (A * list StoredRow))
      (w w' : World) (e : exn) :
  execute stmt w = (inl e, w') -> stock_prices w' = stock_prices w.
Proof.
  unfold execute, bind, gets, raise, duckdb_call.
  destruct (conn w); simpl; [ | intros H; injection H as _ <-; reflexivity].
  destruct (faults w) as [ | [e0 | ] fs]; simpl.
  - destruct (stmt (stock_prices w)) as [e0 | [a t']]; [ | discriminate].
    intros H. injection H as _ <-. reflexivity.
  - intros H. injection H as _ <-. reflexivity.
  - destruct (stmt (stock_prices w)) as [e0 | [a t']]; [ | discriminate].
    intros H. injection H as _ <-. reflexivity.
Qed.

(** The table after an upsert is no longer than the table before it plus
    the count returned. *)
Lemma upsert_data_growth (df : option DataFrame) (w w' : World)
      (res : exn + nat) :
  upsert_data df w = (res, w') ->
  (List.length (stock_prices w')
   <= List.length (stock_prices w)
      + match res with
        | inr n => n
        | inl _ => 0
        end)%nat.
Proof.
  assert (Hsame : forall r : exn + nat,
             (r, w) = (res, w') ->
             (List.length (stock_prices w')
              <= List.length (stock_prices w)
                 + match res with
                   | inr n => n
                   | inl _ => 0
                   end)%nat)
    by (intros r H; injection H as <- <-; lia).
  destruct df as [df | ]; [ | apply Hsame].
  unfold upsert_data. destruct (empty df); [apply Hsame | ].
  unfold bind at 1, lift_result at 1.
  destruct (column "ticker" df); [apply Hsame | ].
  unfold try_except.
  unfold bind at 1, lift_result at 1.
  destruct (column "date" df); [apply Hsame | ].
  unfold bind at 1, lift_result at 1.
  destruct (dates (rows df)) as [e | ds]; [apply Hsame | ].
  unfold bind at 1.
  destruct (execute _ w) as [[e | []] w1] eqn:E1.
  { apply execute_raised in E1. unfold raise. intros H.
    injection H as <- <-. rewrite E1. lia. }
  apply execute_returned in E1 as [E1 _]. unfold delete_span in E1.
  injection E1 as E1.
  assert (Hkept : (List.length (stock_prices w1)
                   <= List.length (stock_prices w))%nat)
    by (rewrite <- E1; apply filter_length_le).
  unfold bind at 1, gets at 1. unfold bind at 1.
  destruct (execute (insert_frame (now w1) df) w1)
    as [[e | []] w2] eqn:E2.
  { apply execute_raised in E2. unfold raise. intros H.
    injection H as <- <-. rewrite E2. lia. }
  apply execute_returned in E2 as [E2 _].
  apply insert_frame_returned in E2 as (_ & _ & E).
  apply insert_rows_app in E as (new & E2 & Hbars & _).
  unfold ret. intros H. injection H as <- <-.
  rewrite E2, length_app, <- Hbars, length_map. lia.
Qed.

End GrowthFacts.

Section GrowthOfTheTable.
Import IngestionPipeline.
Variable self : Pipeline.
Variables start_date end_date : option string.

Lemma growth_reported_on_snd {A} (m : M DuckDBStorage.World A) :
  stable same_table m -> stable growth_reported (@on_snd Results _ _ m).
Proof.
  intros Hm [r w]. unfold on_snd, growth_reported. simpl.
  specialize (Hm w). unfold same_table in Hm.
  destruct (m w) as [res w']. simpl in *. rewrite Hm. lia.
Qed.

Lemma growth_reported_update (f : Results -> Results) :
  (forall r, total_rows_inserted (f r) = total_rows_inserted r) ->
  stable growth_reported (update f).
Proof.
  intros Hf [r w]. unfold growth_reported. simpl. rewrite Hf. lia.
Qed.

Lemma growth_reported_upsert (df : option DataFrame) :
  stable growth_reported
         (rows_inserted <- on_snd (DuckDBStorage.upsert_data df) ;;
          add_rows_inserted rows_inserted).
Proof.
  intros [r w]. unfold bind, on_snd, growth_reported. simpl.
  destruct (DuckDBStorage.upsert_data df w) as [res w'] eqn:Hrun.
  apply upsert_data_growth in Hrun. destruct res; simpl in *; lia.
Qed.

Lemma growth_reported_process (validate_only : bool) (t : string) :
  stable growth_reported
         (process self start_date end_date validate_only t).
Proof.
  unfold process, process_ticker, store_data.
  unfold add_error, add_warning, count_processed, count_failed,
    StockDataDownloader.download_ticker.
  repeat first
         [ apply growth_reported_upsert
         | apply growth_reported_update; intros; reflexivity
         | apply growth_reported_on_snd
         | apply stable_determine_date_range
         | apply stable_attempts
         | stable_step ].
Qed.

Lemma growth_reported_fold (validate_only : bool) (tickers : list string) :
  forall s,
    growth_reported
      s (fold_left (step self start_date end_date validate_only) tickers s).
Proof.
  induction tickers as [ | t tickers IH]; intro s; simpl; [reflexivity | ].
  etransitivity; [ | apply IH].
  apply (growth_reported_process validate_only t s).
Qed.

End GrowthOfTheTable.

(** X19.  A run never makes the table longer than by the rows it
    reports as inserted. *)
Theorem run_growth_is_reported
        (self : IngestionPipeline.Pipeline) (tickers : list string)
        (start_date end_date : option string) (validate_only : bool)
        (w : DuckDBStorage.World) :
  (List.length
     (DuckDBStorage.stock_prices
        (snd (IngestionPipeline.run
                self tickers start_date end_date validate_only w)))
   <= List.length (DuckDBStorage.stock_prices w)
      + IngestionPipeline.total_rows_inserted
          (fst (IngestionPipeline.run
                  self tickers start_date end_date validate_only w)))%nat.
Proof.
  destruct (DuckDBStorage.connect w) as [[e | []] w0] eqn:Hconnect.
  - rewrite (run_not_connected self start_date end_date validate_only
                               tickers w w0 e Hconnect).
    pose proof (stable_connect w) as Hsame. rewrite Hconnect in Hsame.
    unfold same_table in Hsame. simpl in *.
    unfold DuckDBStorage.close. destruct (DuckDBStorage.conn w0); simpl;
      rewrite Hsame; lia.
  - rewrite (run_connected self start_date end_date validate_only tickers
                           w w0 Hconnect).
    pose proof (growth_reported_fold self start_date end_date validate_only
                                     tickers
                                     (IngestionPipeline.initial_results, w0))
      as Hgrowth.
    pose proof (stable_connect w) as Hsame. rewrite Hconnect in Hsame.
    unfold same_table in Hsame. unfold growth_reported in Hgrowth.
    simpl in *. rewrite <- Hsame.
    unfold DuckDBStorage.close.
    destruct (DuckDBStorage.conn _); simpl; lia.
Qed.

Section CleanFrames.

Variable settings : Config.Settings.

(** A verdict without schema errors is the verdict of the quality pass on
    a frame that passes the schema. *)
Lemma validate_no_errors (d : DataFrame) (v : bool)
      (ws : list DataValidator.quality_warning) :
  DataValidator.validate settings (Some d) = inr (v, [], ws) ->
  schema_ok d /\ ws = quality_warnings settings d.
Proof.
  intro Hv.
  assert (Hschema : schema_ok d).
  { apply validate_schema_ok.
    rewrite validate_schema_flag.
    unfold DataValidator.validate in Hv.
    destruct (DataValidator.validate_schema (Some d)) as [sv se].
    destruct (if sv then _ else _) as [e | [qv qw]]; [discriminate | ].
    injection Hv as _ -> _. reflexivity. }
  split; [exact Hschema | ].
  rewrite (validate_schema_ok_run settings d Hschema) in Hv.
  injection Hv as _ <-. reflexivity.
Qed.

End CleanFrames.

Section StoredRows.
Import IngestionPipeline.
Variable self : Pipeline.
Variables start_date end_date : option string.

(** The frame that [analyse] hands to "Store data" has the required
    columns, and rows of the ticker that pass [row_ok]. *)
Lemma analyse_clean (t : string) (s s' : State) (df : option DataFrame) :
  analyse self start_date end_date t s = (inr (Some df), s') ->
  exists d,
    df = Some d /\ single_ticker t d /\ has_required_columns d
    /\ empty d = false
    /\ (forall r, In r (rows d) -> row_ok r = true)
    /\ numeric_cells d.
Proof.
  intro Hrun.
  destruct (analyse_single _ _ _ _ _ _ _ Hrun) as (d & -> & Hsingle).
  exists d. split; [reflexivity | ]. split; [exact Hsingle | ].
  revert Hrun. unfold analyse. unfold bind at 1.
  destruct (on_snd _ s) as [[e | [download_start download_end]] s1];
    [discriminate | ].
  unfold bind at 1. unfold on_snd at 1.
  destruct (StockDataDownloader.download_ticker _ _ _ _ _ _ (snd s1))
    as [[e | df0] w2]; [discriminate | ].
  destruct df0 as [d0 | ]; [ | discriminate].
  destruct (none_or_empty (Some d0)) eqn:Hne; [discriminate | ].
  unfold bind at 1, lift_result at 1.
  destruct (DataValidator.validate _ _) as [e | [[v errs] ws]] eqn:Hv;
    [discriminate | ].
  destruct (truthy errs) eqn:Herrs; [discriminate | ].
  apply truthy_false in Herrs. subst errs.
  apply validate_no_errors in Hv as [Hschema ->].
  pose proof Hschema as (Hempty & Hcols & _).
  destruct (truthy (quality_warnings (settings self) d0)) eqn:Hws.
  - unfold bind at 1. unfold add_warning at 1, update, modify.
    unfold bind at 1, lift_result.
    rewrite (filter_invalid_rows_eq d0 Hcols (schema_ok_numeric d0 Hschema)).
    destruct (empty (with_rows d0 (filter row_ok (rows d0)))) eqn:Hd;
      [discriminate | ].
    unfold ret. intros H. injection H as <- _.
    split; [exact Hcols | ]. split; [exact Hd | ].
    split; [ | exact (schema_ok_numeric d0 Hschema)].
    simpl. intros r Hr. apply filter_In in Hr as [_ Hr]. exact Hr.
  - unfold ret. intros H. injection H as <- _.
    split; [exact Hcols | ]. split; [exact Hempty | ].
    split; [ | exact (schema_ok_numeric d0 Hschema)].
    apply truthy_false, quality_warnings_nil in Hws.
    destruct Hws as (_ & Hok & _). exact Hok.
Qed.

Lemma nothing_stored_analyse (t : string) :
  stable nothing_stored (analyse self start_date end_date t).
Proof.
  unfold analyse, add_error, add_warning, count_failed,
    StockDataDownloader.download_ticker.
  solve_nothing_stored.
Qed.

Variable tickers : list string.
Variable old : list DuckDBStorage.StoredRow.

Lemma old_or_clean_upsert (t : string) (d : DataFrame)
      (w : DuckDBStorage.World) :
  In t tickers -> single_ticker t d ->
  (forall r, In r (rows d) -> row_ok r = true) ->
  old_or_clean tickers old (DuckDBStorage.stock_prices w) ->
  old_or_clean tickers old
               (DuckDBStorage.stock_prices
                  (snd (DuckDBStorage.upsert_data (Some d) w))).
Proof.
  intros Ht Hsingle Hok Hold.
  apply (upsert_data_preserves (old_or_clean tickers old)).
  - exact Hold.
  - intros ds table _ Htable s Hs. apply filter_In in Hs as [Hs _].
    apply Htable, Hs.
  - intros c table table' Htable Hins s Hs.
    apply insert_rows_app in Hins as (new & -> & Hbars & _).
    apply in_app_iff in Hs as [Hs | Hs]; [apply Htable, Hs | ].
    right.
    assert (Hr : In (DuckDBStorage.price_bar s) (rows d))
      by (rewrite <- Hbars; apply in_map; exact Hs).
    split; [ | apply Hok, Hr].
    specialize (Hsingle _ Hr). simpl in Hsingle.
    injection Hsingle as ->. exact Ht.
Qed.

Lemma old_or_clean_step (validate_only : bool) (t : string) (s : State) :
  In t tickers ->
  old_or_clean tickers old (DuckDBStorage.stock_prices (snd s)) ->
  old_or_clean
    tickers old
    (DuckDBStorage.stock_prices
       (snd (step self start_date end_date validate_only s t))).
Proof.
  intros Ht Hold. unfold step, process, try_except.
  rewrite process_ticker_split. unfold bind at 1.
  pose proof (nothing_stored_analyse t s) as [Hsame _].
  unfold same_table in Hsame.
  destruct (analyse self start_date end_date t s) as [[e | [df | ]] s1]
    eqn:Hrun; simpl in Hsame.
  - simpl. rewrite Hsame. exact Hold.
  - destruct (analyse_clean t s s1 df Hrun)
      as (d & -> & Hsingle & _ & _ & Hok & _).
    unfold store_data. destruct validate_only; simpl negb; cbv iota.
    + simpl. rewrite Hsame. exact Hold.
    + unfold bind at 1. unfold bind at 1. unfold on_snd at 1.
      pose proof (old_or_clean_upsert t d (snd s1) Ht Hsingle Hok) as Hup.
      rewrite Hsame in Hup. specialize (Hup Hold).
      destruct (DuckDBStorage.upsert_data (Some d) (snd s1))
        as [[e | n] w2]; simpl in *; exact Hup.
  - simpl. rewrite Hsame. exact Hold.
Qed.

Lemma old_or_clean_fold (validate_only : bool) (l : list string) :
  incl l tickers ->
  forall s,
    old_or_clean tickers old (DuckDBStorage.stock_prices (snd s)) ->
    old_or_clean
      tickers old
      (DuckDBStorage.stock_prices
         (snd (fold_left (step self start_date end_date validate_only) l s))).
Proof.
  induction l as [ | t l IH]; intros Hincl s Hold; simpl; [exact Hold | ].
  apply IH; [intros x Hx; apply Hincl; right; exact Hx | ].
  apply old_or_clean_step; [apply Hincl; left; reflexivity | exact Hold].
Qed.

End StoredRows.

(** ** The window of an incremental run *)

Section IncrementalTurns.
Import DuckDBStorage.
Variable self : IngestionPipeline.Pipeline.
Variables start_date end_date : option string.

Lemma str_or_given (s d : string) : s <> "" -> str_or (Some s) d = s.
Proof. destruct s; [congruence | reflexivity]. Qed.

Lemma str_or_twice (a : option string) (d : string) :
  str_or (Some (str_or a d)) d = str_or a d.
Proof. destruct a as [[ | c s] | ]; destruct d; reflexivity. Qed.

(** An upsert of rows dated after the last date of the ticker deletes
    nothing: the table grows by rows of the ticker dated after it. *)
Lemma upsert_data_appends (t : string) (d : DataFrame) (D : Z) (w : World) :
  single_ticker t d ->
  (forall r x, In r (rows d) -> date r = Some x -> D < x) ->
  (forall s, In s (stock_prices w) -> s_ticker s = t -> s_date s <= D) ->
  exists new,
    stock_prices (snd (upsert_data (Some d) w)) = stock_prices w ++ new
    /\ forall s, In s new -> s_ticker s = t /\ D < s_date s.
Proof.
  intros Hsingle Hlater Hlast.
  apply (upsert_data_preserves
           (fun table =>
              exists new,
                table = stock_prices w ++ new
                /\ forall s, In s new -> s_ticker s = t /\ D < s_date s)).
  - exists []. rewrite app_nil_r. split; [reflexivity | intros s []].
  - intros ds table Hdates (new & -> & Hnew).
    rewrite filter_app.
    eexists. split.
    + f_equal. apply forallb_filter_id. apply forallb_forall. intros s Hs.
      apply negb_true_iff.
      assert (Hcase : rows d = [] \/ rows d <> [])
        by (destruct (rows d); [left; reflexivity | right; discriminate]).
      destruct Hcase as [Hnil | Hrows].
      { unfold first_ticker. rewrite Hnil. reflexivity. }
      rewrite (first_ticker_single t d Hsingle Hrows). unfold in_span.
      destruct (String.eqb_spec (s_ticker s) t) as [Heq | ];
        [ | reflexivity].
      destruct (minimum_maximum_in
                  ds (frame_dates_not_empty d ds Hdates Hrows))
        as [Hmin _].
      destruct (dates_rows d ds _ Hdates Hmin) as [r1 [Hr1 Hd1]].
      specialize (Hlater r1 _ Hr1 Hd1). specialize (Hlast s Hs Heq).
      apply andb_false_iff. left. apply andb_false_iff. right.
      apply Z.leb_gt. lia.
    + intros s Hs. apply filter_In in Hs as [Hs _]. exact (Hnew s Hs).
  - intros c table table' (new & -> & Hnew) Hins.
    apply insert_rows_app in Hins as (new2 & -> & Hbars & _).
    exists (new ++ new2). rewrite app_assoc. split; [reflexivity | ].
    intros s Hs. apply in_app_iff in Hs as [Hs | Hs]; [exact (Hnew s Hs) | ].
    assert (Hin : In (price_bar s) (rows d))
      by (rewrite <- Hbars; apply in_map; exact Hs).
    split.
    + apply Hsingle in Hin. simpl in Hin. congruence.
    + apply (Hlater _ (s_date s) Hin). reflexivity.
Qed.

(** The frame that [analyse] hands to "Store data" has rows of the
    answer of the provider only. *)
Lemma analyse_dated (t : string) (s s' : IngestionPipeline.State)
      (df : option DataFrame) (D : Z) (window : string * string)
      (w1 : World) :
  IngestionPipeline.determine_date_range self t start_date end_date (snd s)
  = (inr window, w1) ->
  answers_after
    (IngestionPipeline.provider self) t
    (str_or (Some (fst window))
            (Config.default_start_date (IngestionPipeline.settings self)))
    (str_or (Some (snd window))
            (Config.default_end_date (IngestionPipeline.settings self)))
    D ->
  analyse self start_date end_date t s = (inr (Some df), s') ->
  exists d,
    df = Some d /\ forall r x, In r (rows d) -> date r = Some x -> D < x.
Proof.
  intros Hwindow Hanswers. unfold analyse. unfold bind at 1.
  unfold on_snd at 1. rewrite Hwindow.
  destruct window as [download_start download_end].
  unfold bind at 1. unfold on_snd at 1. cbn [snd fst].
  destruct (StockDataDownloader.download_ticker _ _ _ _ _ _ w1)
    as [[e | df0] w2] eqn:Hd; [discriminate | ].
  destruct df0 as [d0 | ]; [ | discriminate].
  apply download_ticker_shape in Hd
    as (_ & _ & _ & _ & (attempt & h & _ & Hh & Hrows) & _).
  assert (Hd0 : forall r x, In r (rows d0) -> date r = Some x -> D < x).
  { intros r x Hr Hx. rewrite Hrows in Hr.
    apply in_map_iff in Hr as (r0 & <- & Hr0).
    exact (Hanswers attempt h r0 x Hh Hr0 Hx). }
  destruct (none_or_empty (Some d0)); [discriminate | ].
  unfold bind at 1, lift_result at 1.
  destruct (DataValidator.validate _ _) as [e | [[v errs] ws]];
    [discriminate | ].
  destruct (truthy errs); [discriminate | ].
  destruct (truthy ws).
  - unfold bind at 1. unfold IngestionPipeline.add_warning at 1,
                        IngestionPipeline.update, modify.
    unfold bind at 1, lift_result.
    destruct (DataValidator.filter_invalid_rows (Some d0))
      as [e | [d | ]] eqn:Hf; try discriminate.
    destruct (empty d); [discriminate | ].
    unfold ret. intros H. injection H as <- _.
    exists d. split; [reflexivity | ].
    intros r x Hr. apply Hd0. apply (filter_invalid_rows_incl _ _ Hf).
    exact Hr.
  - unfold ret. intros H. injection H as <- _.
    exists d0. split; [reflexivity | exact Hd0].
Qed.

(** One turn for a ticker whose stored rows are dated up to [D], with
    answers of the provider dated after [D]. *)
Lemma step_appends (validate_only : bool) (t : string) (D : Z)
      (r : IngestionPipeline.Results) (w w1 : World)
      (window : string * string) :
  (forall s, In s (stock_prices w) -> s_ticker s = t -> s_date s <= D) ->
  IngestionPipeline.determine_date_range self t start_date end_date w
  = (inr window, w1) ->
  answers_after
    (IngestionPipeline.provider self) t
    (str_or (Some (fst window))
            (Config.default_start_date (IngestionPipeline.settings self)))
    (str_or (Some (snd window))
            (Config.default_end_date (IngestionPipeline.settings self)))
    D ->
  exists new,
    stock_prices (snd (step self start_date end_date validate_only (r, w) t))
    = stock_prices w ++ new
    /\ forall s, In s new -> s_ticker s = t /\ D < s_date s.
Proof.
  intros Hlast Hwindow Hanswers.
  assert (Hnone : forall table : list StoredRow,
             exists new : list StoredRow,
               table = table ++ new
               /\ forall s, In s new -> s_ticker s = t /\ D < s_date s).
  { intro table. exists []. rewrite app_nil_r.
    split; [reflexivity | intros s []]. }
  unfold step, IngestionPipeline.process, try_except.
  rewrite process_ticker_split. unfold bind at 1.
  pose proof (nothing_stored_analyse self start_date end_date t (r, w))
    as [Hsame _].
  unfold same_table in Hsame. cbn [snd] in Hsame.
  destruct (analyse self start_date end_date t (r, w))
    as [[e | [df | ]] s1] eqn:Hrun; cbn [snd] in Hsame.
  - simpl. rewrite Hsame. apply Hnone.
  - destruct (analyse_single _ _ _ _ _ _ _ Hrun) as (d & Hdf & Hsingle).
    destruct (analyse_dated t (r, w) s1 df D window w1 Hwindow Hanswers Hrun)
      as (d' & Hdf' & Hlater).
    subst df. injection Hdf' as <-.
    unfold IngestionPipeline.store_data.
    destruct validate_only; simpl negb; cbv iota.
    + simpl. rewrite Hsame. apply Hnone.
    + unfold bind at 1. unfold bind at 1. unfold on_snd at 1.
      destruct (upsert_data_appends t d D (snd s1) Hsingle Hlater)
        as (new & Hup & Hnew).
      { rewrite Hsame. exact Hlast. }
      rewrite Hsame in Hup. exists new. split; [ | exact Hnew].
      destruct (upsert_data (Some d) (snd s1)) as [[e | n] w2];
        simpl in *; exact Hup.
  - simpl. rewrite Hsame. apply Hnone.
Qed.

End IncrementalTurns.

(** C6, as the code has it.  The window handed to the downloader starts
    at the start date of the caller when there is one; else, in an
    incremental run with a last stored date D for the ticker, at the day
    after D; else at the default start date of the settings.  It ends at
    the end date of the caller, or at the default end date.  In the
    incremental case the turn for the ticker is the turn of a run whose
    caller asked for the day after D as start date; and when every row
    that the provider gives for that window is dated after D, the turn
    deletes no row and inserts only rows of the ticker dated after D. *)
Theorem determine_date_range_spec
        (self : IngestionPipeline.Pipeline) (ticker : string)
        (start_date end_date : option string) (w : DuckDBStorage.World) :
  (forall s,
      start_date = Some s -> s <> "" ->
      IngestionPipeline.determine_date_range self ticker start_date end_date w
      = (inr (s, str_or end_date
                        (Config.default_end_date
                           (IngestionPipeline.settings self))), w))
  /\ (forall D,
         str_truthy start_date = false ->
         IngestionPipeline.incremental self = true ->
         DuckDBStorage.conn w = true -> DuckDBStorage.faults w = [] ->
         (exists r, In r (DuckDBStorage.stock_prices w)
                    /\ DuckDBStorage.s_ticker r = ticker
                    /\ DuckDBStorage.s_date r = D) ->
         (forall r, In r (DuckDBStorage.stock_prices w) ->
                    DuckDBStorage.s_ticker r = ticker ->
                    DuckDBStorage.s_date r <= D) ->
         Date.min_ordinal <= D < Date.max_ordinal ->
         IngestionPipeline.determine_date_range
           self ticker start_date end_date w
         = (inr (Date.strftime (D + 1),
                 str_or end_date
                        (Config.default_end_date
                           (IngestionPipeline.settings self))), w))
  /\ (str_truthy start_date = false ->
      IngestionPipeline.incremental self = false
      \/ (DuckDBStorage.conn w = true /\ DuckDBStorage.faults w = []
          /\ forall r, In r (DuckDBStorage.stock_prices w) ->
                       DuckDBStorage.s_ticker r <> ticker) ->
      IngestionPipeline.determine_date_range self ticker start_date end_date w
      = (inr (Config.default_start_date (IngestionPipeline.settings self),
              str_or end_date
                     (Config.default_end_date
                        (IngestionPipeline.settings self))), w))
  /\ (forall D validate_only r,
         str_truthy start_date = false ->
         IngestionPipeline.incremental self = true ->
         DuckDBStorage.conn w = true -> DuckDBStorage.faults w = [] ->
         (exists s, In s (DuckDBStorage.stock_prices w)
                    /\ DuckDBStorage.s_ticker s = ticker
                    /\ DuckDBStorage.s_date s = D) ->
         (forall s, In s (DuckDBStorage.stock_prices w) ->
                    DuckDBStorage.s_ticker s = ticker ->
                    DuckDBStorage.s_date s <= D) ->
         Date.min_ordinal <= D < Date.max_ordinal ->
         IngestionPipeline.process_ticker
           self start_date end_date validate_only ticker (r, w)
         = IngestionPipeline.process_ticker
             self (Some (Date.strftime (D + 1))) end_date validate_only
             ticker (r, w))
  /\ (forall D validate_only r,
         str_truthy start_date = false ->
         IngestionPipeline.incremental self = true ->
         DuckDBStorage.conn w = true -> DuckDBStorage.faults w = [] ->
         (exists s, In s (DuckDBStorage.stock_prices w)
                    /\ DuckDBStorage.s_ticker s = ticker
                    /\ DuckDBStorage.s_date s = D) ->
         (forall s, In s (DuckDBStorage.stock_prices w) ->
                    DuckDBStorage.s_ticker s = ticker ->
                    DuckDBStorage.s_date s <= D) ->
         Date.min_ordinal <= D < Date.max_ordinal ->
         answers_after
           (IngestionPipeline.provider self) ticker
           (Date.strftime (D + 1))
           (str_or end_date
                   (Config.default_end_date
                      (IngestionPipeline.settings self)))
           D ->
         exists new,
           DuckDBStorage.stock_prices
             (snd (step self start_date end_date validate_only (r, w)
                        ticker))
           = DuckDBStorage.stock_prices w ++ new
           /\ forall s, In s new ->
                DuckDBStorage.s_ticker s = ticker
                /\ D < DuckDBStorage.s_date s).
Proof.
  assert (Hcases :
    (forall sd s,
        sd = Some s -> s <> "" ->
        IngestionPipeline.determine_date_range self ticker sd end_date w
        = (inr (s, str_or end_date
                          (Config.default_end_date
                             (IngestionPipeline.settings self))), w))
    /\ (forall D,
           str_truthy start_date = false ->
           IngestionPipeline.incremental self = true ->
           DuckDBStorage.conn w = true -> DuckDBStorage.faults w = [] ->
           (exists r, In r (DuckDBStorage.stock_prices w)
                      /\ DuckDBStorage.s_ticker r = ticker
                      /\ DuckDBStorage.s_date r = D) ->
           (forall r, In r (DuckDBStorage.stock_prices w) ->
                      DuckDBStorage.s_ticker r = ticker ->
                      DuckDBStorage.s_date r <= D) ->
           Date.min_ordinal <= D < Date.max_ordinal ->
           IngestionPipeline.determine_date_range
             self ticker start_date end_date w
           = (inr (Date.strftime (D + 1),
                   str_or end_date
                          (Config.default_end_date
                             (IngestionPipeline.settings self))), w))).
  { unfold IngestionPipeline.determine_date_range. split.
    - intros sd s -> Hs. destruct s as [ | c s]; [congruence | ].
      simpl. rewrite andb_false_r. reflexivity.
    - intros D Hstart Hinc Hconn Hfaults Hlast Hmax [Hlo Hhi].
      rewrite Hstart, Hinc. cbn [andb negb].
      unfold bind at 1. rewrite get_last_date_ok by assumption.
      rewrite (max_date_last ticker _ D Hlast Hmax).
      unfold bind, lift_result, Date.add_days.
      assert (Hrange : (Date.min_ordinal <=? D + 1)
                       && (D + 1 <=? Date.max_ordinal) = true).
      { apply andb_true_iff. split; apply Z.leb_le; lia. }
      rewrite Hrange. reflexivity. }
  destruct Hcases as [Hexplicit Hincremental].
  split; [intros s; apply Hexplicit | ].
  split; [exact Hincremental | ].
  split; [ | split].
  - unfold IngestionPipeline.determine_date_range.
    intros Hstart [Hinc | (Hconn & Hfaults & Hnone)].
    + rewrite Hinc. cbn [andb].
      destruct start_date as [[ | c s] | ]; try discriminate; reflexivity.
    + rewrite Hstart. rewrite andb_true_r.
      destruct (IngestionPipeline.incremental self).
      * unfold bind at 1. rewrite get_last_date_ok by assumption.
        rewrite (max_date_none ticker _ Hnone). reflexivity.
      * destruct start_date as [[ | c s] | ]; try discriminate; reflexivity.
  - intros D validate_only r Hstart Hinc Hconn Hfaults Hlast Hmax HD.
    unfold IngestionPipeline.process_ticker.
    rewrite (bind_run _ _ _ _ _
               (on_snd_run _ r _ _ _
                  (Hincremental D Hstart Hinc Hconn Hfaults Hlast Hmax
                                HD))).
    rewrite (bind_run _ _ _ _ _
               (on_snd_run _ r _ _ _
                  (Hexplicit _ _ eq_refl (strftime_not_empty (D + 1))))).
    reflexivity.
  - intros D validate_only r Hstart Hinc Hconn Hfaults Hlast Hmax HD
           Hanswers.
    apply (step_appends self start_date end_date validate_only ticker D
                        r w w _ Hmax
                        (Hincremental D Hstart Hinc Hconn Hfaults Hlast
                                      Hmax HD)).
    cbn [fst snd].
    rewrite (str_or_given _ _ (strftime_not_empty (D + 1))), str_or_twice.
    exact Hanswers.
Qed.

Lemma determine_date_range_spec_witness :
  exists new,
    DuckDBStorage.stock_prices
      (snd (step (IngestionPipeline.init
                    Sample.settings (Sample.serves [Sample.day + 1]) true)
                 None None false
                 (IngestionPipeline.initial_results,
                  Sample.world small_table) "X"))
    = small_table ++ new
    /\ forall s, In s new ->
         DuckDBStorage.s_ticker s = "X"
         /\ Sample.day < DuckDBStorage.s_date s.
Proof.
  refine (proj2 (proj2 (proj2 (proj2
            (determine_date_range_spec
               (IngestionPipeline.init
                  Sample.settings (Sample.serves [Sample.day + 1]) true)
               "X" None None (Sample.world small_table)))))
            Sample.day false IngestionPipeline.initial_results
            _ _ _ _ _ _ _ _).
  - reflexivity.
  - reflexivity.
  - reflexivity.
  - reflexivity.
  - exists (stored_bar "X" Sample.day 1). simpl. auto.
  - intros r [<- | [<- | []]]; simpl; intros H; [lia | discriminate H].
  - vm_compute. split; [discriminate | reflexivity].
  - intros attempt h r d Hh Hr Hd. injection Hh as <-.
    simpl in Hr. destruct Hr as [<- | []]. simpl in Hd.
    injection Hd as <-. reflexivity.
Defined.

(** C6, as stated, fails for a provider that answers with rows outside
    the window: the last stored date of X is 2024-01-10 and the window of
    the incremental run starts on 2024-01-11, but the rows of 2024-01-09
    and 2024-01-10 that the provider gives are upserted, and the stored
    row of 2024-01-10 is replaced. *)
Lemma incremental_run_outside_window :
  DuckDBStorage.max_date "X" small_table = Some Sample.day
  /\ IngestionPipeline.determine_date_range
       (IngestionPipeline.init Sample.settings stale true)
       "X" None None (Sample.world small_table)
     = (inr ("2024-01-11", "2024-01-15"), Sample.world small_table)
  /\ map DuckDBStorage.price_bar
         (DuckDBStorage.stock_prices
            (snd (IngestionPipeline.run_pipeline
                    Sample.settings stale ["X"] None None true false
                    (Sample.world small_table))))
     = [Sample.bar "Y" Sample.day 1;
        Sample.bar "X" (Sample.day - 1) 5;
        Sample.bar "X" Sample.day 5]
  /\ IngestionPipeline.total_rows_inserted
       (fst (IngestionPipeline.run_pipeline
               Sample.settings stale ["X"] None None true false
               (Sample.world small_table)))
     = 2%nat
  /\ ~ (forall r,
          In r (map DuckDBStorage.price_bar
                    (DuckDBStorage.stock_prices
                       (snd (IngestionPipeline.run_pipeline
                               Sample.settings stale ["X"] None None
                               true false (Sample.world small_table)))))
          ->
          In r (map DuckDBStorage.price_bar small_table)
          \/ exists d, date r = Some d /\ Sample.day < d).
Proof.
  assert (Hrun :
            map DuckDBStorage.price_bar
                (DuckDBStorage.stock_prices
                   (snd (IngestionPipeline.run_pipeline
                           Sample.settings stale ["X"] None None true false
                           (Sample.world small_table))))
            = [Sample.bar "Y" Sample.day 1;
               Sample.bar "X" (Sample.day - 1) 5;
               Sample.bar "X" Sample.day 5])
    by (vm_compute; reflexivity).
  split; [vm_compute; reflexivity | ].
  split; [vm_compute; reflexivity | ].
  split; [exact Hrun | ].
  split; [vm_compute; reflexivity | ].
  rewrite Hrun. intro H.
  destruct (H (Sample.bar "X" (Sample.day - 1) 5)) as [Hold | (d & Hd & Hlt)].
  - right. left. reflexivity.
  - simpl in Hold. destruct Hold as [Hold | [Hold | []]]; discriminate Hold.
  - simpl in Hd. injection Hd as <-. vm_compute in Hlt. discriminate Hlt.
Qed.

(** X20.  Whatever the provider answers and whether or not the database
    fails, every row in the table after a run was there before, or belongs
    to one of the tickers of the run and has no negative price or volume,
    no missing price or volume, and a high that is not below its low. *)
Theorem run_stores_clean_rows
        (self : IngestionPipeline.Pipeline) (tickers : list string)
        (start_date end_date : option string) (validate_only : bool)
        (w : DuckDBStorage.World) :
  forall s,
    In s (DuckDBStorage.stock_prices
            (snd (IngestionPipeline.run
                    self tickers start_date end_date validate_only w))) ->
    In s (DuckDBStorage.stock_prices w)
    \/ (In (DuckDBStorage.s_ticker s) tickers
        /\ row_ok (DuckDBStorage.price_bar s) = true).
Proof.
  change (old_or_clean
            tickers (DuckDBStorage.stock_prices w)
            (DuckDBStorage.stock_prices
               (snd (IngestionPipeline.run
                       self tickers start_date end_date validate_only w)))).
  assert (Hclose : forall w1,
             DuckDBStorage.stock_prices (DuckDBStorage.close w1)
             = DuckDBStorage.stock_prices w1)
    by (intro w1; unfold DuckDBStorage.close;
        destruct (DuckDBStorage.conn w1); reflexivity).
  pose proof (stable_connect w) as Hsame. unfold same_table in Hsame.
  destruct (DuckDBStorage.connect w) as [[e | []] w0] eqn:Hconnect;
    simpl in Hsame.
  - rewrite (run_not_connected self start_date end_date validate_only
                               tickers w w0 e Hconnect).
    simpl. rewrite Hclose, Hsame. intros s Hs. left. exact Hs.
  - rewrite (run_connected self start_date end_date validate_only tickers
                           w w0 Hconnect).
    simpl. rewrite Hclose.
    apply old_or_clean_fold; [apply incl_refl | ].
    simpl. rewrite Hsame. intros s Hs. left. exact Hs.
Qed.

Lemma run_stores_clean_rows_witness :
  let s := DuckDBStorage.stored "X" (Sample.day + 1) 1705276800
                                (Sample.bar "X" (Sample.day + 1) 5) in
  In s (DuckDBStorage.stock_prices
          (snd (IngestionPipeline.run
                  (IngestionPipeline.init
                     Sample.settings
                     (Sample.serves (map (fun d => d + 10) ten_days)) true)
                  ["X"] None None false (Sample.world small_table))))
  /\ (In s small_table
      \/ (In (DuckDBStorage.s_ticker s) ["X"]
          /\ row_ok (DuckDBStorage.price_bar s) = true)).
Proof.
  cbv zeta.
  assert (Hin : In (DuckDBStorage.stored
                      "X" (Sample.day + 1) 1705276800
                      (Sample.bar "X" (Sample.day + 1) 5))
                   (DuckDBStorage.stock_prices
                      (snd (IngestionPipeline.run
                              (IngestionPipeline.init
                                 Sample.settings
                                 (Sample.serves
                                    (map (fun d => d + 10) ten_days)) true)
                              ["X"] None None false
                              (Sample.world small_table)))))
    by (vm_compute; tauto).
  split; [exact Hin | ].
  exact (run_stores_clean_rows _ _ _ _ _ _ _ Hin).
Defined.

Section Turns.
Import IngestionPipeline.
Variable self : Pipeline.
Variables start_date end_date : option string.

(** A turn whose window and download are known, up to the verdict of the
    validator. *)
Lemma process_ticker_fetched (validate_only : bool) (t : string)
      (r : Results) (w w1 w2 : DuckDBStorage.World)
      (window : string * string) (df : option DataFrame) :
  determine_date_range self t start_date end_date w = (inr window, w1) ->
  StockDataDownloader.download_ticker
    (downloader self) (settings self) (provider self) t
    (Some (fst window)) (Some (snd window)) w1
  = (inr df, w2) ->
  process_ticker self start_date end_date validate_only t (r, w)
  = (if none_or_empty df then add_warning (NoDataAvailable t)
     else
       v <- lift_result (DataValidator.validate (settings self) df) ;;
       let '(is_valid, schema_errors, quality_warnings) := v in
       if truthy schema_errors then
         add_error (SchemaValidationFailed t schema_errors) ;;
         count_failed
       else if truthy quality_warnings then
         add_warning (DataQualityWarnings t quality_warnings) ;;
         df <- lift_result (DataValidator.filter_invalid_rows df) ;;
         match df with
         | None => raise AttributeError
         | Some d =>
           if empty d then add_error (AllRowsFiltered t) ;; count_failed
           else store_data validate_only df
         end
       else store_data validate_only df) (r, w2).
Proof.
  intros Hwindow Hdownload. unfold process_ticker.
  rewrite (bind_run _ _ _ _ _ (on_snd_run _ r _ _ _ Hwindow)).
  destruct window as [download_start download_end].
  rewrite (bind_run _ _ _ _ _ (on_snd_run _ r _ _ _ Hdownload)).
  reflexivity.
Qed.

End Turns.

(** X21.  A ticker for which the provider fails at every attempt is not
    counted as failed: after the retries, with their delays, its turn adds
    the warning "No data available" and changes neither the counts, nor the
    errors, nor the store. *)
Theorem turn_without_data
        (self : IngestionPipeline.Pipeline)
        (start_date end_date : option string) (validate_only : bool)
        (t : string) (r : IngestionPipeline.Results)
        (w w1 : DuckDBStorage.World) (window : string * string)
        (Hwindow : IngestionPipeline.determine_date_range
                     self t start_date end_date w
                   = (inr window, w1))
        (Hdelay : 0 <= StockDataDownloader.retry_delay
                         (IngestionPipeline.downloader self))
        (Hretries : 1 <= StockDataDownloader.max_retries
                           (IngestionPipeline.downloader self))
        (Hdown : forall s e attempt,
                   exists ex,
                     IngestionPipeline.provider self t s e attempt = inl ex) :
  IngestionPipeline.process
    self start_date end_date validate_only t (r, w)
  = (inr tt,
     (with_warning (IngestionPipeline.NoDataAvailable t) r,
      DuckDBStorage.set_now
        (DuckDBStorage.now w1
         + (StockDataDownloader.max_retries
              (IngestionPipeline.downloader self) - 1)
           * StockDataDownloader.retry_delay
               (IngestionPipeline.downloader self))
        w1))
  /\ DuckDBStorage.stock_prices w1 = DuckDBStorage.stock_prices w.
Proof.
  split.
  2:{ pose proof (stable_determine_date_range self t start_date end_date w)
        as Hsame.
      rewrite Hwindow in Hsame. exact Hsame. }
  unfold IngestionPipeline.process, try_except.
  assert (Hdownload :
            StockDataDownloader.download_ticker
              (IngestionPipeline.downloader self)
              (IngestionPipeline.settings self)
              (IngestionPipeline.provider self) t
              (Some (fst window)) (Some (snd window)) w1
            = (inr None,
               DuckDBStorage.set_now
                 (DuckDBStorage.now w1
                  + (StockDataDownloader.max_retries
                       (IngestionPipeline.downloader self) - 1)
                    * StockDataDownloader.retry_delay
                        (IngestionPipeline.downloader self))
                 w1)).
  { unfold StockDataDownloader.download_ticker.
    set (k := Z.to_nat (StockDataDownloader.max_retries
                          (IngestionPipeline.downloader self) - 1)).
    replace (Z.to_nat (StockDataDownloader.max_retries
                         (IngestionPipeline.downloader self)))
      with (k + 1)%nat by (subst k; lia).
    rewrite (attempts_exhausted _ _ Hdelay k).
    - do 2 f_equal. subst k. rewrite Z2Nat.id by lia. reflexivity.
    - intros j _.
      destruct (Hdown (str_or (Some (fst window))
                              (Config.default_start_date
                                 (IngestionPipeline.settings self)))
                      (str_or (Some (snd window))
                              (Config.default_end_date
                                 (IngestionPipeline.settings self))) j)
        as [ex Hex].
      exists ex. rewrite Hex. reflexivity.
    - subst k. lia. }
  rewrite (process_ticker_fetched self start_date end_date validate_only t
                                  r w w1 _ window None Hwindow Hdownload).
  reflexivity.
Qed.

Lemma turn_without_data_witness :
  IngestionPipeline.process
    (IngestionPipeline.init Sample.settings Sample.down true)
    None None false "X"
    (IngestionPipeline.initial_results, Sample.world small_table)
  = (inr tt,
     (with_warning (IngestionPipeline.NoDataAvailable "X")
                   IngestionPipeline.initial_results,
      DuckDBStorage.set_now (1705276800 + 4) (Sample.world small_table))).
Proof.
  refine (proj1 (turn_without_data
           (IngestionPipeline.init Sample.settings Sample.down true)
           None None false "X" IngestionPipeline.initial_results
           (Sample.world small_table) (Sample.world small_table)
           ("2024-01-11", "2024-01-15") _ _ _ _)).
  - reflexivity.
  - vm_compute. discriminate.
  - vm_compute. discriminate.
  - intros s e attempt. eexists. reflexivity.
Defined.

(** X22.  Schema gate: when the downloaded frame has a price or volume
    column that is not numeric, the turn of the ticker adds one
    "Schema validation failed" error that names the column, counts the
    ticker as failed, and stores nothing, in normal and in validate-only
    mode. *)
Theorem turn_schema_gate
        (self : IngestionPipeline.Pipeline)
        (start_date end_date : option string) (validate_only : bool)
        (t : string) (r : IngestionPipeline.Results)
        (w w1 w2 : DuckDBStorage.World) (window : string * string)
        (d : DataFrame) (c : string)
        (Hwindow : IngestionPipeline.determine_date_range
                     self t start_date end_date w
                   = (inr window, w1))
        (Hdownload : StockDataDownloader.download_ticker
                       (IngestionPipeline.downloader self)
                       (IngestionPipeline.settings self)
                       (IngestionPipeline.provider self) t
                       (Some (fst window)) (Some (snd window)) w1
                     = (inr (Some d), w2))
        (Hc : In c numeric_columns)
        (Htext : column_is is_numeric_dtype c d = false) :
  exists errs,
    IngestionPipeline.process
      self start_date end_date validate_only t (r, w)
    = (inr tt,
       (with_failure (IngestionPipeline.SchemaValidationFailed t errs) r,
        w2))
    /\ In (DataValidator.ColumnNotNumeric c) errs
    /\ DuckDBStorage.stock_prices w2 = DuckDBStorage.stock_prices w.
Proof.
  destruct (download_ticker_shape _ _ _ _ _ _ _ _ _ Hdownload)
    as (Hcols & Hempty & _).
  assert (Hcol : has_column c d = true).
  { apply (proj1 (has_columns_spec _ d) Hcols).
    unfold numeric_columns in Hc. simpl in Hc |- *. tauto. }
  assert (Herr : In (DataValidator.ColumnNotNumeric c)
                    (snd (DataValidator.validate_schema (Some d)))).
  { rewrite (validate_schema_errors d Hempty). cbv zeta. cbn [snd].
    rewrite !in_app_iff. right. right. right.
    apply in_flat_map. exists c. split; [exact Hc | ].
    rewrite Hcol, Htext. left. reflexivity. }
  exists (snd (DataValidator.validate_schema (Some d))).
  split; [ | split; [exact Herr | ]].
  - unfold IngestionPipeline.process, try_except.
    rewrite (process_ticker_fetched self start_date end_date validate_only
                                    t r w w1 w2 window (Some d)
                                    Hwindow Hdownload).
    change (none_or_empty (Some d)) with (empty d). rewrite Hempty.
    unfold DataValidator.validate.
    pose proof (validate_schema_flag (Some d)) as Hflag.
    destruct (DataValidator.validate_schema (Some d)) as [sv se].
    simpl in Herr, Hflag. subst sv.
    destruct se as [ | e0 se]; [contradiction | ]. reflexivity.
  - pose proof (stable_determine_date_range self t start_date end_date w)
      as H1.
    rewrite Hwindow in H1.
    pose proof (stable_attempts
                  (IngestionPipeline.downloader self)
                  (fun attempt =>
                     StockDataDownloader.attempt_body
                       (IngestionPipeline.provider
                          self t
                          (str_or (Some (fst window))
                                  (Config.default_start_date
                                     (IngestionPipeline.settings self)))
                          (str_or (Some (snd window))
                                  (Config.default_end_date
                                     (IngestionPipeline.settings self)))
                          attempt) t)
                  (seq 0 (Z.to_nat (StockDataDownloader.max_retries
                                      (IngestionPipeline.downloader self))))
                  w1) as H2.
    unfold StockDataDownloader.download_ticker in Hdownload.
    rewrite Hdownload in H2. unfold same_table in *. simpl in *. congruence.
Qed.

Lemma turn_schema_gate_witness :
  exists errs w2,
    IngestionPipeline.process
      (IngestionPipeline.init Sample.settings text_prices true)
      None None false "X"
      (IngestionPipeline.initial_results, Sample.world small_table)
    = (inr tt,
       (with_failure (IngestionPipeline.SchemaValidationFailed "X" errs)
                     IngestionPipeline.initial_results,
        w2))
    /\ In (DataValidator.ColumnNotNumeric "open") errs
    /\ DuckDBStorage.stock_prices w2 = small_table.
Proof.
  destruct (turn_schema_gate
              (IngestionPipeline.init Sample.settings text_prices true)
              None None false "X" IngestionPipeline.initial_results
              (Sample.world small_table) (Sample.world small_table)
              (Sample.world small_table)
              ("2024-01-11", "2024-01-15")
              (StockDataDownloader.set_columns
                 [("ticker", StockDataDownloader.object_of_str);
                  ("date", StockDataDownloader.datetime64);
                  ("open", Sample.text); ("high", Sample.numeric);
                  ("low", Sample.numeric); ("close", Sample.numeric);
                  ("volume", Sample.numeric); ("adj_close", Sample.numeric)]
                 (Sample.frame [Sample.bar "X" Sample.day 5]))
              "open" eq_refl eq_refl)
    as (errs & Hrun & Herr & Htable).
  - unfold numeric_columns. simpl. tauto.
  - reflexivity.
  - exists errs, (Sample.world small_table). auto.
Defined.

(** ** Running the pipeline again *)

#[export] Instance working_kept_preorder : PreOrder working_kept.
Proof.
  split.
  - intros w. split; auto.
  - intros w1 w2 w3 [H1 H2] [H3 H4]. split; [congruence | auto].
Qed.

Section FixedTurns.
Import DuckDBStorage.

Lemma times_settled {A} (f : A -> A) :
  (forall a, f (f a) = f a) ->
  forall n a, times n f (times n f a) = times n f a.
Proof.
  intros Hf.
  assert (Hone : forall n a, times (S n) f a = f a).
  { induction n as [ | n IH]; intro a; [reflexivity | ].
    change (times (S (S n)) f a) with (times (S n) f (f a)).
    rewrite IH. apply Hf. }
  intros [ | n] a; [reflexivity | ].
  rewrite !Hone. apply Hf.
Qed.

Lemma world_kept_working (w w' : World) :
  world_kept w w' -> working_kept w w'.
Proof. intros (Hc & _ & Hf). split; assumption. Qed.

Lemma working_kept_sleep (seconds : Z) :
  stable working_kept (StockDataDownloader.sleep seconds).
Proof.
  intro w. unfold StockDataDownloader.sleep.
  destruct (seconds <? 0); simpl; split; auto.
Qed.

Lemma working_kept_attempts self fetch (range : list nat) :
  stable working_kept (StockDataDownloader.attempts self fetch range).
Proof.
  induction range as [ | attempt range IH]; simpl.
  - apply stable_ret. typeclasses eauto.
  - repeat first [ apply working_kept_sleep | exact IH | stable_step ].
Qed.

Lemma working_kept_execute {A}
      (stmt : list StoredRow -> exn + (A * list StoredRow)) :
  stable working_kept (execute stmt).
Proof. intro w. apply world_kept_working, world_kept_execute. Qed.

Lemma working_kept_upsert_data (df : option DataFrame) :
  stable working_kept (upsert_data df).
Proof. intro w. apply world_kept_working, world_kept_upsert_data. Qed.

(** The outcome of the attempts and the time they take do not depend on
    the world. *)
Lemma attempts_fixed self fetch (range : list nat) :
  exists res elapsed,
    forall w,
      StockDataDownloader.attempts self fetch range w
      = (res, set_now (now w + elapsed) w).
Proof.
  induction range as [ | attempt range IH]; simpl.
  - exists (inr None), 0. intro w. unfold ret.
    rewrite Z.add_0_r, set_now_now. reflexivity.
  - destruct (fetch attempt) as [e | df].
    + destruct (Z.of_nat attempt <? StockDataDownloader.max_retries self - 1).
      * unfold bind, StockDataDownloader.sleep.
        destruct (StockDataDownloader.retry_delay self <? 0).
        -- exists (inl ValueError), 0. intro w. unfold raise.
           rewrite Z.add_0_r, set_now_now. reflexivity.
        -- destruct IH as (res & elapsed & IH).
           exists res, (StockDataDownloader.retry_delay self + elapsed).
           intro w. unfold modify. rewrite IH. simpl.
           rewrite set_now_set_now. do 2 f_equal. lia.
      * exists (inr None), 0. intro w. unfold ret.
        rewrite Z.add_0_r, set_now_now. reflexivity.
    + exists (inr df), 0. intro w. unfold ret.
      rewrite Z.add_0_r, set_now_now. reflexivity.
Qed.

End FixedTurns.

Section FixedAnalysis.
Import DuckDBStorage.
Variable self : IngestionPipeline.Pipeline.
Variables start_date end_date : option string.
Hypothesis Hexplicit : reads_store self start_date = false.

(** With a window that is not read from the store, what [analyse] hands
    over, what it adds to the report and the time it takes do not depend
    on the state. *)
Lemma analyse_fixed (t : string) :
  exists res G elapsed,
    forall r w,
      analyse self start_date end_date t (r, w)
      = (res, (G r, set_now (now w + elapsed) w)).
Proof.
  unfold analyse, IngestionPipeline.determine_date_range.
  unfold reads_store in Hexplicit. rewrite Hexplicit.
  unfold StockDataDownloader.download_ticker.
  destruct (attempts_fixed
              (IngestionPipeline.downloader self)
              (fun attempt =>
                 StockDataDownloader.attempt_body
                   (IngestionPipeline.provider
                      self t
                      (str_or
                         (Some (str_or start_date
                                       (Config.default_start_date
                                          (IngestionPipeline.settings self))))
                         (Config.default_start_date
                            (IngestionPipeline.settings self)))
                      (str_or
                         (Some (str_or end_date
                                       (Config.default_end_date
                                          (IngestionPipeline.settings self))))
                         (Config.default_end_date
                            (IngestionPipeline.settings self)))
                      attempt) t)
              (seq 0 (Z.to_nat (StockDataDownloader.max_retries
                                  (IngestionPipeline.downloader self)))))
    as (res0 & elapsed & Hatt).
  assert (Hstart : forall (k : option DataFrame
                               -> M IngestionPipeline.State
                                    (option (option DataFrame)))
                          r w,
             bind (on_snd
                     (ret (str_or start_date
                                  (Config.default_start_date
                                     (IngestionPipeline.settings self)),
                           str_or end_date
                                  (Config.default_end_date
                                     (IngestionPipeline.settings self)))))
                  (fun window =>
                     let '(download_start, download_end) := window in
                     bind (on_snd
                             (StockDataDownloader.attempts
                                (IngestionPipeline.downloader self)
                                (fun attempt =>
                                   StockDataDownloader.attempt_body
                                     (IngestionPipeline.provider
                                        self t
                                        (str_or
                                           (Some download_start)
                                           (Config.default_start_date
                                              (IngestionPipeline.settings
                                                 self)))
                                        (str_or
                                           (Some download_end)
                                           (Config.default_end_date
                                              (IngestionPipeline.settings
                                                 self)))
                                        attempt) t)
                                (seq 0 (Z.to_nat
                                          (StockDataDownloader.max_retries
                                             (IngestionPipeline.downloader
                                                self)))))) k)
                  (r, w)
             = match res0 with
               | inl e => (inl e, (r, set_now (now w + elapsed) w))
               | inr df => k df (r, set_now (now w + elapsed) w)
               end).
  { intros k r w. unfold bind at 1. unfold on_snd at 1, ret at 1.
    cbn [snd fst]. unfold bind at 1. unfold on_snd at 1. cbn [snd fst].
    rewrite Hatt. destruct res0; reflexivity. }
  destruct res0 as [e | df].
  { exists (inl e), (fun r => r), elapsed. intros r w. apply Hstart. }
  destruct (none_or_empty df) eqn:Hnone.
  { eexists _, _, elapsed. intros r w. rewrite Hstart, Hnone.
    unfold bind, IngestionPipeline.add_warning, IngestionPipeline.update,
      modify, ret. cbn [fst snd].
    instantiate (2 := inr None). instantiate (1 := with_warning _).
    reflexivity. }
  destruct (DataValidator.validate (IngestionPipeline.settings self) df)
    as [e | [[v errs] ws]] eqn:Hv.
  { exists (inl e), (fun r => r), elapsed. intros r w.
    rewrite Hstart, Hnone, Hv. reflexivity. }
  destruct (truthy errs) eqn:Herrs.
  { eexists _, _, elapsed. intros r w. rewrite Hstart, Hnone, Hv.
    unfold bind at 1, lift_result at 1. rewrite Herrs.
    unfold bind, IngestionPipeline.add_error, IngestionPipeline.count_failed,
      IngestionPipeline.update, modify, ret. cbn [fst snd].
    instantiate (2 := inr None). instantiate (1 := with_failure _).
    reflexivity. }
  destruct (truthy ws) eqn:Hws.
  2:{ exists (inr (Some df)), (fun r => r), elapsed. intros r w.
      rewrite Hstart, Hnone, Hv.
      unfold bind at 1, lift_result at 1. rewrite Herrs, Hws.
      reflexivity. }
  destruct (DataValidator.filter_invalid_rows df) as [e | [d | ]] eqn:Hf.
  - eexists _, _, elapsed. intros r w. rewrite Hstart, Hnone, Hv.
    unfold bind at 1, lift_result at 1. rewrite Herrs, Hws.
    unfold bind, IngestionPipeline.add_warning, IngestionPipeline.update,
      modify, lift_result. cbn [fst snd]. rewrite Hf.
    instantiate (2 := inl e). instantiate (1 := with_warning _).
    reflexivity.
  - destruct (empty d) eqn:Hd.
    + eexists _, _, elapsed. intros r w. rewrite Hstart, Hnone, Hv.
      unfold bind at 1, lift_result at 1. rewrite Herrs, Hws.
      unfold bind, IngestionPipeline.add_warning,
        IngestionPipeline.add_error, IngestionPipeline.count_failed,
        IngestionPipeline.update, modify, lift_result, ret.
      cbn [fst snd]. rewrite Hf, Hd.
      instantiate (2 := inr None).
      instantiate (1 := fun r => with_failure _ (with_warning _ r)).
      reflexivity.
    + eexists _, _, elapsed. intros r w. rewrite Hstart, Hnone, Hv.
      unfold bind at 1, lift_result at 1. rewrite Herrs, Hws.
      unfold bind, IngestionPipeline.add_warning, IngestionPipeline.update,
        modify, lift_result, ret. cbn [fst snd]. rewrite Hf, Hd.
      instantiate (2 := inr (Some (Some d))).
      instantiate (1 := with_warning _).
      reflexivity.
  - eexists _, _, elapsed. intros r w. rewrite Hstart, Hnone, Hv.
    unfold bind at 1, lift_result at 1. rewrite Herrs, Hws.
    unfold bind, IngestionPipeline.add_warning, IngestionPipeline.update,
      modify, lift_result, raise. cbn [fst snd]. rewrite Hf.
    instantiate (2 := inl AttributeError). instantiate (1 := with_warning _).
    reflexivity.
Qed.

End FixedAnalysis.

Section BarsOfATicker.
Import DuckDBStorage.

Lemma rows_of_app (t : string) (a b : list StoredRow) :
  rows_of t (a ++ b) = rows_of t a ++ rows_of t b.
Proof. apply filter_app. Qed.

Lemma rows_of_own (t : string) (l : list StoredRow) :
  (forall s, In s l -> s_ticker s = t) -> rows_of t l = l.
Proof.
  intro H. apply forallb_filter_id. apply forallb_forall. intros s Hs.
  apply String.eqb_eq. auto.
Qed.

Lemma rows_of_others (t : string) (l : list StoredRow) :
  (forall s, In s l -> s_ticker s <> t) -> rows_of t l = [].
Proof.
  intro H. induction l as [ | s l IH]; [reflexivity | ].
  unfold rows_of. simpl.
  destruct (String.eqb_spec (s_ticker s) t) as [Heq | _].
  - exfalso. apply (H s); [left; reflexivity | exact Heq].
  - apply IH. intros s' Hs'. apply H. right. exact Hs'.
Qed.

(** The DELETE of an upsert of [t], seen on the bars of [t]. *)
Lemma bars_of_kept (t : string) (ds : list Z) (table : list StoredRow) :
  bars_of t (kept t ds table)
  = filter (outside (minimum ds) (maximum ds)) (bars_of t table).
Proof.
  unfold bars_of, rows_of, kept.
  induction table as [ | s table IH]; [reflexivity | ].
  cbn [filter]. unfold in_span at 1.
  destruct (String.eqb (s_ticker s) t) eqn:Ht; cbn [andb negb].
  - cbn [filter map].
    assert (Hout : outside (minimum ds) (maximum ds) (price_bar s)
                   = negb ((minimum ds <=? s_date s)
                           && (s_date s <=? maximum ds))) by reflexivity.
    rewrite Hout.
    destruct (negb ((minimum ds <=? s_date s) && (s_date s <=? maximum ds))).
    + cbn [filter map]. rewrite Ht. cbn [map]. f_equal. exact IH.
    + exact IH.
  - cbn [filter]. rewrite Ht. exact IH.
Qed.

(** ... and seen on the rows of another ticker. *)
Lemma rows_of_kept_other (t u : string) (lo hi : Z)
      (table : list StoredRow) :
  u <> t ->
  rows_of u (filter (fun r => negb (in_span (Some t) lo hi r)) table)
  = rows_of u table.
Proof.
  intros Hne. unfold rows_of.
  induction table as [ | s table IH]; [reflexivity | ].
  cbn [filter]. unfold in_span at 1.
  destruct (String.eqb_spec (s_ticker s) t) as [Ht | Ht]; cbn [andb negb].
  - destruct (String.eqb_spec (s_ticker s) u) as [Hu | Hu];
      [congruence | ].
    destruct (negb _); [cbn [filter] | exact IH].
    destruct (String.eqb_spec (s_ticker s) u); [congruence | exact IH].
  - cbn [filter]. rewrite IH. reflexivity.
Qed.

(** The rows of a frame of dated rows all lie in its span. *)
Lemma outside_frame (rs : list Row) (ds : list Z) :
  dates rs = inr ds ->
  filter (outside (minimum ds) (maximum ds)) rs = [].
Proof.
  intro Hdates.
  assert (Hall : forall r, In r rs ->
             outside (minimum ds) (maximum ds) r = false).
  { intros r Hr.
    assert (Hd : In (date r) (map Some ds)).
    { rewrite <- (proj1 (dates_spec _ _) Hdates). apply in_map. exact Hr. }
    apply in_map_iff in Hd as (d & Hd & Hin).
    apply minimum_maximum_bounds in Hin. unfold outside. rewrite <- Hd.
    apply negb_false_iff, andb_true_iff. split; apply Z.leb_le; lia. }
  clear Hdates. induction rs as [ | r rs IH]; [reflexivity | ].
  simpl. rewrite (Hall r) by (left; reflexivity).
  apply IH. intros r' Hr'. apply Hall. right. exact Hr'.
Qed.

Lemma dates_present (rs : list Row) :
  (forall r, In r rs -> date r <> None) -> exists ds, dates rs = inr ds.
Proof.
  induction rs as [ | r rs IH]; intro Hall; simpl.
  - exists []. reflexivity.
  - destruct (date r) as [d | ] eqn:Hd.
    + destruct IH as [ds Hds]; [intros; apply Hall; right; assumption | ].
      rewrite Hds. exists (d :: ds). reflexivity.
    + exfalso. apply (Hall r); [left; reflexivity | exact Hd].
Qed.

End BarsOfATicker.

Section TurnsOfOtherTickers.
Import DuckDBStorage.
Variable self : IngestionPipeline.Pipeline.
Variables start_date end_date : option string.

(** The turn of a ticker leaves the rows of every other ticker where
    they are. *)
Lemma step_other (validate_only : bool) (t u : string)
      (s : IngestionPipeline.State) :
  u <> t ->
  rows_of u (stock_prices
               (snd (step self start_date end_date validate_only s t)))
  = rows_of u (stock_prices (snd s)).
Proof.
  intros Hne. unfold step, IngestionPipeline.process, try_except.
  rewrite process_ticker_split. unfold bind at 1.
  pose proof (nothing_stored_analyse self start_date end_date t s)
    as [Hsame _].
  unfold same_table in Hsame.
  destruct (analyse self start_date end_date t s) as [[e | [df | ]] s1]
    eqn:Hrun; simpl in Hsame.
  - simpl. rewrite Hsame. reflexivity.
  - destruct (analyse_clean self start_date end_date t s s1 df Hrun)
      as (d & -> & Hsingle & _ & Hempty & _).
    unfold IngestionPipeline.store_data.
    destruct validate_only; simpl negb; cbv iota.
    + simpl. rewrite Hsame. reflexivity.
    + unfold bind at 1. unfold bind at 1. unfold on_snd at 1.
      assert (Hup : rows_of u (stock_prices
                                 (snd (upsert_data (Some d) (snd s1))))
                    = rows_of u (stock_prices (snd s))).
      { apply (upsert_data_preserves
                 (fun table => rows_of u table
                               = rows_of u (stock_prices (snd s)))).
        - rewrite Hsame. reflexivity.
        - intros ds table _ Htable.
          rewrite (first_ticker_single t d Hsingle).
          + rewrite rows_of_kept_other by exact Hne. exact Htable.
          + intro Hnil. unfold empty in Hempty. rewrite Hnil in Hempty.
            discriminate.
        - intros c table table' Htable Hins.
          apply insert_rows_app in Hins as (new & -> & Hbars & _).
          rewrite rows_of_app, Htable, (rows_of_others u new).
          + apply app_nil_r.
          + intros x Hx Hu.
            assert (Hr : In (price_bar x) (rows d))
              by (rewrite <- Hbars; apply in_map; exact Hx).
            specialize (Hsingle _ Hr). simpl in Hsingle.
            injection Hsingle as Ht. congruence. }
      destruct (upsert_data (Some d) (snd s1)) as [[e | n] w2];
        simpl in *; exact Hup.
  - simpl. rewrite Hsame. reflexivity.
Qed.

End TurnsOfOtherTickers.

Section FixedSteps.
Import DuckDBStorage.
Variable self : IngestionPipeline.Pipeline.
Variables start_date end_date : option string.
Hypothesis Hexplicit : reads_store self start_date = false.

Lemma outside_settled (lo hi : Z) (b new : list Row) :
  filter (outside lo hi) new = [] ->
  filter (outside lo hi) (filter (outside lo hi) b ++ new) ++ new
  = filter (outside lo hi) b ++ new.
Proof.
  intro Hnew. rewrite filter_app, Hnew, app_nil_r, filter_filter.
  f_equal. apply filter_ext. intro r. apply andb_diag.
Qed.

Lemma outside_twice (lo hi : Z) (b : list Row) :
  filter (outside lo hi) (filter (outside lo hi) b)
  = filter (outside lo hi) b.
Proof.
  rewrite filter_filter. apply filter_ext. intro r. apply andb_diag.
Qed.

(** One turn on a working connection: what it adds to the report, the
    time it takes and what it does to the bars of its ticker are fixed. *)
Lemma step_fixed (validate_only : bool) (t : string) :
  exists F elapsed (T : list Row -> list Row),
    (forall b, T (T b) = T b)
    /\ forall r w,
        working w ->
        fst (step self start_date end_date validate_only (r, w) t) = F r
        /\ working (snd (step self start_date end_date validate_only
                              (r, w) t))
        /\ now (snd (step self start_date end_date validate_only (r, w) t))
           = now w + elapsed
        /\ bars_of t (stock_prices
                        (snd (step self start_date end_date validate_only
                                   (r, w) t)))
           = T (bars_of t (stock_prices w)).
Proof.
  destruct (analyse_fixed self start_date end_date Hexplicit t)
    as (res & G & elapsed & Han).
  assert (Hstep : forall r w,
             step self start_date end_date validate_only (r, w) t
             = match res with
               | inl e =>
                 (record_failure t e (G r), set_now (now w + elapsed) w)
               | inr None => (G r, set_now (now w + elapsed) w)
               | inr (Some df) =>
                 snd (try_except
                        (IngestionPipeline.store_data validate_only df)
                        (fun e =>
                           IngestionPipeline.add_error
                             (IngestionPipeline.PipelineError t e) ;;
                           IngestionPipeline.count_failed)
                        (G r, set_now (now w + elapsed) w))
               end).
  { intros r w. unfold step, IngestionPipeline.process, try_except.
    rewrite process_ticker_split. unfold bind at 1. rewrite Han.
    destruct res as [e | [df | ]]; reflexivity. }
  destruct res as [e | [df | ]].
  - exists (fun r => record_failure t e (G r)), elapsed, (fun b => b).
    split; [reflexivity | ]. intros r w [Hc Hf]. rewrite Hstep.
    repeat split; assumption.
  - pose (w0 := {| conn := true; stock_prices := []; faults := [];
                   now := 0 |}).
    destruct (analyse_clean self start_date end_date t _ _ df
                            (Han IngestionPipeline.initial_results w0))
      as (d & -> & Hsingle & Hcols & Hempty & Hok & Hnumeric).
    destruct validate_only.
    { exists (fun r => fst (snd (IngestionPipeline.count_processed
                                   (G r, w0)))), elapsed, (fun b => b).
      split; [reflexivity | ]. intros r w [Hc Hf]. rewrite Hstep.
      unfold try_except, IngestionPipeline.store_data. simpl.
      repeat split; assumption. }
    assert (Hrows : rows d <> []).
    { intro Hnil. unfold empty in Hempty. rewrite Hnil in Hempty.
      discriminate. }
    destruct (dates_present (rows d)) as [ds Hdates].
    { intros r Hr. apply (row_ok_sound r (Hok r Hr)). }
    assert (Hraised : forall e,
               (forall w, conn w = true -> faults w = [] ->
                  upsert_data (Some d) w
                  = (inl e,
                     set_stock_prices (kept t ds (stock_prices w)) w)) ->
               forall r w,
                 working w ->
                 step self start_date end_date false (r, w) t
                 = (record_failure t e (G r),
                    set_stock_prices
                      (kept t ds (stock_prices w))
                      (set_now (now w + elapsed) w))).
    { intros e Hup r w [Hc Hf]. rewrite Hstep.
      unfold try_except, IngestionPipeline.store_data. cbn [negb].
      unfold bind at 1. unfold bind at 1. unfold on_snd at 1.
      cbn [snd fst]. rewrite Hup by assumption. reflexivity. }
    assert (Hdec : forall x y : Z, {x = y} + {x <> y}) by apply Z.eq_dec.
    destruct (casts_to_bigint (rows d)) eqn:Hvolumes;
      [destruct (ListDec.NoDup_dec Hdec ds) as [Hdistinct | Hrepeated] | ].
    + exists (fun r => with_stored (List.length (rows d)) (G r)), elapsed,
        (fun b => filter (outside (minimum ds) (maximum ds)) b ++ rows d).
      split.
      { intro b. apply outside_settled, outside_frame. exact Hdates. }
      intros r w [Hc Hf].
      destruct (upsert_data_ok t d ds Hsingle Hdates Hrows Hcols Hnumeric
                               Hdistinct Hvolumes
                               (set_now (now w + elapsed) w) Hc Hf)
        as (new & Hup & Hbars & _).
      assert (Hres : step self start_date end_date false (r, w) t
                     = (with_stored (List.length (rows d)) (G r),
                        set_stock_prices
                          (kept t ds (stock_prices w) ++ new)
                          (set_now (now w + elapsed) w))).
      { rewrite Hstep.
        unfold try_except, IngestionPipeline.store_data. cbn [negb].
        unfold bind at 1. unfold bind at 1. unfold on_snd at 1.
        cbn [snd fst]. rewrite Hup. reflexivity. }
      rewrite Hres. cbn [fst snd].
      split; [reflexivity | ]. split; [split; assumption | ].
      split; [reflexivity | ]. cbn [stock_prices set_stock_prices].
      unfold bars_of. rewrite rows_of_app, map_app.
      fold (bars_of t (kept t ds (stock_prices w))).
      rewrite bars_of_kept. unfold bars_of at 1. f_equal.
      rewrite rows_of_own; [exact Hbars | ].
      intros s Hs.
      apply (new_rows_in_span t d ds Hsingle Hdates new Hbars s Hs).
    + exists (fun r => record_failure
                         t (ConstraintException "PRIMARY KEY") (G r)),
        elapsed, (filter (outside (minimum ds) (maximum ds))).
      split; [intro b; apply outside_twice | ].
      intros r w Hw.
      rewrite (Hraised (ConstraintException "PRIMARY KEY")); [ | | exact Hw].
      * destruct Hw as [Hc Hf]. cbn [fst snd].
        split; [reflexivity | ]. split; [split; assumption | ].
        split; [reflexivity | ]. apply bars_of_kept.
      * intros w' Hc' Hf'.
        rewrite (upsert_data_numeric t d ds) by assumption.
        rewrite Hvolumes.
        rewrite (insert_rows_repeated _ t); [reflexivity | | ].
        -- intros x Hx.
           destruct (frame_row_key t d ds Hsingle Hdates x Hx)
             as [Htk (d0 & Hd0 & _)].
           split; [exact Htk | exists d0; exact Hd0].
        -- intro Hnodup. apply Hrepeated.
           rewrite (proj1 (dates_spec _ _) Hdates) in Hnodup.
           exact (NoDup_map_inv _ _ Hnodup).
    + exists (fun r => record_failure
                         t (ConversionException "INT64") (G r)),
        elapsed, (filter (outside (minimum ds) (maximum ds))).
      split; [intro b; apply outside_twice | ].
      intros r w Hw.
      rewrite (Hraised (ConversionException "INT64")); [ | | exact Hw].
      * destruct Hw as [Hc Hf]. cbn [fst snd].
        split; [reflexivity | ]. split; [split; assumption | ].
        split; [reflexivity | ]. apply bars_of_kept.
      * intros w' Hc' Hf'.
        apply (upsert_data_overflow t d ds); assumption.
  - exists G, elapsed, (fun b => b).
    split; [reflexivity | ]. intros r w [Hc Hf]. rewrite Hstep.
    repeat split; assumption.
Qed.

End FixedSteps.

Section FixedRuns.
Import DuckDBStorage.
Variable self : IngestionPipeline.Pipeline.
Variables start_date end_date : option string.
Hypothesis Hexplicit : reads_store self start_date = false.

(** The turns of a list of tickers on a working connection, seen from
    the bars of one ticker. *)
Lemma fold_fixed (validate_only : bool) (u : string) :
  exists T : list Row -> list Row,
    (forall b, T (T b) = T b)
    /\ forall tickers,
      exists F elapsed n,
        forall r w,
          working w ->
          fst (fold_left (step self start_date end_date validate_only)
                         tickers (r, w)) = F r
          /\ working
               (snd (fold_left (step self start_date end_date validate_only)
                               tickers (r, w)))
          /\ now (snd (fold_left
                         (step self start_date end_date validate_only)
                         tickers (r, w)))
             = now w + elapsed
          /\ bars_of u (stock_prices
                          (snd (fold_left
                                  (step self start_date end_date
                                        validate_only)
                                  tickers (r, w))))
             = times n T (bars_of u (stock_prices w)).
Proof.
  destruct (step_fixed self start_date end_date Hexplicit validate_only u)
    as (Fu & Eu & T & HT & Hu).
  exists T. split; [exact HT | ].
  induction tickers as [ | t tickers IH].
  - exists (fun r => r), 0, 0%nat. intros r w Hw. cbn [fold_left fst snd].
    split; [reflexivity | ]. split; [exact Hw | ].
    split; [lia | reflexivity].
  - destruct IH as (F & E & n & IH).
    destruct (String.eqb_spec t u) as [-> | Hne].
    + exists (fun r => F (Fu r)), (Eu + E), (S n). intros r w Hw.
      cbn [fold_left].
      destruct (Hu r w Hw) as (H1 & H2 & H3 & H4).
      destruct (step self start_date end_date validate_only (r, w) u)
        as [r1 w1]. cbn [fst snd] in *. subst r1.
      destruct (IH (Fu r) w1 H2) as (H5 & H6 & H7 & H8).
      rewrite H5, H7, H8, H3, H4.
      split; [reflexivity | ]. split; [exact H6 | ].
      split; [lia | reflexivity].
    + destruct (step_fixed self start_date end_date Hexplicit
                           validate_only t)
        as (Ft & Et & Tt & _ & Ht).
      exists (fun r => F (Ft r)), (Et + E), n. intros r w Hw.
      cbn [fold_left].
      destruct (Ht r w Hw) as (H1 & H2 & H3 & _).
      pose proof (step_other self start_date end_date validate_only t u
                             (r, w) (not_eq_sym Hne)) as H4.
      destruct (step self start_date end_date validate_only (r, w) t)
        as [r1 w1]. cbn [fst snd] in *. subst r1.
      destruct (IH (Ft r) w1 H2) as (H5 & H6 & H7 & H8).
      rewrite H5, H7, H8, H3. unfold bars_of. rewrite H4.
      split; [reflexivity | ]. split; [exact H6 | ].
      split; [lia | reflexivity].
Qed.

Lemma close_keeps (w : World) :
  stock_prices (close w) = stock_prices w
  /\ faults (close w) = faults w /\ now (close w) = now w.
Proof. unfold close. destruct (conn w); repeat split. Qed.

End FixedRuns.

(** X23.  Running the pipeline again.  With a start date given (or
    incremental mode off), so that the window is not read from the store,
    against a provider that answers as before and a database that does not
    fail, a second run reports the same errors, warnings and counts as the
    first and leaves the stored bars of every ticker, in their order, as
    the first run left them. *)
Theorem run_again
        (self : IngestionPipeline.Pipeline) (tickers : list string)
        (start_date end_date : option string) (validate_only : bool)
        (w : DuckDBStorage.World)
        (Hexplicit : reads_store self start_date = false)
        (Hfaults : DuckDBStorage.faults w = []) :
  let first :=
    IngestionPipeline.run self tickers start_date end_date validate_only w in
  let second :=
    IngestionPipeline.run
      self tickers start_date end_date validate_only (snd first) in
  same_report (fst second) (fst first)
  /\ IngestionPipeline.total_rows_inserted (fst second)
     = IngestionPipeline.total_rows_inserted (fst first)
  /\ forall t,
      map DuckDBStorage.price_bar
          (rows_of t (DuckDBStorage.stock_prices (snd second)))
      = map DuckDBStorage.price_bar
            (rows_of t (DuckDBStorage.stock_prices (snd first))).
Proof.
  cbv zeta.
  enough (Hall :
            fst (IngestionPipeline.run
                   self tickers start_date end_date validate_only
                   (snd (IngestionPipeline.run
                           self tickers start_date end_date validate_only
                           w)))
            = fst (IngestionPipeline.run
                     self tickers start_date end_date validate_only w)
            /\ forall t,
                map DuckDBStorage.price_bar
                    (rows_of t
                       (DuckDBStorage.stock_prices
                          (snd (IngestionPipeline.run
                                  self tickers start_date end_date
                                  validate_only
                                  (snd (IngestionPipeline.run
                                          self tickers start_date end_date
                                          validate_only w))))))
                = map DuckDBStorage.price_bar
                      (rows_of t
                         (DuckDBStorage.stock_prices
                            (snd (IngestionPipeline.run
                                    self tickers start_date end_date
                                    validate_only w))))).
  { destruct Hall as [Hreport Hbars]. rewrite Hreport.
    split; [repeat split | ]. split; [reflexivity | exact Hbars]. }
  pose proof (connect_ok w Hfaults) as Hconnect.
  rewrite (run_connected self start_date end_date validate_only tickers
                         w _ Hconnect).
  cbn [fst snd].
  set (s1 := fold_left (step self start_date end_date validate_only)
                       tickers
                       (IngestionPipeline.initial_results,
                        DuckDBStorage.set_conn true w)).
  assert (Hw0 : working (DuckDBStorage.set_conn true w))
    by (split; [reflexivity | exact Hfaults]).
  destruct (close_keeps (snd s1)) as (Htable1 & Hfaults1 & Hnow1).
  assert (Hworking1 : working (snd s1)).
  { destruct (fold_fixed self start_date end_date Hexplicit
                         validate_only "") as (T & _ & Hfold).
    destruct (Hfold tickers) as (F & E & n & Hrun).
    apply (Hrun IngestionPipeline.initial_results _ Hw0). }
  assert (Hfaults1' : DuckDBStorage.faults (DuckDBStorage.close (snd s1)) = [])
    by (rewrite Hfaults1; apply Hworking1).
  pose proof (connect_ok _ Hfaults1') as Hconnect1.
  rewrite (run_connected self start_date end_date validate_only tickers
                         _ _ Hconnect1).
  cbn [fst snd].
  set (s2 := fold_left (step self start_date end_date validate_only)
                       tickers
                       (IngestionPipeline.initial_results,
                        DuckDBStorage.set_conn
                          true (DuckDBStorage.close (snd s1)))).
  assert (Hw1 : working (DuckDBStorage.set_conn
                           true (DuckDBStorage.close (snd s1))))
    by (split; [reflexivity | exact Hfaults1']).
  split.
  - destruct (fold_fixed self start_date end_date Hexplicit
                         validate_only "") as (T & _ & Hfold).
    destruct (Hfold tickers) as (F & E & n & Hrun).
    destruct (Hrun IngestionPipeline.initial_results _ Hw0)
      as (Hr1 & _ & Hn1 & _).
    destruct (Hrun IngestionPipeline.initial_results _ Hw1)
      as (Hr2 & _ & Hn2 & _).
    fold s1 in Hr1, Hn1. fold s2 in Hr2, Hn2.
    rewrite Hr1, Hr2, Hn1, Hn2. cbn [DuckDBStorage.now DuckDBStorage.set_conn].
    rewrite Hnow1, Hn1. cbn [DuckDBStorage.now DuckDBStorage.set_conn].
    f_equal. lia.
  - intro t. rewrite !(proj1 (close_keeps _)).
    destruct (fold_fixed self start_date end_date Hexplicit
                         validate_only t) as (T & HT & Hfold).
    destruct (Hfold tickers) as (F & E & n & Hrun).
    destruct (Hrun IngestionPipeline.initial_results _ Hw0)
      as (_ & _ & _ & Hb1).
    destruct (Hrun IngestionPipeline.initial_results _ Hw1)
      as (_ & _ & _ & Hb2).
    fold s1 in Hb1. fold s2 in Hb2. unfold bars_of in Hb1, Hb2.
    rewrite Hb2. cbn [DuckDBStorage.stock_prices DuckDBStorage.set_conn].
    rewrite Htable1, Hb1.
    cbn [DuckDBStorage.stock_prices DuckDBStorage.set_conn].
    apply times_settled. exact HT.
Qed.

Lemma run_again_witness :
  let first :=
    IngestionPipeline.run
      (IngestionPipeline.init Sample.settings (Sample.serves ten_days) true)
      ["X"; "Y"] (Some "2024-01-01") None false (Sample.world small_table) in
  let second :=
    IngestionPipeline.run
      (IngestionPipeline.init Sample.settings (Sample.serves ten_days) true)
      ["X"; "Y"] (Some "2024-01-01") None false (snd first) in
  IngestionPipeline.total_rows_inserted (fst first) = 20%nat
  /\ IngestionPipeline.total_rows_inserted (fst second) = 20%nat
  /\ map DuckDBStorage.price_bar
         (rows_of "X" (DuckDBStorage.stock_prices (snd second)))
     = map (fun d => Sample.bar "X" d 5) ten_days.
Proof.
  cbv zeta.
  destruct (run_again
              (IngestionPipeline.init
                 Sample.settings (Sample.serves ten_days) true)
              ["X"; "Y"] (Some "2024-01-01") None false
              (Sample.world small_table) eq_refl eq_refl)
    as (_ & Hinserted & Hbars).
  split; [reflexivity | ]. split; [rewrite Hinserted; reflexivity | ].
  rewrite Hbars. reflexivity.
Defined.
